(** * XTranscribe: input modes, simulated progress and playback synchronisation

    A shallow embedding of the orchestration component ([src/app/page.tsx]),
    the audio transport ([src/components/audio-player.tsx]), the transcript
    viewer ([src/components/transcript-editor.tsx]) and the transcription flow
    ([transcribe-audio-flow], in its two revisions) of the XTranscribe
    application, with the properties of its specification stated and proved
    over that embedding.

    Conventions of the embedding.
    - A JavaScript string is the sequence of its code units, here restricted
      to the range 0..255 ([string] of the Standard Library).
    - A JavaScript number that carries a time in seconds (segment bounds,
      playback position, duration) is kept as a rational ([Q]).  The player
      compares such numbers and clamps them with [Math.max] and [Math.min];
      its sums are the exact ones.  Where the code compares against a sum it
      has rounded (the highlight window of the transcript viewer) or divides
      and prints a number (the formatter), the model works on the kernel's
      binary64 numbers, with the rounding, the infinities and [NaN] of the
      source; a rational is then read as the binary64 value nearest to it.
    - The transcription progress only ever holds small integers; it is a [Z].
    - A React component is a record of its state variables and refs.  A
      handler is a function from the rendered snapshot to the next state:
      state variables are read from the snapshot the handler closed over,
      refs and the media element are read and written in place, and a later
      [setX] overrides an earlier one. *)

From Stdlib Require Import Bool Arith ZArith QArith Qminmax Qround.
From Stdlib Require Import List String Ascii DecimalString DecimalNat DecimalN.
From Stdlib Require Import Floats Lia Lqa.
Import ListNotations.

Open Scope string_scope.

(** ** JavaScript string helpers *)

Module JS.

(** White space as [String.prototype.trim] sees it, among the code units
    0..255: TAB, LF, VT, FF, CR, SPACE and NO-BREAK SPACE. *)
Definition isWhiteSpace (c : ascii) : bool :=
  let n := nat_of_ascii c in
  ((9 <=? n)%nat && (n <=? 13)%nat) || (n =? 32)%nat || (n =? 160)%nat.

Fixpoint trimStart (s : string) : string :=
  match s with
  | EmptyString => EmptyString
  | String c s' => if isWhiteSpace c then trimStart s' else s
  end.

Fixpoint trimEnd (s : string) : string :=
  match s with
  | EmptyString => EmptyString
  | String c s' =>
      match trimEnd s' with
      | EmptyString => if isWhiteSpace c then EmptyString else String c EmptyString
      | t => String c t
      end
  end.

(** [s.trim()] *)
Definition trim (s : string) : string := trimEnd (trimStart s).

(** Truthiness of a string: only the empty string is falsy. *)
Definition truthy (s : string) : bool :=
  match s with EmptyString => false | String _ _ => true end.

(** [s === ""] *)
Definition isEmpty (s : string) : bool := negb (truthy s).

(** [x || d] for an optional string [x]: [undefined], [null] and [""] all
    give [d]. *)
Definition orDefault (x : option string) (d : string) : string :=
  match x with
  | Some s => if truthy s then s else d
  | None => d
  end.

(** [l.join(sep)] *)
Definition join (sep : string) (l : list string) : string := String.concat sep l.

(** Every code unit of [s] is white space (so [""] qualifies). *)
Fixpoint onlyWhiteSpace (s : string) : bool :=
  match s with
  | EmptyString => true
  | String c s' => isWhiteSpace c && onlyWhiteSpace s'
  end.

Lemma isEmpty_true_iff (s : string) : isEmpty s = true <-> s = "".
Proof. destruct s; cbn; split; intro H; congruence. Qed.

Lemma isEmpty_false_iff (s : string) : isEmpty s = false <-> s <> "".
Proof. destruct s; cbn; split; intro H; congruence. Qed.

Lemma trimStart_empty_iff (s : string) :
  trimStart s = "" <-> onlyWhiteSpace s = true.
Proof.
  induction s as [|c s IH]; cbn.
  - tauto.
  - destruct (isWhiteSpace c); cbn.
    + exact IH.
    + split; intro H; discriminate H.
Qed.

Lemma trimEnd_empty_iff (s : string) :
  trimEnd s = "" <-> onlyWhiteSpace s = true.
Proof.
  induction s as [|c s IH]; cbn.
  - tauto.
  - destruct (trimEnd s) as [|d t] eqn:E.
    + destruct (isWhiteSpace c); cbn.
      * split; intros _; [now apply IH | reflexivity].
      * split; intro H; discriminate H.
    + split; intro H; [discriminate H|].
      apply andb_true_iff in H as [_ H]. apply IH in H. discriminate H.
Qed.

Lemma onlyWhiteSpace_trimStart (s : string) :
  onlyWhiteSpace (trimStart s) = onlyWhiteSpace s.
Proof.
  induction s as [|c s IH]; cbn; [reflexivity|].
  destruct (isWhiteSpace c) eqn:E; cbn; [exact IH | now rewrite E].
Qed.

(** [s.trim() === ""] exactly when [s] consists of white space only. *)
Lemma trim_empty_iff (s : string) :
  trim s = "" <-> onlyWhiteSpace s = true.
Proof.
  unfold trim. rewrite trimEnd_empty_iff, onlyWhiteSpace_trimStart. tauto.
Qed.

Lemma isEmpty_trim (s : string) : isEmpty (trim s) = onlyWhiteSpace s.
Proof.
  destruct (onlyWhiteSpace s) eqn:E.
  - apply isEmpty_true_iff, trim_empty_iff, E.
  - apply isEmpty_false_iff. intro H. apply trim_empty_iff in H. congruence.
Qed.

Lemma truthy_trim (s : string) : truthy (trim s) = negb (onlyWhiteSpace s).
Proof.
  rewrite <- isEmpty_trim. unfold isEmpty. now rewrite negb_involutive.
Qed.

Lemma trim_onlyWhiteSpace (s : string) : onlyWhiteSpace s = true -> trim s = "".
Proof. apply trim_empty_iff. Qed.

(** *** Appending and joining *)

Lemma append_assoc (a b c : string) : (a ++ b) ++ c = a ++ (b ++ c).
Proof. induction a as [|x a IH]; cbn; [reflexivity | now rewrite IH]. Qed.

Lemma append_empty_r (a : string) : a ++ "" = a.
Proof. induction a as [|x a IH]; cbn; [reflexivity | now rewrite IH]. Qed.

Lemma length_append (a b : string) :
  String.length (a ++ b) = (String.length a + String.length b)%nat.
Proof. induction a as [|x a IH]; cbn; [reflexivity | now rewrite IH]. Qed.

Lemma join_cons (sep x : string) (l : list string) :
  join sep (x :: l) = match l with [] => x | _ :: _ => x ++ sep ++ join sep l end.
Proof. destruct l; reflexivity. Qed.

(** Joining with the empty separator is plain concatenation. *)
Lemma join_empty_app (l1 l2 : list string) :
  join "" (l1 ++ l2) = join "" l1 ++ join "" l2.
Proof.
  induction l1 as [|x l1 IH]; [reflexivity|].
  change ((x :: l1) ++ l2)%list with (x :: (l1 ++ l2))%list.
  rewrite !join_cons.
  destruct l1 as [|y l1].
  - cbn [app]. destruct l2 as [|z l2]; [now rewrite append_empty_r | reflexivity].
  - change ((y :: l1) ++ l2)%list with (y :: (l1 ++ l2))%list in *.
    rewrite IH. cbn. now rewrite append_assoc.
Qed.


(** *** [trim] applied twice *)

Lemma trimEnd_cons (c : ascii) (s : string) :
  trimEnd (String c s)
  = match trimEnd s with
    | EmptyString => if isWhiteSpace c then EmptyString else String c EmptyString
    | t => String c t
    end.
Proof. reflexivity. Qed.

Lemma trimEnd_idem (s : string) : trimEnd (trimEnd s) = trimEnd s.
Proof.
  induction s as [|c s IH]; [reflexivity|].
  rewrite trimEnd_cons. destruct (trimEnd s) as [|d t] eqn:E.
  - destruct (isWhiteSpace c) eqn:W; [reflexivity|].
    rewrite trimEnd_cons. cbn [trimEnd]. now rewrite W.
  - rewrite trimEnd_cons, IH. reflexivity.
Qed.

Lemma trimStart_fixed (s : string) :
  match s with
  | EmptyString => True
  | String c _ => isWhiteSpace c = false
  end ->
  trimStart (trimEnd s) = trimEnd s.
Proof.
  destruct s as [|c s]; [reflexivity|]. intro W.
  rewrite trimEnd_cons. destruct (trimEnd s) as [|d t]; rewrite ?W;
    cbn [trimStart]; now rewrite W.
Qed.

Lemma trimStart_head (s : string) :
  match trimStart s with
  | EmptyString => True
  | String c _ => isWhiteSpace c = false
  end.
Proof.
  induction s as [|c s IH]; [exact I|].
  cbn [trimStart]. destruct (isWhiteSpace c) eqn:W; [exact IH | exact W].
Qed.

(** Trimming a trimmed string changes nothing. *)
Lemma trim_idem (s : string) : trim (trim s) = trim s.
Proof.
  unfold trim. rewrite (trimStart_fixed (trimStart s) (trimStart_head s)).
  apply trimEnd_idem.
Qed.

Lemma trimStart_length (s : string) :
  (String.length (trimStart s) <= String.length s)%nat.
Proof.
  induction s as [|c s IH]; cbn; [lia|].
  destruct (isWhiteSpace c); cbn; lia.
Qed.

Lemma trimEnd_length (s : string) :
  (String.length (trimEnd s) <= String.length s)%nat.
Proof.
  induction s as [|c s IH]; [cbn; lia|].
  rewrite trimEnd_cons.
  destruct (trimEnd s); [destruct (isWhiteSpace c)|]; cbn in *; lia.
Qed.

(** A trimmed string is no longer than the string. *)
Lemma trim_length (s : string) :
  (String.length (trim s) <= String.length s)%nat.
Proof.
  unfold trim. pose proof (trimEnd_length (trimStart s)).
  pose proof (trimStart_length s). lia.
Qed.


(** *** More of [String.prototype] *)

(** [s.startsWith(searchString)] and [s.endsWith(searchString)] *)
Definition startsWith (s searchString : string) : bool :=
  String.prefix searchString s.

Definition endsWith (s searchString : string) : bool :=
  (String.length searchString <=? String.length s)%nat
  && String.eqb
       (String.substring (String.length s - String.length searchString)
          (String.length searchString) s)
       searchString.

(** [s.slice(0, -1)]: [s] without its last code unit. *)
Definition dropLast (s : string) : string :=
  String.substring 0 (String.length s - 1) s.

(** [s.substring(0, n)] *)
Definition substring0 (n : nat) (s : string) : string := String.substring 0 n s.

(** [s.toLowerCase()] on the code units 0..255: the letters A-Z and the
    capital letters of Latin-1 (192..222 without the multiplication sign)
    move up by 32. *)
Definition lowerCaseUnit (c : ascii) : ascii :=
  let n := nat_of_ascii c in
  if ((65 <=? n)%nat && (n <=? 90)%nat)
     || ((192 <=? n)%nat && (n <=? 222)%nat && negb (n =? 215)%nat)
  then ascii_of_nat (n + 32) else c.

Fixpoint toLowerCase (s : string) : string :=
  match s with
  | EmptyString => EmptyString
  | String c s' => String (lowerCaseUnit c) (toLowerCase s')
  end.

(** [s.split(sep)] for a separator of one code unit: never the empty
    list. *)
Fixpoint split (sep : ascii) (s : string) : list string :=
  match s with
  | EmptyString => [EmptyString]
  | String c s' =>
      if Ascii.eqb c sep then EmptyString :: split sep s'
      else
        match split sep s' with
        | part :: parts => String c part :: parts
        | [] => [String c EmptyString]
        end
  end.

(** [parts.pop()] on the result of a [split], and [parts.slice(0, -1)]. *)
Definition pop (parts : list string) : string := List.last parts EmptyString.
Definition withoutLast (parts : list string) : list string := removelast parts.

Lemma split_nonempty (sep : ascii) (s : string) : split sep s <> [].
Proof.
  destruct s as [|c s]; cbn; [discriminate|].
  destruct (Ascii.eqb c sep); [discriminate|].
  destruct (split sep s); discriminate.
Qed.

(** Joining the parts with the separator gives the string back. *)
Lemma join_split (sep : ascii) (s : string) :
  join (String sep EmptyString) (split sep s) = s.
Proof.
  induction s as [|c s IH]; [reflexivity|].
  cbn [split]. destruct (Ascii.eqb_spec c sep) as [->|N].
  - rewrite join_cons. pose proof (split_nonempty sep s) as NE.
    destruct (split sep s) as [|p ps]; [contradiction|].
    now rewrite IH.
  - pose proof (split_nonempty sep s) as NE.
    destruct (split sep s) as [|p ps]; [contradiction|].
    rewrite join_cons in *. destruct ps; cbn in *; now rewrite <- IH.
Qed.

(** No part contains the separator. *)
Fixpoint contains (sep : ascii) (s : string) : bool :=
  match s with
  | EmptyString => false
  | String c s' => Ascii.eqb c sep || contains sep s'
  end.

Lemma split_parts (sep : ascii) (s : string) :
  forall part, In part (split sep s) -> contains sep part = false.
Proof.
  induction s as [|c s IH]; intros part H.
  - destruct H as [<-|[]]. reflexivity.
  - cbn [split] in H. destruct (Ascii.eqb c sep) eqn:E.
    + destruct H as [<-|H]; [reflexivity | now apply IH].
    + pose proof (split_nonempty sep s) as NE.
      destruct (split sep s) as [|p ps]; [contradiction|].
      destruct H as [<-|H].
      * cbn. rewrite E. apply IH. now left.
      * apply IH. now right.
Qed.

(** A string without the separator is its own only part. *)
Lemma split_without (sep : ascii) (s : string) :
  contains sep s = false -> split sep s = [s].
Proof.
  induction s as [|c s IH]; [reflexivity|].
  cbn. intro H. apply orb_false_iff in H as [H1 H2].
  rewrite H1, (IH H2). reflexivity.
Qed.

(** The parts of [a ++ sep ++ b] are those of [a] followed by those of [b]. *)
Lemma split_app (sep : ascii) (a b : string) :
  split sep (a ++ String sep b) = (split sep a ++ split sep b)%list.
Proof.
  induction a as [|c a IH]; cbn [append split].
  - now rewrite Ascii.eqb_refl.
  - destruct (Ascii.eqb c sep); rewrite IH; [reflexivity|].
    pose proof (split_nonempty sep a) as NE.
    destruct (split sep a); [contradiction | reflexivity].
Qed.

Lemma toLowerCase_app (a b : string) :
  toLowerCase (a ++ b) = toLowerCase a ++ toLowerCase b.
Proof. induction a as [|c a IH]; cbn; [reflexivity | now rewrite IH]. Qed.

End JS.

(** ** Values shared by the flow, the viewer and the page *)

(** [TranscriptSegment]: [{ start: number; end: number; text: string }]. *)
Module Segment.
Record t : Type := { start : Q; end_ : Q; text : string }.
End Segment.
Definition TranscriptSegment : Type := Segment.t.

(** A thrown value: an [Error] object with its [message], or any other value
    (one that has no [message] property, such as the [ProgressEvent] a failed
    [FileReader] rejects with). *)
Inductive Thrown : Type :=
| ErrorObject (message : string)
| OtherValue.

(** How an asynchronous call settles. *)
Inductive Completion (A : Type) : Type :=
| Return (a : A)
| Throw (e : Thrown).
Arguments Return {A} a.
Arguments Throw {A} e.

(** ** The transcription flow ([transcribeAudioFlow]) *)

Module TranscribeAudioFlow.

Record TranscribeAudioInput : Type :=
  { audioDataUri : string; language : string }.

(** [TranscribeAudioOutputSchema]: [text] is required. *)
Record TranscribeAudioOutput : Type :=
  { text : string; segments : list TranscriptSegment }.

(** [TranscribeAudioPromptOutputInternalSchema]: [text] is optional. *)
Module PromptOutput.
Record t : Type :=
  { text : option string; segments : list TranscriptSegment }.
End PromptOutput.

Section Flow.

(** The model call [transcribeAudioPrompt(input)]: it throws, or it returns
    [{output}] where [output] may be [null]. *)
Variable transcribeAudioPrompt :
  TranscribeAudioInput -> Completion (option PromptOutput.t).

(** The body of the flow between [try {] and [} catch]. *)
Definition flowBody (input : TranscribeAudioInput)
  : Completion TranscribeAudioOutput :=
  match transcribeAudioPrompt input with
  | Throw e => Throw e
  | Return None =>
      Throw (ErrorObject
               "Transcription failed to produce an output from the prompt.")
  | Return (Some promptOutput) =>
      let fullText := JS.orDefault (PromptOutput.text promptOutput) "" in
      let segments := PromptOutput.segments promptOutput in
      let fullText :=
        if (negb (JS.truthy fullText) || JS.isEmpty (JS.trim fullText))
           && (0 <? List.length segments)%nat
        then JS.trim (JS.join " " (map Segment.text segments))
        else fullText in
      if JS.isEmpty (JS.trim fullText) && (List.length segments =? 0)%nat
      then Return {| text := ""; segments := [] |}
      else Return {| text := fullText; segments := segments |}
  end.

(** The [catch] clause: whatever was thrown is wrapped in a new [Error]. *)
Definition flowCatch (e : Thrown) : Completion TranscribeAudioOutput :=
  let errorMessage :=
    match e with
    | ErrorObject m => m
    | OtherValue => "An unknown error occurred during transcription."
    end in
  Throw (ErrorObject ("Transcription failed: " ++ errorMessage)).

Definition transcribeAudioFlow (input : TranscribeAudioInput)
  : Completion TranscribeAudioOutput :=
  match flowBody input with
  | Return r => Return r
  | Throw e => flowCatch e
  end.

(** The exported wrapper [transcribeAudio]. *)
Definition transcribeAudio (input : TranscribeAudioInput)
  : Completion TranscribeAudioOutput :=
  if negb (JS.truthy (audioDataUri input))
  then Throw (ErrorObject "Audio data URI is required.")
  else if negb (JS.truthy (language input))
  then Throw (ErrorObject "Language is required.")
  else transcribeAudioFlow input.

End Flow.

(** The [text] field of a prompt output is missing or only white space. *)
Definition textMissingOrBlank (p : PromptOutput.t) : Prop :=
  match PromptOutput.text p with
  | None => True
  | Some s => JS.onlyWhiteSpace s = true
  end.

Lemma orDefault_blank (p : PromptOutput.t) :
  textMissingOrBlank p ->
  JS.onlyWhiteSpace (JS.orDefault (PromptOutput.text p) "") = true.
Proof.
  unfold textMissingOrBlank, JS.orDefault.
  destruct (PromptOutput.text p) as [s|]; [|reflexivity].
  destruct s; cbn; auto.
Qed.

(** The two sample segments of the specification's scenario A. *)
Definition segHello : TranscriptSegment :=
  {| Segment.start := 0; Segment.end_ := 1; Segment.text := "Hello" |}.
Definition segWorld : TranscriptSegment :=
  {| Segment.start := 1; Segment.end_ := 2; Segment.text := "world" |}.

Example join_hello_world :
  JS.trim (JS.join " " (map Segment.text [segHello; segWorld])) = "Hello world".
Proof. reflexivity. Qed.

(** C10.  When the prompt returns an output whose [text] is missing or only
    white space, the flow returns normally: with a non-empty segment list the
    returned text is the segment texts joined by single spaces and trimmed
    (and the segments are returned unchanged); with an empty segment list the
    result is exactly [{ text: "", segments: [] }]. *)
Theorem transcribeAudioFlow_text_from_segments
  (prompt : TranscribeAudioInput -> Completion (option PromptOutput.t))
  (input : TranscribeAudioInput) (p : PromptOutput.t) :
  prompt input = Return (Some p) ->
  textMissingOrBlank p ->
  (PromptOutput.segments p <> [] ->
   transcribeAudioFlow prompt input =
     Return {| text := JS.trim (JS.join " " (map Segment.text (PromptOutput.segments p)));
               segments := PromptOutput.segments p |})
  /\
  (PromptOutput.segments p = [] ->
   transcribeAudioFlow prompt input = Return {| text := ""; segments := [] |}).
Proof.
  intros Hp Hblank.
  pose proof (orDefault_blank p Hblank) as Hws.
  unfold transcribeAudioFlow, flowBody. rewrite Hp.
  set (t0 := JS.orDefault (PromptOutput.text p) "") in *.
  rewrite (JS.isEmpty_trim t0), Hws, orb_true_r, andb_true_l.
  split; intro Hsegs.
  - destruct (PromptOutput.segments p) as [|sg rest] eqn:E; [congruence|].
    cbn [List.length Nat.ltb Nat.leb Nat.eqb].
    now rewrite andb_false_r.
  - rewrite Hsegs. cbn [List.length Nat.ltb Nat.leb Nat.eqb].
    now rewrite (JS.isEmpty_trim t0), Hws.
Qed.

(** The theorem at work: no [text], two segments. *)
Lemma transcribeAudioFlow_text_from_segments_witness :
  transcribeAudioFlow
    (fun _ => Return (Some {| PromptOutput.text := None;
                              PromptOutput.segments := [segHello; segWorld] |}))
    {| audioDataUri := "data:audio/mpeg;base64,AAAA"; language := "en" |}
  = Return {| text := "Hello world"; segments := [segHello; segWorld] |}.
Proof.
  refine (proj1 (transcribeAudioFlow_text_from_segments
                   (fun _ => Return (Some {| PromptOutput.text := None;
                                             PromptOutput.segments := [segHello; segWorld] |}))
                   {| audioDataUri := "data:audio/mpeg;base64,AAAA"; language := "en" |}
                   {| PromptOutput.text := None;
                      PromptOutput.segments := [segHello; segWorld] |}
                   eq_refl I) _).
  discriminate.
Defined.

(** A white-space-only [text] with no segment is the empty result, and a
    non-blank [text] is returned as the model gave it. *)
Example transcribeAudioFlow_blank :
  transcribeAudioFlow
    (fun _ => Return (Some {| PromptOutput.text := Some "  ";
                              PromptOutput.segments := [] |}))
    {| audioDataUri := "data:,"; language := "de" |}
  = Return {| text := ""; segments := [] |}.
Proof. reflexivity. Qed.

Example transcribeAudioFlow_keeps_text :
  transcribeAudioFlow
    (fun _ => Return (Some {| PromptOutput.text := Some "Hello, world.";
                              PromptOutput.segments := [segHello; segWorld] |}))
    {| audioDataUri := "data:,"; language := "en" |}
  = Return {| text := "Hello, world."; segments := [segHello; segWorld] |}.
Proof. reflexivity. Qed.

(** A [null] output and a throwing prompt both leave through the [catch]. *)
Example transcribeAudioFlow_null_output :
  transcribeAudioFlow (fun _ => Return None)
    {| audioDataUri := "data:,"; language := "en" |}
  = Throw (ErrorObject
      "Transcription failed: Transcription failed to produce an output from the prompt.").
Proof. reflexivity. Qed.

End TranscribeAudioFlow.

(** ** The flow as the page imports it

    [src/ai/flows/transcribe-audio-flow.ts] is a later revision of the same
    flow: the model may leave out the [text] of a segment, which then defaults
    to the empty string, and the [catch] clause throws a fixed message. *)

Module TranscribeAudioFlowRevised.

Import TranscribeAudioFlow.

(** A segment as the model returns it: [text] is optional. *)
Record RawSegment : Type :=
  { start : Q; end_ : Q; text : option string }.

Record RawPromptOutput : Type :=
  { promptText : option string; rawSegments : list RawSegment }.

(** The loop that fills [segmentsToReturn]. *)
Definition segmentsToReturn (rawSegments : list RawSegment)
  : list TranscriptSegment :=
  map (fun rawSegment =>
         {| Segment.start := start rawSegment;
            Segment.end_ := end_ rawSegment;
            Segment.text := JS.orDefault (text rawSegment) "" |})
      rawSegments.

Definition serverSideFailure : string :=
  "Server-side transcription flow failed. Check server logs for details (search for "
  ++ String (ascii_of_nat 34) "TRANSFLOW: Error explicitly caught"
  ++ String (ascii_of_nat 34)
       "). The most common cause is a missing or invalid GOOGLE_GENAI_API_KEY.".

Section Flow.

Variable transcribeAudioPrompt :
  TranscribeAudioInput -> Completion (option RawPromptOutput).

Definition flowBody (input : TranscribeAudioInput)
  : Completion TranscribeAudioOutput :=
  match transcribeAudioPrompt input with
  | Throw e => Throw e
  | Return None =>
      Throw (ErrorObject
               "Transcription failed: AI model returned no output. Check server logs for API key status and model errors.")
  | Return (Some promptOutput) =>
      let fullText := JS.orDefault (promptText promptOutput) "" in
      let segmentsToReturn := segmentsToReturn (rawSegments promptOutput) in
      let fullText :=
        if (negb (JS.truthy fullText) || JS.isEmpty (JS.trim fullText))
           && (0 <? List.length segmentsToReturn)%nat
        then JS.trim (JS.join " " (map Segment.text segmentsToReturn))
        else fullText in
      if JS.isEmpty (JS.trim fullText)
         && (List.length segmentsToReturn =? 0)%nat
      then Return {| TranscribeAudioFlow.text := ""; segments := [] |}
      else Return {| TranscribeAudioFlow.text := fullText;
                     segments := segmentsToReturn |}
  end.

Definition transcribeAudioFlow (input : TranscribeAudioInput)
  : Completion TranscribeAudioOutput :=
  match flowBody input with
  | Return r => Return r
  | Throw _ => Throw (ErrorObject serverSideFailure)
  end.

End Flow.

(** A raw output whose segments all carry their text, read as an output of
    the earlier revision. *)
Definition complete (s : TranscriptSegment) : RawSegment :=
  {| start := Segment.start s; end_ := Segment.end_ s;
     text := Some (Segment.text s) |}.

Lemma segmentsToReturn_complete (l : list TranscriptSegment) :
  segmentsToReturn (map complete l) = l.
Proof.
  unfold segmentsToReturn.
  induction l as [|[a b t] l IH]; cbn [map]; [reflexivity|].
  rewrite IH. f_equal. cbn. now destruct t.
Qed.

(** On such outputs the two revisions return the same results. *)
Lemma revisions_agree (p : PromptOutput.t) (input : TranscribeAudioInput)
  (r : TranscribeAudioOutput) :
  TranscribeAudioFlow.transcribeAudioFlow (fun _ => Return (Some p)) input
  = Return r
  <-> transcribeAudioFlow
        (fun _ => Return (Some {| promptText := PromptOutput.text p;
                                  rawSegments := map complete (PromptOutput.segments p) |}))
        input
      = Return r.
Proof.
  unfold TranscribeAudioFlow.transcribeAudioFlow, TranscribeAudioFlow.flowBody,
    transcribeAudioFlow, flowBody.
  cbn [promptText rawSegments]. rewrite segmentsToReturn_complete.
  cbv zeta.
  destruct (_ && (Datatypes.length (PromptOutput.segments p) =? 0)%nat);
    tauto.
Qed.

(** The property of C10 holds of the revised flow as well. *)
Lemma revised_text_from_segments
  (prompt : TranscribeAudioInput -> Completion (option RawPromptOutput))
  (input : TranscribeAudioInput) (p : RawPromptOutput) :
  prompt input = Return (Some p) ->
  match promptText p with None => True | Some s => JS.onlyWhiteSpace s = true end ->
  (rawSegments p <> [] ->
   transcribeAudioFlow prompt input =
     Return {| TranscribeAudioFlow.text :=
                 JS.trim (JS.join " " (map Segment.text
                                         (segmentsToReturn (rawSegments p))));
               segments := segmentsToReturn (rawSegments p) |})
  /\
  (rawSegments p = [] ->
   transcribeAudioFlow prompt input
   = Return {| TranscribeAudioFlow.text := ""; segments := [] |}).
Proof.
  intros Hp Hblank.
  assert (Hws : JS.onlyWhiteSpace (JS.orDefault (promptText p) "") = true).
  { unfold JS.orDefault. destruct (promptText p) as [s|]; [|reflexivity].
    destruct s; cbn; auto. }
  unfold transcribeAudioFlow, flowBody. rewrite Hp.
  set (t0 := JS.orDefault (promptText p) "") in *.
  rewrite (JS.isEmpty_trim t0), Hws, orb_true_r, andb_true_l.
  split; intro Hsegs.
  - destruct (rawSegments p) as [|sg rest] eqn:E; [congruence|].
    cbn [segmentsToReturn map List.length Nat.ltb Nat.leb Nat.eqb].
    now rewrite andb_false_r.
  - rewrite Hsegs. cbn [segmentsToReturn map List.length Nat.ltb Nat.leb Nat.eqb].
    now rewrite (JS.isEmpty_trim t0), Hws.
Qed.

(** A segment without text contributes an empty piece, so the joined text can
    carry two spaces in a row. *)
Example revised_missing_segment_text :
  transcribeAudioFlow
    (fun _ => Return (Some {| promptText := None;
                              rawSegments :=
                                [ {| start := 0; end_ := 1; text := Some "a" |};
                                  {| start := 1; end_ := 2; text := None |};
                                  {| start := 2; end_ := 3; text := Some "b" |} ] |}))
    {| audioDataUri := "data:,"; language := "en" |}
  = Return {| TranscribeAudioFlow.text := "a  b";
              segments :=
                [ {| Segment.start := 0; Segment.end_ := 1; Segment.text := "a" |};
                  {| Segment.start := 1; Segment.end_ := 2; Segment.text := "" |};
                  {| Segment.start := 2; Segment.end_ := 3; Segment.text := "b" |} ] |}.
Proof. reflexivity. Qed.


(** *** The exported wrapper *)

Section Wrapper.

Variable transcribeAudioPrompt :
  TranscribeAudioInput -> Completion (option RawPromptOutput).

(** [transcribeAudio]: the function the page calls. *)
Definition transcribeAudio (input : TranscribeAudioInput)
  : Completion TranscribeAudioOutput :=
  if negb (JS.truthy (audioDataUri input))
  then Throw (ErrorObject "Audio data URI is required.")
  else if negb (JS.truthy (language input))
  then Throw (ErrorObject "Language is required.")
  else transcribeAudioFlow transcribeAudioPrompt input.

End Wrapper.

(** A trimmed string is empty or has a character other than white space. *)
Lemma trim_empty_or_not_blank (s : string) :
  JS.trim s = "" \/ JS.onlyWhiteSpace (JS.trim s) = false.
Proof.
  destruct (JS.onlyWhiteSpace s) eqn:E.
  - left. now apply JS.trim_onlyWhiteSpace.
  - right. pose proof (JS.truthy_trim (JS.trim s)) as T.
    rewrite JS.trim_idem, JS.truthy_trim, E in T.
    destruct (JS.onlyWhiteSpace (JS.trim s)); [discriminate T | reflexivity].
Qed.

(** X24.  What the page gets from [transcribeAudio].  An empty data URI
    and, after it, an empty language are refused with their own messages,
    whatever the model would answer.  Otherwise, when the model call throws or
    returns no output, the caller gets the one fixed "Server-side
    transcription flow failed ..." message: the message of the original error
    is not passed on.  When the model returns an output, the call returns:
    the segments are the model's, a missing segment text read as the empty
    string; the text is the model's when that has a character other than
    white space; and in every case the returned text is either empty or has
    such a character, never white space only. *)
Theorem transcribeAudio_outcomes
  (prompt : TranscribeAudioInput -> Completion (option RawPromptOutput))
  (input : TranscribeAudioInput) :
  (audioDataUri input = "" ->
   transcribeAudio prompt input
   = Throw (ErrorObject "Audio data URI is required."))
  /\ (audioDataUri input <> "" -> language input = "" ->
      transcribeAudio prompt input = Throw (ErrorObject "Language is required."))
  /\ (audioDataUri input <> "" -> language input <> "" ->
      match prompt input with
      | Return (Some p) =>
          exists r,
            transcribeAudio prompt input = Return r
            /\ segments r = segmentsToReturn (rawSegments p)
            /\ (TranscribeAudioFlow.text r = ""
                \/ JS.onlyWhiteSpace (TranscribeAudioFlow.text r) = false)
            /\ (JS.onlyWhiteSpace (JS.orDefault (promptText p) "") = false ->
                TranscribeAudioFlow.text r = JS.orDefault (promptText p) "")
      | _ => transcribeAudio prompt input = Throw (ErrorObject serverSideFailure)
      end).
Proof.
  unfold transcribeAudio. split; [|split].
  - intros ->. reflexivity.
  - intros U ->. destruct (audioDataUri input); [contradiction | reflexivity].
  - intros U L.
    destruct (audioDataUri input); [contradiction|].
    destruct (language input); [contradiction|]. cbn [JS.truthy negb].
    unfold transcribeAudioFlow, flowBody.
    destruct (prompt input) as [[p|]|e]; try reflexivity.
    set (t0 := JS.orDefault (promptText p) "").
    rewrite (JS.isEmpty_trim t0).
    destruct (JS.onlyWhiteSpace t0) eqn:B.
    + rewrite orb_true_r, andb_true_l.
      destruct (segmentsToReturn (rawSegments p)) as [|sg rest] eqn:E.
      * cbn [List.length Nat.ltb Nat.leb Nat.eqb].
        rewrite (JS.isEmpty_trim t0), B. cbn.
        eexists. split; [reflexivity|]. cbn. repeat split.
        -- now left.
        -- discriminate.
      * cbn [List.length Nat.ltb Nat.leb Nat.eqb]. rewrite andb_false_r.
        eexists. split; [reflexivity|]. cbn. repeat split.
        -- apply trim_empty_or_not_blank.
        -- discriminate.
    + assert (T : JS.truthy t0 = true) by (destruct t0; [discriminate B | reflexivity]).
      rewrite T. cbn [negb orb andb].
      rewrite (JS.isEmpty_trim t0), B. cbn [andb].
      eexists. split; [reflexivity|]. cbn. repeat split.
      now right.
Qed.

End TranscribeAudioFlowRevised.

(** ** Comparisons and clamping on seconds *)

Module Num.

(** [x <= y], [x >= y], [x > y] and [x === 0] on numbers. *)
Definition le (x y : Q) : bool := Qle_bool x y.
Definition ge (x y : Q) : bool := Qle_bool y x.
Definition gt (x y : Q) : bool := negb (Qle_bool x y).
Definition isZero (x : Q) : bool := Qeq_bool x 0.

(** [Math.max(x, y)] and [Math.min(x, y)]. *)
Definition max (x y : Q) : Q := Qmax x y.
Definition min (x y : Q) : Q := Qmin x y.

Lemma le_iff (x y : Q) : le x y = true <-> (x <= y)%Q.
Proof. apply Qle_bool_iff. Qed.

Lemma ge_iff (x y : Q) : ge x y = true <-> (y <= x)%Q.
Proof. apply Qle_bool_iff. Qed.

Lemma gt_iff (x y : Q) : gt x y = true <-> (y < x)%Q.
Proof.
  unfold gt. rewrite negb_true_iff. split.
  - intro H. apply Qnot_le_lt. intro L. apply Qle_bool_iff in L. congruence.
  - intro H. destruct (Qle_bool x y) eqn:E; [|reflexivity].
    apply Qle_bool_iff in E. exfalso. exact (Qlt_not_le _ _ H E).
Qed.

Lemma gt_false_iff (x y : Q) : gt x y = false <-> (x <= y)%Q.
Proof.
  unfold gt. rewrite negb_false_iff. apply Qle_bool_iff.
Qed.

End Num.

(** ** Binary64 numbers

    Where the code does arithmetic that rounds, the model does it on the
    kernel's binary64 numbers.  A rational of the model is read as the
    JavaScript number it denotes: the binary64 value nearest to it, which is
    the rational itself whenever that is a binary64 value. *)

Module Double.

#[local] Set Warnings "-inexact-float".

(** The quotient [p / q] of two positive integers, rounded to the nearest
    binary64 value, ties to even: the quotient is computed with at least 54
    bits and the place of the remainder, and the rounding is the Standard
    Library's. *)
Definition roundRatio (negative : bool) (p q : positive) : spec_float :=
  let shift :=
    Z.max 0 (Zpos (digits2_pos q) + 55 - Zpos (digits2_pos p)) in
  let scaled := Z.shiftl (Zpos p) shift in
  let m := (scaled / Zpos q)%Z in
  let r := (scaled mod Zpos q)%Z in
  let place :=
    if (r =? 0)%Z then loc_Exact else loc_Inexact (Z.compare (2 * r) (Zpos q)) in
  binary_round_aux prec emax negative m (- shift) place.

Definition ofQ (x : Q) : float :=
  match Qnum x with
  | Z0 => PrimFloat.zero
  | Zpos p => SF2Prim (roundRatio false p (Qden x))
  | Zneg p => SF2Prim (roundRatio true p (Qden x))
  end.

Example ofQ_literals :
  ofQ 0.1 = 0.1%float /\ ofQ 0.2 = 0.2%float /\ ofQ 0.3 = 0.3%float
  /\ ofQ 5.05 = 5.05%float /\ ofQ 5.1 = 5.1%float /\ ofQ 5.2 = 5.2%float
  /\ ofQ 2 = 2%float /\ ofQ (-1.5) = (-1.5)%float
  /\ ofQ (1 # 3) = 0x1.5555555555555p-2%float
  /\ ofQ 9007199254740993 = 9007199254740992%float
  /\ ofQ 1e400 = PrimFloat.infinity
  /\ ofQ 5e-324 = 0x1p-1074%float
  /\ ofQ 2e-324 = PrimFloat.zero
  /\ ofQ 3e-324 = 0x1p-1074%float
  /\ ofQ 1.7976931348623157e308 = 0x1.fffffffffffffp+1023%float.
Proof. vm_compute. repeat split. Qed.

(** The place of a number in the order of [<=]: its class (the infinities,
    the negative and positive numbers, zero in between), then its exponent
    and its mantissa, counted downwards for a negative number.  [NaN] has no
    place. *)
Definition rank (x : spec_float) : option (Z * Z * Z) :=
  match x with
  | S754_nan => None
  | S754_infinity true => Some (-2, 0, 0)%Z
  | S754_infinity false => Some (2, 0, 0)%Z
  | S754_zero _ => Some (0, 0, 0)%Z
  | S754_finite false m e => Some (1, e, Zpos m)%Z
  | S754_finite true m e => Some (-1, - e, Zneg m)%Z
  end.

Definition below (a b : Z * Z * Z) : Prop :=
  let '(a1, a2, a3) := a in
  let '(b1, b2, b3) := b in
  (a1 < b1 \/ (a1 = b1 /\ (a2 < b2 \/ (a2 = b2 /\ a3 < b3))))%Z.

Definition notAbove (a b : Z * Z * Z) : Prop := below a b \/ a = b.

Lemma SFltb_rank (x y : spec_float) :
  SFltb x y = true
  <-> exists a b, rank x = Some a /\ rank y = Some b /\ below a b.
Proof.
  unfold SFltb.
  destruct x as [[]|[]| |[] m e], y as [[]|[]| |[] n f]; cbn;
    try (split; [discriminate | intros (a & b & A & B & C);
                 try discriminate A; try discriminate B;
                 injection A as <-; injection B as <-; cbn in C; lia]);
    try (split; [intros _; do 2 eexists; repeat split; cbn; lia | reflexivity]).
  - (* both negative *)
    fold (Pos.compare m n).
    destruct (Z.compare_spec e f) as [E|E|E];
      [destruct (Pos.compare_spec m n) as [M|M|M]| |]; cbn;
      (split; [try discriminate; intros _; do 2 eexists; repeat split; cbn; lia
              | intros (a & b & A & B & C); injection A as <-; injection B as <-;
                cbn in C; try reflexivity; lia]).
  - (* both positive *)
    fold (Pos.compare m n).
    destruct (Z.compare_spec e f) as [E|E|E];
      [destruct (Pos.compare_spec m n) as [M|M|M]| |]; cbn;
      (split; [try discriminate; intros _; do 2 eexists; repeat split; cbn; lia
              | intros (a & b & A & B & C); injection A as <-; injection B as <-;
                cbn in C; try reflexivity; lia]).
Qed.


Lemma SFleb_rank (x y : spec_float) :
  SFleb x y = true
  <-> exists a b, rank x = Some a /\ rank y = Some b /\ notAbove a b.
Proof.
  unfold SFleb, notAbove.
  destruct x as [[]|[]| |[] m e], y as [[]|[]| |[] n f]; cbn;
    try (split; [discriminate | intros (a & b & A & B & C);
                 try discriminate A; try discriminate B;
                 injection A as <-; injection B as <-;
                 destruct C as [C|C]; cbn in C;
                 first [lia | discriminate C]]);
    try (split; [intros _; do 2 eexists; repeat split;
                 first [right; reflexivity | left; cbn; lia]
                | reflexivity]).
  - (* both negative *)
    fold (Pos.compare m n).
    destruct (Z.compare_spec e f) as [E|E|E];
      [destruct (Pos.compare_spec m n) as [M|M|M]| |]; cbn;
      (split; [try discriminate; intros _; do 2 eexists; repeat split;
               first [right; congruence | left; cbn; lia]
              | intros (a & b & A & B & C); injection A as <-; injection B as <-;
                try reflexivity;
                destruct C as [C|C]; cbn in C;
                first [lia | injection C; lia]]).
  - (* both positive *)
    fold (Pos.compare m n).
    destruct (Z.compare_spec e f) as [E|E|E];
      [destruct (Pos.compare_spec m n) as [M|M|M]| |]; cbn;
      (split; [try discriminate; intros _; do 2 eexists; repeat split;
               first [right; congruence | left; cbn; lia]
              | intros (a & b & A & B & C); injection A as <-; injection B as <-;
                try reflexivity;
                destruct C as [C|C]; cbn in C;
                first [lia | injection C; lia]]).
Qed.

Lemma below_trans (a b c : Z * Z * Z) : below a b -> below b c -> below a c.
Proof. destruct a as [[a1 a2] a3], b as [[b1 b2] b3], c as [[c1 c2] c3]. cbn. lia. Qed.

Lemma below_irrefl (a : Z * Z * Z) : ~ below a a.
Proof. destruct a as [[a1 a2] a3]. cbn. lia. Qed.

#[local] Open Scope float_scope.

(** [<=] and [<] on binary64 numbers order them: the facts used below. *)
Lemma leb_trans (x y z : float) :
  (x <=? y) = true -> (y <=? z) = true -> (x <=? z) = true.
Proof.
  rewrite !leb_spec, !SFleb_rank.
  intros (a & b & A & B & H) (b' & c & B' & C & K).
  rewrite B in B'. injection B' as <-.
  exists a, c. repeat split; try assumption.
  destruct H as [H | ->], K as [K | <-]; try (left; assumption);
    [left; now apply (below_trans a b c) | now right].
Qed.

Lemma ltb_leb_trans (x y z : float) :
  (x <? y) = true -> (y <=? z) = true -> (x <? z) = true.
Proof.
  rewrite !ltb_spec, leb_spec, !SFltb_rank, SFleb_rank.
  intros (a & b & A & B & H) (b' & c & B' & C & K).
  rewrite B in B'. injection B' as <-.
  exists a, c. repeat split; try assumption.
  destruct K as [K | <-]; [now apply (below_trans a b c) | exact H].
Qed.

Lemma leb_ltb_trans (x y z : float) :
  (x <=? y) = true -> (y <? z) = true -> (x <? z) = true.
Proof.
  rewrite !ltb_spec, leb_spec, !SFltb_rank, SFleb_rank.
  intros (a & b & A & B & H) (b' & c & B' & C & K).
  rewrite B in B'. injection B' as <-.
  exists a, c. repeat split; try assumption.
  destruct H as [H | ->]; [now apply (below_trans a b c) | exact K].
Qed.

Lemma ltb_not_leb (x y : float) : (x <? y) = true -> (y <=? x) = false.
Proof.
  rewrite ltb_spec, leb_spec, SFltb_rank.
  intros (a & b & A & B & H).
  destruct (SFleb (Prim2SF y) (Prim2SF x)) eqn:E; [|reflexivity].
  apply SFleb_rank in E. destruct E as (b' & a' & B' & A' & K).
  rewrite B in B'. injection B' as <-. rewrite A in A'. injection A' as <-.
  exfalso. destruct K as [K | ->].
  - exact (below_irrefl a (below_trans a b a H K)).
  - exact (below_irrefl a H).
Qed.

(** A [NaN] is neither below nor above anything. *)
Lemma leb_nan (x : float) :
  (x <=? PrimFloat.nan) = false /\ (PrimFloat.nan <=? x) = false.
Proof.
  rewrite !leb_spec. unfold SFleb.
  change (Prim2SF PrimFloat.nan) with S754_nan.
  destruct (Prim2SF x) as [[]|[]| |[] m e]; split; reflexivity.
Qed.

End Double.

(** ** The transcript viewer ([TranscriptEditor]) *)

Module TranscriptEditor.

#[local] Set Warnings "-inexact-float".

(** *** The predicate on binary64 numbers

    The numbers of the source are IEEE 754 doubles, and [segment.end + 0.1] is
    a rounded sum. *)
Module Binary64.

#[local] Set Warnings "-inexact-float".
#[local] Open Scope float_scope.

(** [isSegmentActive]: [currentTime] is an optional prop; [start] and [end_]
    are the two numbers the predicate reads from the segment. *)
Definition isSegmentActive (currentTime : option float) (start end_ : float)
  : bool :=
  match currentTime with
  | None => false
  | Some currentTime =>
      PrimFloat.leb start currentTime
      && PrimFloat.leb currentTime (PrimFloat.add end_ 0.1)
  end.

(** C4.  A segment is marked active at playback time [t] exactly when
    [start <= t] and [t <= end + 0.1], the comparisons and the sum being those
    of JavaScript numbers; for the segment [{start: 2.0, end: 5.0}] the time
    5.05 is active and the time 5.2 is not.  The tolerance is added with
    rounding: a segment that ends at 0.2 is still active at 0.1 + 0.2.
    Without a time, and at a [NaN] time, no segment is active. *)
Theorem isSegmentActive_iff :
  (forall (t start end_ : float),
      isSegmentActive (Some t) start end_ = true
      <-> (start <=? t) = true /\ (t <=? end_ + 0.1) = true)
  /\ isSegmentActive (Some 5.05) 2 5 = true
  /\ isSegmentActive (Some 5.2) 2 5 = false
  /\ isSegmentActive (Some (0.1 + 0.2)) 0 0.2 = true
  /\ (forall start end_ : float,
        isSegmentActive None start end_ = false
        /\ isSegmentActive (Some PrimFloat.nan) start end_ = false).
Proof.
  split; [|split; [|split; [|split]]]; try reflexivity.
  - intros t start end_. unfold isSegmentActive. apply andb_true_iff.
  - intros start end_. split; [reflexivity|].
    unfold isSegmentActive.
    now rewrite (proj1 (Double.leb_nan start)).
Qed.

(** The tolerance is one-sided and closed: it extends the end of the segment
    only, and 5.1 is still active for a segment that ends at 5. *)
Example isSegmentActive_boundary :
  isSegmentActive (Some 1.95) 2 5 = false
  /\ isSegmentActive (Some 5.1) 2 5 = true
  /\ isSegmentActive (Some 2) 2 5 = true.
Proof. repeat split. Qed.

End Binary64.

(** *** The predicate on the segments of the model

    The model keeps seconds as rationals; the predicate reads them as the
    JavaScript numbers they denote. *)
Definition isSegmentActive (currentTime : option Q) (segment : TranscriptSegment)
  : bool :=
  Binary64.isSegmentActive (option_map Double.ofQ currentTime)
    (Double.ofQ (Segment.start segment)) (Double.ofQ (Segment.end_ segment)).

(** The segments the viewer highlights at [currentTime]: the predicate is
    evaluated on every segment of the list at each render. *)
Definition activeSegments (currentTime : option Q)
  (segments : list TranscriptSegment) : list TranscriptSegment :=
  filter (isSegmentActive currentTime) segments.

(** Without a [currentTime] nothing is highlighted. *)
Lemma isSegmentActive_undefined (segment : TranscriptSegment) :
  isSegmentActive None segment = false.
Proof. reflexivity. Qed.

(** The instance of the specification, on the segments of the model. *)
Example isSegmentActive_at_tolerance :
  isSegmentActive (Some 5.05)
    {| Segment.start := 2.0; Segment.end_ := 5.0; Segment.text := "a" |} = true
  /\ isSegmentActive (Some 5.2)
       {| Segment.start := 2.0; Segment.end_ := 5.0; Segment.text := "a" |} = false
  /\ isSegmentActive (Some 1.95)
       {| Segment.start := 2.0; Segment.end_ := 5.0; Segment.text := "a" |} = false.
Proof. vm_compute. repeat split. Qed.

(** *** What the viewer renders *)

(** The children of the scrolling area: the placeholder [<span>], or one
    [<span>] per segment with the string [' '] between two of them. *)
Inductive Node : Type :=
| PlaceholderSpan (content : string)
| SegmentSpan (index : nat) (segment : TranscriptSegment) (active : bool)
| Separator.

(** [segments.map((segment, index) => <span ...>)], from [index] on. *)
Fixpoint mapSpans (currentTime : option Q) (index : nat)
  (segments : list TranscriptSegment) : list Node :=
  match segments with
  | [] => []
  | segment :: rest =>
      SegmentSpan index segment (isSegmentActive currentTime segment)
      :: mapSpans currentTime (S index) rest
  end.

(** [.reduce((prev, curr, index) => { if (index > 0) prev.push(' ');
    prev.push(curr); return prev; }, [])], from [index] on. *)
Fixpoint reduceFrom (index : nat) (prev : list Node) (spans : list Node)
  : list Node :=
  match spans with
  | [] => prev
  | curr :: rest =>
      let prev := if (0 <? index)%nat then (prev ++ [Separator])%list else prev in
      reduceFrom (S index) (prev ++ [curr])%list rest
  end.

Definition children (fullTranscriptPlaceholder : option string)
  (currentTime : option Q) (segments : list TranscriptSegment) : list Node :=
  if (List.length segments =? 0)%nat then
    [PlaceholderSpan
       (JS.orDefault fullTranscriptPlaceholder
          "Transcript will appear here once the file is processed...")]
  else reduceFrom 0 [] (mapSpans currentTime 0 segments).

(** The text a node shows, and the text of the whole area. *)
Definition nodeText (n : Node) : string :=
  match n with
  | PlaceholderSpan content => content
  | SegmentSpan _ segment _ => Segment.text segment
  | Separator => " "
  end.

Definition textContent (nodes : list Node) : string :=
  JS.join "" (map nodeText nodes).

(** What a click on each segment [<span>] hands to [onSegmentClick], in the
    order of the nodes. *)
Fixpoint clickTargets (nodes : list Node) : list Q :=
  match nodes with
  | [] => []
  | SegmentSpan _ segment _ :: rest => Segment.start segment :: clickTargets rest
  | _ :: rest => clickTargets rest
  end.

(** The segments shown as active, in the order of the nodes. *)
Fixpoint highlighted (nodes : list Node) : list TranscriptSegment :=
  match nodes with
  | [] => []
  | SegmentSpan _ segment true :: rest => segment :: highlighted rest
  | _ :: rest => highlighted rest
  end.

(** The end of the highlight of a segment, as the predicate computes it. *)
Definition windowEnd (a : TranscriptSegment) : float :=
  PrimFloat.add (Double.ofQ (Segment.end_ a)) 0.1%float.

(** A transcript in the order of time: no segment ends before it starts,
    none starts before the one in front of it has ended, and the highlight of
    a segment is over before the next segment ends. *)
Fixpoint wellSpaced (segments : list TranscriptSegment) : Prop :=
  match segments with
  | [] => True
  | a :: rest =>
      (Double.ofQ (Segment.start a) <=? Double.ofQ (Segment.end_ a))%float = true
      /\ match rest with
         | [] => True
         | b :: _ =>
             (Double.ofQ (Segment.end_ a) <=? Double.ofQ (Segment.start b))%float
             = true
             /\ (windowEnd a <? Double.ofQ (Segment.end_ b))%float = true
         end
      /\ wellSpaced rest
  end.

(** Each span with the separator in front of it. *)
Definition separated (spans : list Node) : list Node :=
  flat_map (fun curr => [Separator; curr]) spans.

Lemma reduceFrom_S (index : nat) (prev spans : list Node) :
  reduceFrom (S index) prev spans = (prev ++ separated spans)%list.
Proof.
  revert index prev.
  induction spans as [|curr rest IH]; intros index prev; cbn.
  - now rewrite app_nil_r.
  - rewrite IH, <- !app_assoc. reflexivity.
Qed.

Lemma reduceFrom_0 (curr : Node) (rest : list Node) :
  reduceFrom 0 [] (curr :: rest) = curr :: separated rest.
Proof. cbn. now rewrite reduceFrom_S. Qed.

Lemma join_empty_cons (x : string) (l : list string) :
  JS.join "" (x :: l) = x ++ JS.join "" l.
Proof. destruct l; cbn; [now rewrite JS.append_empty_r | reflexivity]. Qed.

Lemma textContent_cons (n : Node) (nodes : list Node) :
  textContent (n :: nodes) = nodeText n ++ textContent nodes.
Proof. unfold textContent. cbn [map]. apply join_empty_cons. Qed.

Lemma textContent_separated (t : option Q) (index : nat)
  (l : list TranscriptSegment) :
  textContent (separated (mapSpans t index l))
  = JS.join "" (map (fun s => " " ++ Segment.text s) l).
Proof.
  revert index.
  induction l as [|s l IH]; intro index; [reflexivity|].
  cbn [mapSpans separated flat_map map app].
  fold (separated (mapSpans t (S index) l)).
  rewrite !textContent_cons, IH, join_empty_cons. cbn [nodeText].
  now rewrite JS.append_assoc.
Qed.

Lemma join_space (x : string) (l : list string) :
  JS.join " " (x :: l) = x ++ JS.join "" (map (fun y => " " ++ y) l).
Proof.
  revert x. induction l as [|y l IH]; intro x.
  - cbn. now rewrite JS.append_empty_r.
  - rewrite JS.join_cons, IH. cbn [map].
    now rewrite join_empty_cons, JS.append_assoc.
Qed.

Lemma clickTargets_separated (t : option Q) (index : nat)
  (l : list TranscriptSegment) :
  clickTargets (separated (mapSpans t index l)) = map Segment.start l.
Proof.
  revert index. induction l as [|s l IH]; intro index; [reflexivity|].
  cbn. f_equal. apply IH.
Qed.

Lemma highlighted_separated (t : option Q) (index : nat)
  (l : list TranscriptSegment) :
  highlighted (separated (mapSpans t index l)) = activeSegments t l.
Proof.
  revert index. induction l as [|s l IH]; intro index; [reflexivity|].
  cbn. destruct (isSegmentActive t s); [f_equal|]; apply IH.
Qed.

Lemma length_separated (t : option Q) (index : nat)
  (l : list TranscriptSegment) :
  List.length (separated (mapSpans t index l)) = (2 * List.length l)%nat.
Proof.
  revert index. induction l as [|s l IH]; intro index; [reflexivity|].
  cbn [mapSpans separated flat_map app List.length].
  fold (separated (mapSpans t (S index) l)). rewrite IH. lia.
Qed.

(** X1.  With at least one segment the viewer shows one clickable span per
    segment, in order, with a single space between two spans: the text of the
    area is the segment texts joined by single spaces, a click on a span
    reports the start of its own segment, the highlighted spans are exactly
    the active segments, and there are [2n - 1] children for [n] segments.
    With no segment the only child is the placeholder, which shows the
    [fullTranscriptPlaceholder] prop unless that is missing or empty. *)
Theorem children_of_segments (placeholder : option string) (t : option Q) :
  (forall (s : TranscriptSegment) (l : list TranscriptSegment),
     let nodes := children placeholder t (s :: l) in
     textContent nodes = JS.join " " (map Segment.text (s :: l))
     /\ clickTargets nodes = map Segment.start (s :: l)
     /\ highlighted nodes = activeSegments t (s :: l)
     /\ List.length nodes = (2 * List.length l + 1)%nat)
  /\ children placeholder t []
     = [PlaceholderSpan
          match placeholder with
          | Some (String c m) => String c m
          | _ => "Transcript will appear here once the file is processed..."
          end].
Proof.
  split.
  - intros s l nodes. subst nodes. unfold children.
    cbn [List.length Nat.eqb mapSpans]. rewrite reduceFrom_0.
    repeat split.
    + rewrite textContent_cons, textContent_separated. cbn [nodeText map].
      now rewrite join_space, map_map.
    + cbn. f_equal. apply clickTargets_separated.
    + cbn. unfold activeSegments. cbn [filter].
      destruct (isSegmentActive t s); [f_equal|]; apply highlighted_separated.
    + cbn [List.length]. rewrite length_separated. lia.
  - unfold children. cbn. destruct placeholder as [[|c m]|]; reflexivity.
Qed.
Lemma wellSpaced_tail (a : TranscriptSegment) (l : list TranscriptSegment) :
  wellSpaced (a :: l) -> wellSpaced l.
Proof. intros (_ & _ & H). exact H. Qed.

Lemma isSegmentActive_bounds (t : Q) (a : TranscriptSegment) :
  isSegmentActive (Some t) a = true
  <-> (Double.ofQ (Segment.start a) <=? Double.ofQ t)%float = true
      /\ (Double.ofQ t <=? windowEnd a)%float = true.
Proof.
  unfold isSegmentActive, Binary64.isSegmentActive, windowEnd.
  cbn [option_map]. apply andb_true_iff.
Qed.

(** Before the first segment starts nothing is active. *)
Lemma activeSegments_before (t : Q) (l : list TranscriptSegment) :
  wellSpaced l ->
  match l with
  | [] => True
  | a :: _ => (Double.ofQ t <? Double.ofQ (Segment.start a))%float = true
  end ->
  activeSegments (Some t) l = [].
Proof.
  induction l as [|a l IH]; intros W B; [reflexivity|].
  unfold activeSegments. cbn [filter].
  destruct (isSegmentActive (Some t) a) eqn:A.
  - apply isSegmentActive_bounds in A. destruct A as [A _].
    rewrite (Double.ltb_not_leb _ _ B) in A. discriminate A.
  - apply IH; [now apply wellSpaced_tail in W|].
    destruct W as (W1 & W2 & _). destruct l as [|b l]; [exact I|].
    destruct W2 as [W2 _].
    apply (Double.ltb_leb_trans _ _ _ B).
    now apply (Double.leb_trans _ _ _ W1).
Qed.

(** Behind an active segment at most the next one is active too. *)
Lemma activeSegments_behind (t : Q) (a : TranscriptSegment)
  (l : list TranscriptSegment) :
  wellSpaced (a :: l) -> isSegmentActive (Some t) a = true ->
  (List.length (activeSegments (Some t) l) <= 1)%nat.
Proof.
  intros (Wa & Wab & Wl) A. apply isSegmentActive_bounds in A.
  destruct A as [_ A].
  destruct l as [|b l]; [cbn; lia|].
  destruct Wab as [_ Wab].
  assert (R : activeSegments (Some t) l = []).
  { apply activeSegments_before; [now apply wellSpaced_tail in Wl|].
    destruct Wl as (Wb & Wbc & _). destruct l as [|c l]; [exact I|].
    destruct Wbc as [Wbc _].
    apply (Double.ltb_leb_trans _ _ _ (Double.leb_ltb_trans _ _ _ A Wab) Wbc). }
  unfold activeSegments in *. cbn [filter]. rewrite R.
  destruct (isSegmentActive (Some t) b); cbn; lia.
Qed.

(** X2.  Take a transcript whose segments are listed in the order of time
    (no segment ends before it starts, and none starts before the one in
    front of it has ended) and in which the highlight of each segment, which
    lasts until its end plus 0.1 as the code computes that sum, is over
    before the next segment ends.  Then at most two segments are highlighted
    at any playback time. *)
Theorem highlight_at_most_two (t : Q) (segments : list TranscriptSegment) :
  wellSpaced segments ->
  (List.length (activeSegments (Some t) segments) <= 2)%nat.
Proof.
  intro W. induction segments as [|a l IH]; [cbn; lia|].
  pose proof (wellSpaced_tail _ _ W) as Wl.
  destruct (isSegmentActive (Some t) a) eqn:A.
  - pose proof (activeSegments_behind t a l W A) as B.
    unfold activeSegments in *. cbn [filter]. rewrite A. cbn. lia.
  - unfold activeSegments in *. cbn [filter]. rewrite A. now apply IH.
Qed.

(** The theorem at work on the two segments [0, 1] and [1, 2]: both are
    active at 1.05 s, so the bound is reached. *)
Lemma highlight_at_most_two_witness :
  (List.length
     (activeSegments (Some 1.05%Q)
        [TranscribeAudioFlow.segHello; TranscribeAudioFlow.segWorld]) <= 2)%nat
  /\ activeSegments (Some 1.05%Q)
       [TranscribeAudioFlow.segHello; TranscribeAudioFlow.segWorld]
     = [TranscribeAudioFlow.segHello; TranscribeAudioFlow.segWorld].
Proof.
  split.
  - refine (highlight_at_most_two 1.05%Q
              [TranscribeAudioFlow.segHello; TranscribeAudioFlow.segWorld] _).
    repeat split; vm_compute; reflexivity.
  - vm_compute. reflexivity.
Defined.

(** The rounding of the sum matters: these three segments each last longer
    than 0.1 s and do not overlap, and all three are highlighted at
    0.30000000000000004 s, because 0.2 + 0.1 is rounded up to that number. *)
Example three_highlighted :
  let segments :=
    [ {| Segment.start := 0; Segment.end_ := 0.2; Segment.text := "a" |};
      {| Segment.start := 0.2; Segment.end_ := 0.30000000000000004;
         Segment.text := "b" |};
      {| Segment.start := 0.30000000000000004; Segment.end_ := 1;
         Segment.text := "c" |} ] in
  activeSegments (Some 0.30000000000000004%Q) segments = segments.
Proof. vm_compute. reflexivity. Qed.


(** The highlighted spans are the active segments, whatever the list. *)
Lemma highlighted_children (placeholder : option string) (t : option Q)
  (segments : list TranscriptSegment) :
  highlighted (children placeholder t segments) = activeSegments t segments.
Proof.
  destruct segments as [|s l]; [reflexivity|].
  unfold children. cbn [List.length Nat.eqb mapSpans]. rewrite reduceFrom_0.
  cbn. unfold activeSegments. cbn [filter].
  destruct (isSegmentActive t s); [f_equal|]; apply highlighted_separated.
Qed.

End TranscriptEditor.

(** ** The audio transport ([AudioPlayer]) *)

Module AudioPlayer.

(** The [HTMLAudioElement] behind [audioRef], as far as the component reads
    and writes it.  [play], [pause] and [load] are the element's own methods:
    [play] and [pause] flip [paused] at once (the [play] and [pause] events and
    the promise of [play] arrive later, as events of their own), and [load]
    returns the element to its initial, paused state at position zero. *)
Module Element.

Record t : Type :=
  { src : option string;
    currentTime : Q;
    duration : Q;
    paused : bool;
    readyState : nat;
    volume : Q;
    muted : bool }.

Definition initial : t :=
  {| src := None; currentTime := 0; duration := 0; paused := true;
     readyState := 0%nat; volume := 1; muted := false |}.

Definition setSrc (v : option string) (e : t) : t :=
  {| src := v; currentTime := currentTime e; duration := duration e;
     paused := paused e; readyState := readyState e; volume := volume e;
     muted := muted e |}.

Definition setCurrentTime (v : Q) (e : t) : t :=
  {| src := src e; currentTime := v; duration := duration e;
     paused := paused e; readyState := readyState e; volume := volume e;
     muted := muted e |}.

Definition setVolume (v : Q) (e : t) : t :=
  {| src := src e; currentTime := currentTime e; duration := duration e;
     paused := paused e; readyState := readyState e; volume := v;
     muted := muted e |}.

Definition setMuted (v : bool) (e : t) : t :=
  {| src := src e; currentTime := currentTime e; duration := duration e;
     paused := paused e; readyState := readyState e; volume := volume e;
     muted := v |}.

Definition pause (e : t) : t :=
  {| src := src e; currentTime := currentTime e; duration := duration e;
     paused := true; readyState := readyState e; volume := volume e;
     muted := muted e |}.
Definition play (e : t) : t :=
  {| src := src e; currentTime := currentTime e; duration := duration e;
     paused := false; readyState := readyState e; volume := volume e;
     muted := muted e |}.
Definition load (e : t) : t :=
  {| src := src e; currentTime := 0; duration := 0;
     paused := true; readyState := 0%nat; volume := volume e;
     muted := muted e |}.

End Element.

(** The component: its [src] prop, the ref to the element and its state
    variables. *)
Record t : Type :=
  { src : option string;
    audioRef : option Element.t;
    isPlaying : bool;
    currentTime : Q;
    duration : Q;
    volume : Q;
    isMuted : bool;
    isLoading : bool;
    error : option string }.

Definition setSrc (v : option string) (p : t) : t :=
  {| src := v; audioRef := audioRef p; isPlaying := isPlaying p;
     currentTime := currentTime p; duration := duration p; volume := volume p;
     isMuted := isMuted p; isLoading := isLoading p; error := error p |}.

Definition setAudioRef (v : option Element.t) (p : t) : t :=
  {| src := src p; audioRef := v; isPlaying := isPlaying p;
     currentTime := currentTime p; duration := duration p; volume := volume p;
     isMuted := isMuted p; isLoading := isLoading p; error := error p |}.

Definition setIsPlaying (v : bool) (p : t) : t :=
  {| src := src p; audioRef := audioRef p; isPlaying := v;
     currentTime := currentTime p; duration := duration p; volume := volume p;
     isMuted := isMuted p; isLoading := isLoading p; error := error p |}.

Definition setCurrentTime (v : Q) (p : t) : t :=
  {| src := src p; audioRef := audioRef p; isPlaying := isPlaying p;
     currentTime := v; duration := duration p; volume := volume p;
     isMuted := isMuted p; isLoading := isLoading p; error := error p |}.

Definition setDuration (v : Q) (p : t) : t :=
  {| src := src p; audioRef := audioRef p; isPlaying := isPlaying p;
     currentTime := currentTime p; duration := v; volume := volume p;
     isMuted := isMuted p; isLoading := isLoading p; error := error p |}.

Definition setVolume (v : Q) (p : t) : t :=
  {| src := src p; audioRef := audioRef p; isPlaying := isPlaying p;
     currentTime := currentTime p; duration := duration p; volume := v;
     isMuted := isMuted p; isLoading := isLoading p; error := error p |}.

Definition setIsMuted (v : bool) (p : t) : t :=
  {| src := src p; audioRef := audioRef p; isPlaying := isPlaying p;
     currentTime := currentTime p; duration := duration p; volume := volume p;
     isMuted := v; isLoading := isLoading p; error := error p |}.

Definition setIsLoading (v : bool) (p : t) : t :=
  {| src := src p; audioRef := audioRef p; isPlaying := isPlaying p;
     currentTime := currentTime p; duration := duration p; volume := volume p;
     isMuted := isMuted p; isLoading := v; error := error p |}.

Definition setError (v : option string) (p : t) : t :=
  {| src := src p; audioRef := audioRef p; isPlaying := isPlaying p;
     currentTime := currentTime p; duration := duration p; volume := volume p;
     isMuted := isMuted p; isLoading := isLoading p; error := v |}.

(** The element through the ref: [audioRef.current.m()]. *)
Definition onElement (f : Element.t -> Element.t) (p : t) : t :=
  match audioRef p with
  | Some el => setAudioRef (Some (f el)) p
  | None => p
  end.

(** The component as first mounted: no source, the element in place. *)
Definition mounted : t :=
  {| src := None; audioRef := Some Element.initial; isPlaying := false;
     currentTime := 0; duration := 0; volume := 1; isMuted := false;
     isLoading := false; error := None |}.

(** [src] as a condition, and [audioRef.current.paused]. *)
Definition hasSrc (p : t) : bool :=
  match src p with Some u => JS.truthy u | None => false end.

Definition elementPaused (p : t) : bool :=
  match audioRef p with Some el => Element.paused el | None => true end.

(** In every handler below [r] is the rendered snapshot the handler closed
    over (its state variables and props) and [p] the component as it stands
    when the statement runs (the element and the updates queued so far). *)

(** [useEffect(..., [src])]: reset the state when [src] changes. *)
Definition useEffect_src (p : t) : t :=
  let p := setIsPlaying false p in
  let p := setCurrentTime 0 p in
  let p := setDuration 0 p in
  let p := setIsLoading (match src p with Some _ => true | None => false end) p in
  let p := setError None p in
  match src p with
  | Some u => onElement (fun el => Element.load (Element.setSrc (Some u) el)) p
  | None =>
      onElement
        (fun el => Element.pause (Element.load (Element.setSrc None el))) p
  end.

Definition handlePlayPause (r p : t) : t :=
  match audioRef p, src r with
  | Some el, Some _ =>
      if isPlaying r then onElement Element.pause p
      else if (2 <=? Element.readyState el)%nat then onElement Element.play p
      else
        let p := setIsLoading true p in
        let p := setError None p in
        onElement Element.load p
  | _, _ => p
  end.

(** The rejection handler of [audioRef.current.play()] in [handlePlayPause]. *)
Definition playRejected (p : t) : t :=
  let p :=
    setError
      (Some "Failed to play audio. Please check the file or browser permissions.") p in
  let p := setIsLoading false p in
  setIsPlaying false p.

(** [handleTimeUpdate]: the new state and the time handed to [onTimeUpdate]. *)
Definition handleTimeUpdate (p : t) : t * option Q :=
  match audioRef p with
  | None => (p, None)
  | Some el =>
      let newTime := Element.currentTime el in
      (setCurrentTime newTime p, Some newTime)
  end.

Definition handleLoadedMetadata (p : t) : t :=
  match audioRef p with
  | None => p
  | Some el =>
      let p := setDuration (Element.duration el) p in
      let p := setIsLoading false p in
      setError None p
  end.

Definition handleCanPlay (r p : t) : t :=
  match audioRef p with
  | None => p
  | Some _ =>
      let p := setIsLoading false p in
      let p := setError None p in
      if isPlaying r then onElement Element.play p else p
  end.

(** The rejection handler of [play()] in [handleCanPlay]. *)
Definition canPlayRejected (p : t) : t :=
  let p := setError (Some "Failed to play audio automatically after loading.") p in
  setIsPlaying false p.

Definition handleSeek (newTime : Q) (p : t) : t :=
  match audioRef p with
  | None => p
  | Some _ =>
      let p := onElement (Element.setCurrentTime newTime) p in
      setCurrentTime newTime p
  end.

Definition handleVolumeChange (newVolume : Q) (p : t) : t :=
  match audioRef p with
  | None => p
  | Some _ =>
      let p := onElement (Element.setVolume newVolume) p in
      let p := setVolume newVolume p in
      let p := setIsMuted (Num.isZero newVolume) p in
      onElement (Element.setMuted (Num.isZero newVolume)) p
  end.

Definition toggleMute (r p : t) : t :=
  match audioRef p with
  | None => p
  | Some _ =>
      let currentlyMuted := negb (isMuted r) in
      let p := setIsMuted currentlyMuted p in
      let p := onElement (Element.setMuted currentlyMuted) p in
      if negb currentlyMuted && Num.isZero (volume r)
      then onElement (Element.setVolume 0.5) (setVolume 0.5 p)
      else p
  end.

Definition handleSkip (r : t) (amount : Q) (p : t) : t :=
  match audioRef p with
  | None => p
  | Some el =>
      if Num.isZero (duration r) then p
      else
        let newTime :=
          Num.max 0 (Num.min (duration r) (Element.currentTime el + amount)) in
        let p := onElement (Element.setCurrentTime newTime) p in
        setCurrentTime newTime p
  end.

Definition handleEnded (r p : t) : t :=
  let p := setIsPlaying false p in
  setCurrentTime (if Num.isZero (duration r) then 0 else duration r) p.

(** The inline handlers of the [<audio>] element. *)
Definition onPlay (p : t) : t :=
  setError None (setIsLoading false (setIsPlaying true p)).
Definition onPause (p : t) : t := setIsPlaying false p.
Definition onWaiting (p : t) : t := setIsLoading true p.
Definition onPlaying (p : t) : t := setIsLoading false p.

(** The [MediaError] codes. *)
Inductive MediaErrorCode : Type :=
| MEDIA_ERR_ABORTED
| MEDIA_ERR_NETWORK
| MEDIA_ERR_DECODE
| MEDIA_ERR_SRC_NOT_SUPPORTED.

Definition handleError (code : option MediaErrorCode) (p : t) : t :=
  let message :=
    match code with
    | Some MEDIA_ERR_ABORTED => "Audio playback aborted."
    | Some MEDIA_ERR_NETWORK => "A network error caused the audio download to fail."
    | Some MEDIA_ERR_DECODE => "Audio playback failed due to decoding error."
    | Some MEDIA_ERR_SRC_NOT_SUPPORTED => "The audio format is not supported."
    | None => "An unknown error occurred while loading or playing the audio."
    end in
  let p := setError (Some message) p in
  let p := setIsLoading false p in
  setIsPlaying false p.

(** [validTime] of [seekTo]. *)
Definition validTime (r : t) (time : Q) : Q :=
  Num.max 0 (Num.min (duration r) time).

(** The imperative handle: [seekTo], [play] and [pause]. *)
Definition seekTo (r : t) (time : Q) (p : t) : t :=
  match audioRef p with
  | Some _ =>
      if Num.gt (duration r) 0 then
        let p := onElement (Element.setCurrentTime (validTime r time)) p in
        let p := setCurrentTime (validTime r time) p in
        if negb (isPlaying r) && elementPaused p
        then handlePlayPause r p
        else p
      else p
  | None => p
  end.

Definition play (r p : t) : t :=
  match audioRef p with
  | Some _ => if negb (isPlaying r) then handlePlayPause r p else p
  | None => p
  end.

Definition pause (r p : t) : t :=
  match audioRef p with
  | Some _ => if isPlaying r then handlePlayPause r p else p
  | None => p
  end.

(** *** Events of the player

    What can happen to a mounted player: a control is used, or the media
    element reports.  An event that comes from the element carries what the
    browser changed on it before the listener runs. *)
Inductive Event : Type :=
| PlayPauseClicked
| SliderSeek (newTime : Q)
| VolumeSlider (newVolume : Q)
| MuteClicked
| SkipClicked (amount : Q)
| MediaLoadedMetadata (mediaDuration : Q)
| MediaCanPlay
| MediaTimeUpdate (position : option Q)
| MediaPlay
| MediaPause
| MediaEnded
| MediaWaiting
| MediaPlaying
| MediaError (code : option MediaErrorCode)
| PlayRejected
| CanPlayRejected.

(** What the browser has done to the element when the event is delivered. *)
Definition browser (e : Event) (el : Element.t) : Element.t :=
  match e with
  | MediaLoadedMetadata d =>
      {| Element.src := Element.src el; Element.currentTime := Element.currentTime el;
         Element.duration := d; Element.paused := Element.paused el;
         Element.readyState := Nat.max 1 (Element.readyState el);
         Element.volume := Element.volume el; Element.muted := Element.muted el |}
  | MediaCanPlay =>
      {| Element.src := Element.src el; Element.currentTime := Element.currentTime el;
         Element.duration := Element.duration el; Element.paused := Element.paused el;
         Element.readyState := Nat.max 3 (Element.readyState el);
         Element.volume := Element.volume el; Element.muted := Element.muted el |}
  | MediaTimeUpdate (Some t) => Element.setCurrentTime t el
  | MediaEnded => Element.pause el
  | _ => el
  end.

(** Whether the event can occur: the controls exist only with a source (the
    slider also needs a known duration), the element makes progress only with
    a source, and it reports [play] only after [play()]. *)
Definition enabled (p : t) (e : Event) : bool :=
  match e with
  | PlayPauseClicked =>
      hasSrc p && negb (Num.isZero (duration p) && negb (isLoading p))
  | SliderSeek _ => hasSrc p && negb (Num.isZero (duration p)) && negb (isLoading p)
  | SkipClicked _ => hasSrc p && negb (Num.isZero (duration p)) && negb (isLoading p)
  | VolumeSlider _ | MuteClicked => hasSrc p && negb (isLoading p)
  | MediaLoadedMetadata _ | MediaCanPlay | MediaEnded | MediaWaiting
  | MediaPlaying => hasSrc p
  | MediaTimeUpdate (Some _) => hasSrc p
  | MediaTimeUpdate None => true
  | MediaPlay => negb (elementPaused p)
  | MediaPause => elementPaused p
  | MediaError _ | PlayRejected | CanPlayRejected => true
  end.

(** The listener of each event; with [MediaTimeUpdate], the time passed to
    the [onTimeUpdate] prop. *)
Definition handle (e : Event) (p : t) : t * option Q :=
  let r := p in
  let p := onElement (browser e) p in
  match e with
  | PlayPauseClicked => (handlePlayPause r p, None)
  | SliderSeek newTime => (handleSeek newTime p, None)
  | VolumeSlider newVolume => (handleVolumeChange newVolume p, None)
  | MuteClicked => (toggleMute r p, None)
  | SkipClicked amount => (handleSkip r amount p, None)
  | MediaLoadedMetadata _ => (handleLoadedMetadata p, None)
  | MediaCanPlay => (handleCanPlay r p, None)
  | MediaTimeUpdate _ => handleTimeUpdate p
  | MediaPlay => (onPlay p, None)
  | MediaPause => (onPause p, None)
  | MediaEnded => (handleEnded r p, None)
  | MediaWaiting => (onWaiting p, None)
  | MediaPlaying => (onPlaying p, None)
  | MediaError code => (handleError code p, None)
  | PlayRejected => (playRejected p, None)
  | CanPlayRejected => (canPlayRejected p, None)
  end.

(** *** Properties of the player *)

(** The player at rest: not playing, at position zero, no duration known, the
    element paused at position zero. *)
Definition atRest (p : t) : Prop :=
  isPlaying p = false /\ currentTime p = 0 /\ duration p = 0
  /\ match audioRef p with
     | Some el => Element.paused el = true /\ Element.currentTime el = 0
     | None => True
     end.

(** A player without a source is at rest. *)
Definition consistent (p : t) : Prop := src p = None -> atRest p.

Lemma mounted_consistent : consistent mounted.
Proof. intros _. repeat split. Qed.

Lemma validTime_bounds (r : t) (time : Q) :
  (0 <= duration r -> 0 <= validTime r time <= duration r)%Q.
Proof.
  intro Hd. unfold validTime, Num.max, Num.min. split.
  - apply Q.le_max_l.
  - apply Q.max_lub; [exact Hd | apply Q.le_min_l].
Qed.

Lemma validTime_inside (r : t) (time : Q) :
  (0 <= time -> time <= duration r -> validTime r time == time)%Q.
Proof.
  intros H0 Hd. unfold validTime, Num.max, Num.min.
  rewrite (Q.min_r _ _ Hd). apply Q.max_r, H0.
Qed.

Lemma validTime_below (r : t) (time : Q) :
  (0 <= duration r -> time <= 0 -> validTime r time == 0)%Q.
Proof.
  intros Hd H0. unfold validTime, Num.max, Num.min.
  apply Q.max_l.
  eapply Qle_trans; [apply Q.le_min_r | exact H0].
Qed.

Lemma validTime_above (r : t) (time : Q) :
  (0 <= duration r -> duration r <= time -> validTime r time == duration r)%Q.
Proof.
  intros H0 Hd. unfold validTime, Num.max, Num.min.
  rewrite (Q.min_l _ _ Hd). apply Q.max_r, H0.
Qed.

(** [validTime] is one of its three candidates, as a value. *)
Lemma validTime_cases (r : t) (time : Q) :
  validTime r time = 0 \/ validTime r time = duration r \/ validTime r time = time.
Proof.
  unfold validTime, Num.max, Num.min, Qmax, Qmin.
  unfold GenericMinMax.gmax, GenericMinMax.gmin.
  destruct (Qcompare (duration r) time);
    match goal with |- context [Qcompare ?a ?b] => destruct (Qcompare a b) end;
    auto.
Qed.

Lemma onElement_fields (f : Element.t -> Element.t) (p : t) :
  src (onElement f p) = src p /\ isPlaying (onElement f p) = isPlaying p
  /\ currentTime (onElement f p) = currentTime p
  /\ duration (onElement f p) = duration p
  /\ audioRef (onElement f p) = option_map f (audioRef p).
Proof. unfold onElement. destruct (audioRef p) eqn:E; cbn; auto. Qed.

Lemma handlePlayPause_currentTime (r p : t) :
  currentTime (handlePlayPause r p) = currentTime p.
Proof.
  unfold handlePlayPause.
  destruct (audioRef p) as [el|]; [|reflexivity].
  destruct (src r); [|reflexivity].
  destruct (isPlaying r); [|destruct (2 <=? Element.readyState el)%nat];
    now rewrite (proj1 (proj2 (proj2 (onElement_fields _ _)))).
Qed.

Lemma handlePlayPause_src (r p : t) : src (handlePlayPause r p) = src p.
Proof.
  unfold handlePlayPause.
  destruct (audioRef p) as [el|]; [|reflexivity].
  destruct (src r); [|reflexivity].
  destruct (isPlaying r); [|destruct (2 <=? Element.readyState el)%nat];
    now rewrite (proj1 (onElement_fields _ _)).
Qed.

Lemma handlePlayPause_no_src (r p : t) : src r = None -> handlePlayPause r p = p.
Proof.
  intro H. unfold handlePlayPause. rewrite H. now destruct (audioRef p).
Qed.

(** The position of the element, when it is in place. *)
Definition elementTime (p : t) : option Q :=
  option_map Element.currentTime (audioRef p).

Lemma handlePlayPause_keeps_element (r p : t) (el : Element.t) :
  audioRef p = Some el ->
  isPlaying r = true \/ (2 <= Element.readyState el)%nat \/ src r = None ->
  elementTime (handlePlayPause r p) = elementTime p.
Proof.
  intros Hel H. unfold handlePlayPause. rewrite Hel.
  destruct (src r); [|reflexivity].
  destruct (isPlaying r).
  - unfold onElement, elementTime. now rewrite Hel.
  - destruct H as [H|[H|H]]; try discriminate H.
    apply Nat.leb_le in H. rewrite H.
    unfold onElement, elementTime. now rewrite Hel.
Qed.

(** C9.  With the element in place, [seekTo(time)] seeks only when
    [duration > 0]; the time it then applies is [time] clamped to
    [[0, duration]]: it lies in the interval, equals [time] when [time] lies
    in the interval, is [0] for a [time] below and [duration] for a [time]
    above.  That time becomes the displayed position, and the position of the
    element (unless the attempt to start playback that follows the seek finds
    the element not ready and reloads it).  When [duration] is not positive,
    [seekTo] changes nothing. *)
Theorem seekTo_clamps (r p : t) (el : Element.t) (time : Q) :
  audioRef p = Some el ->
  ((0 < duration r)%Q ->
     currentTime (seekTo r time p) = validTime r time
     /\ (isPlaying r = true \/ Element.paused el = false
         \/ (2 <= Element.readyState el)%nat \/ src r = None ->
         elementTime (seekTo r time p) = Some (validTime r time))
     /\ (0 <= validTime r time <= duration r)%Q
     /\ ((0 <= time <= duration r)%Q -> (validTime r time == time)%Q)
     /\ ((time <= 0)%Q -> (validTime r time == 0)%Q)
     /\ ((duration r <= time)%Q -> (validTime r time == duration r)%Q))
  /\ ((duration r <= 0)%Q -> seekTo r time p = p).
Proof.
  intro Hel. split.
  - intro Hd. pose proof (Qlt_le_weak _ _ Hd) as Hd'.
    assert (G : Num.gt (duration r) 0 = true) by now apply Num.gt_iff.
    set (v := validTime r time).
    set (p1 := setCurrentTime v (onElement (Element.setCurrentTime v) p)).
    assert (Hel1 : audioRef p1 = Some (Element.setCurrentTime v el)).
    { unfold p1, onElement. now rewrite Hel. }
    assert (Hseek : seekTo r time p
                    = if negb (isPlaying r) && Element.paused el
                      then handlePlayPause r p1 else p1).
    { unfold seekTo. rewrite Hel, G. cbv zeta. fold v. fold p1.
      unfold elementPaused. now rewrite Hel1. }
    split; [|split; [|split; [|split; [|split]]]].
    + rewrite Hseek.
      destruct (negb (isPlaying r) && Element.paused el);
        [rewrite handlePlayPause_currentTime|]; reflexivity.
    + intro H. rewrite Hseek.
      assert (Ht : elementTime p1 = Some v)
        by (unfold elementTime; now rewrite Hel1).
      destruct (negb (isPlaying r) && Element.paused el) eqn:C; [|exact Ht].
      rewrite (handlePlayPause_keeps_element r p1 _ Hel1); [exact Ht|].
      apply andb_true_iff in C as [C1 C2]. apply negb_true_iff in C1.
      destruct H as [H|[H|[H|H]]]; try congruence; auto.
    + now apply validTime_bounds.
    + intros [H0 H1]. now apply validTime_inside.
    + now apply validTime_below.
    + now apply validTime_above.
  - intro Hd. unfold seekTo. rewrite Hel.
    assert (G : Num.gt (duration r) 0 = false) by now apply Num.gt_false_iff.
    now rewrite G.
Qed.

(** The theorem at work: a seek to 12 s in a recording of 10 s lands on
    10 s. *)
Definition tenSeconds : t :=
  {| src := Some "blob:0";
     audioRef :=
       Some {| Element.src := Some "blob:0"; Element.currentTime := 3;
               Element.duration := 10; Element.paused := false;
               Element.readyState := 4%nat; Element.volume := 1;
               Element.muted := false |};
     isPlaying := true; currentTime := 3; duration := 10; volume := 1;
     isMuted := false; isLoading := false; error := None |}.

Lemma seekTo_clamps_witness :
  currentTime (seekTo tenSeconds 12 tenSeconds) = 10
  /\ currentTime (seekTo tenSeconds (-4) tenSeconds) = 0
  /\ currentTime (seekTo tenSeconds 7.5 tenSeconds) = 7.5.
Proof.
  split; [|split].
  - exact (proj1 (proj1 (seekTo_clamps tenSeconds tenSeconds _ 12 eq_refl) eq_refl)).
  - exact (proj1 (proj1 (seekTo_clamps tenSeconds tenSeconds _ (-4) eq_refl) eq_refl)).
  - exact (proj1 (proj1 (seekTo_clamps tenSeconds tenSeconds _ 7.5 eq_refl) eq_refl)).
Defined.

(** Without the element, or without a known duration, nothing moves. *)
Lemma seekTo_unmounted (r p : t) (time : Q) :
  audioRef p = None -> seekTo r time p = p.
Proof. intro H. unfold seekTo. now rewrite H. Qed.

Example seekTo_no_duration : seekTo mounted 5 mounted = mounted.
Proof. reflexivity. Qed.

(** A seek on a paused player also asks the element to play. *)
Example seekTo_starts_playback :
  let paused := setIsPlaying false (onElement Element.pause tenSeconds) in
  option_map Element.paused (audioRef (seekTo paused 2 paused)) = Some false.
Proof. reflexivity. Qed.


(** *** A player without a source stays at rest *)

Lemma useEffect_src_src (p : t) : src (useEffect_src p) = src p.
Proof.
  unfold useEffect_src. cbn.
  destruct (src p) eqn:E; now rewrite (proj1 (onElement_fields _ _)).
Qed.

(** After the effect on [src] the player is at rest, whatever the source. *)
Lemma useEffect_src_atRest (p : t) : atRest (useEffect_src p).
Proof.
  unfold useEffect_src, atRest, onElement. cbn.
  destruct (src p); destruct (audioRef p) eqn:E; cbn; rewrite ?E; repeat split.
Qed.

Lemma pause_src (r p : t) : src (pause r p) = src p.
Proof.
  unfold pause. destruct (audioRef p); [|reflexivity].
  destruct (isPlaying r); [apply handlePlayPause_src | reflexivity].
Qed.

Lemma pause_no_src (r p : t) : src r = None -> pause r p = p.
Proof.
  intro H. unfold pause. destruct (audioRef p); [|reflexivity].
  destruct (isPlaying r); [now apply handlePlayPause_no_src | reflexivity].
Qed.

Lemma play_src (r p : t) : src (play r p) = src p.
Proof.
  unfold play. destruct (audioRef p); [|reflexivity].
  destruct (negb (isPlaying r)); [apply handlePlayPause_src | reflexivity].
Qed.

Lemma seekTo_src (r p : t) (time : Q) : src (seekTo r time p) = src p.
Proof.
  unfold seekTo. destruct (audioRef p); [|reflexivity].
  destruct (Num.gt (duration r) 0); [|reflexivity].
  cbv zeta.
  destruct (negb (isPlaying r) && elementPaused _);
    rewrite ?handlePlayPause_src; cbn; apply onElement_fields.
Qed.

Lemma seekTo_no_src (r p : t) (time : Q) :
  consistent r -> src r = None -> seekTo r time p = p.
Proof.
  intros Hr H. destruct (Hr H) as (_ & _ & Hd & _).
  unfold seekTo. rewrite Hd. now destruct (audioRef p).
Qed.

(** The methods of the handle keep a consistent player consistent. *)
Lemma pause_consistent (r p : t) :
  src p = src r -> consistent p -> consistent (pause r p).
Proof.
  intros Hs Hp H. rewrite pause_src in H.
  rewrite pause_no_src by congruence. now apply Hp.
Qed.

Lemma seekTo_consistent (r p : t) (time : Q) :
  consistent r -> src p = src r -> consistent p -> consistent (seekTo r time p).
Proof.
  intros Hr Hs Hp H. rewrite seekTo_src in H.
  rewrite seekTo_no_src by (assumption || congruence). now apply Hp.
Qed.

Lemma handle_src (e : Event) (p : t) : src (fst (handle e p)) = src p.
Proof.
  unfold handle.
  pose proof (onElement_fields (browser e) p) as (Hs & _ & _ & _ & Ha).
  set (q := onElement (browser e) p) in *. clearbody q.
  destruct e; cbn [fst];
    unfold handlePlayPause, handleSeek, handleVolumeChange, toggleMute,
      handleSkip, handleLoadedMetadata, handleCanPlay, handleTimeUpdate,
      handleEnded, onPlay, onPause, onWaiting, onPlaying, handleError,
      playRejected, canPlayRejected, onElement;
    repeat match goal with
      | |- context [match audioRef ?x with _ => _ end] => destruct (audioRef x)
      | |- context [match src ?x with _ => _ end] => destruct (src x)
      | |- context [if ?c then _ else _] => destruct c
      end; cbn; auto.
Qed.

(** Every event that can occur keeps the player consistent. *)
Lemma handle_consistent (e : Event) (p : t) :
  consistent p -> enabled p e = true -> consistent (fst (handle e p)).
Proof.
  intros Hp He H. rewrite handle_src in H.
  destruct (Hp H) as (H1 & H2 & H3 & H4).
  unfold atRest.
  destruct p as [sr ar ip ct du vo im il er]. cbn in *. subst sr ip ct du.
  unfold hasSrc, elementPaused in He. cbn in He.
  destruct ar as [el|].
  - destruct H4 as [H4 H5].
    destruct e as [ | | | | | | |[pos|] | | | | | | | | ]; cbn in He;
      try discriminate He; cbn; rewrite ?H4, ?H5 in *;
      try discriminate He; auto.
  - destruct e as [ | | | | | | |[pos|] | | | | | | | | ]; cbn in He;
      try discriminate He; cbn; auto.
Qed.

(** *** Skipping *)

Lemma isZero_iff (x : Q) : Num.isZero x = true <-> (x == 0)%Q.
Proof. apply Qeq_bool_iff. Qed.

Lemma isZero_false_iff (x : Q) : Num.isZero x = false <-> ~ (x == 0)%Q.
Proof.
  unfold Num.isZero. split.
  - intros H E. apply Qeq_bool_iff in E. congruence.
  - intro H. destruct (Qeq_bool x 0) eqn:E; [|reflexivity].
    apply Qeq_bool_iff in E. contradiction.
Qed.

(** X3.  With the element in place and a known duration, [handleSkip(amount)]
    moves to the element's own position plus [amount], clamped to
    [[0, duration]]: the new position lies in the interval, is the target
    when the target lies in the interval, [0] for a target below and
    [duration] for a target above.  The displayed position and the position
    of the element are both set to it, and playback is neither started nor
    stopped.  With a duration of zero, [handleSkip] changes nothing. *)
Theorem handleSkip_clamps (r p : t) (el : Element.t) (amount : Q) :
  audioRef p = Some el ->
  ((0 < duration r)%Q ->
     let target := (Element.currentTime el + amount)%Q in
     let p' := handleSkip r amount p in
     currentTime p' = validTime r target
     /\ elementTime p' = Some (validTime r target)
     /\ (0 <= validTime r target <= duration r)%Q
     /\ ((0 <= target <= duration r)%Q -> (validTime r target == target)%Q)
     /\ ((target <= 0)%Q -> (validTime r target == 0)%Q)
     /\ ((duration r <= target)%Q -> (validTime r target == duration r)%Q)
     /\ isPlaying p' = isPlaying p
     /\ elementPaused p' = elementPaused p)
  /\ ((duration r == 0)%Q -> handleSkip r amount p = p).
Proof.
  intro Hel. split.
  - intros Hd target p'. subst p'.
    assert (Z : Num.isZero (duration r) = false).
    { apply isZero_false_iff. intro E. rewrite E in Hd. now apply Qlt_irrefl in Hd. }
    pose proof (Qlt_le_weak _ _ Hd) as Hd'.
    unfold handleSkip. rewrite Hel, Z. cbv zeta.
    fold target. fold (validTime r target).
    unfold onElement, elementTime, elementPaused. rewrite Hel. cbn.
    repeat split.
    + now apply validTime_bounds.
    + now apply validTime_bounds.
    + intros [H0 H1]. now apply validTime_inside.
    + now apply validTime_below.
    + now apply validTime_above.
  - intro E. apply isZero_iff in E. unfold handleSkip. now rewrite Hel, E.
Qed.

(** The theorem at work: ten seconds back from 3 s lands on 0 s, ten
    seconds forward on the end of the recording. *)
Lemma handleSkip_clamps_witness :
  currentTime (handleSkip tenSeconds (-10) tenSeconds) = 0
  /\ currentTime (handleSkip tenSeconds 10 tenSeconds) = 10
  /\ currentTime (handleSkip tenSeconds 5 tenSeconds) = 8.
Proof.
  split; [|split].
  - exact (proj1 (proj1 (handleSkip_clamps tenSeconds tenSeconds _ (-10) eq_refl)
                    eq_refl)).
  - exact (proj1 (proj1 (handleSkip_clamps tenSeconds tenSeconds _ 10 eq_refl)
                    eq_refl)).
  - exact (proj1 (proj1 (handleSkip_clamps tenSeconds tenSeconds _ 5 eq_refl)
                    eq_refl)).
Defined.

(** *** Volume and muting *)

(** The volume and the mute flag shown are those of the element, and a
    player that is not muted has a volume other than zero. *)
Definition volumeInSync (p : t) : Prop :=
  (isMuted p = false -> ~ (volume p == 0)%Q)
  /\ match audioRef p with
     | Some el => Element.volume el = volume p /\ Element.muted el = isMuted p
     | None => True
     end.

(** The part of a player that [volumeInSync] reads. *)
Definition volumeView (p : t) : Q * bool * option (Q * bool) :=
  (volume p, isMuted p,
   option_map (fun el => (Element.volume el, Element.muted el)) (audioRef p)).

Lemma volumeInSync_view (p q : t) :
  volumeView q = volumeView p -> volumeInSync p -> volumeInSync q.
Proof.
  unfold volumeView, volumeInSync. intros E [H1 H2].
  injection E as E1 E2 E3. rewrite E1, E2.
  split; [exact H1|].
  destruct (audioRef q) as [el'|]; [|exact I].
  destruct (audioRef p) as [el|]; [|discriminate E3].
  cbn in E3. injection E3 as E3 E4. destruct H2. split; congruence.
Qed.

Lemma handlePlayPause_volumeView (r p : t) :
  volumeView (handlePlayPause r p) = volumeView p.
Proof.
  unfold handlePlayPause, volumeView, onElement.
  destruct (audioRef p) as [el|] eqn:E; [|now rewrite E].
  destruct (src r); [|now rewrite E].
  destruct (isPlaying r); [|destruct (2 <=? Element.readyState el)%nat];
    cbn; rewrite ?E; reflexivity.
Qed.

Lemma seekTo_volumeView (r p : t) (time : Q) :
  volumeView (seekTo r time p) = volumeView p.
Proof.
  unfold seekTo.
  destruct (audioRef p) as [el|] eqn:E; [|reflexivity].
  destruct (Num.gt (duration r) 0); [|reflexivity]. cbv zeta.
  destruct (negb (isPlaying r) && _); rewrite ?handlePlayPause_volumeView;
    unfold volumeView, onElement; rewrite E; reflexivity.
Qed.

Lemma pause_volumeView (r p : t) : volumeView (pause r p) = volumeView p.
Proof.
  unfold pause. destruct (audioRef p); [|reflexivity].
  destruct (isPlaying r); [apply handlePlayPause_volumeView | reflexivity].
Qed.

Lemma play_volumeView (r p : t) : volumeView (play r p) = volumeView p.
Proof.
  unfold play. destruct (audioRef p); [|reflexivity].
  destruct (negb (isPlaying r)); [apply handlePlayPause_volumeView | reflexivity].
Qed.

Lemma useEffect_src_volumeView (u : option string) (p : t) :
  volumeView (useEffect_src (setSrc u p)) = volumeView p.
Proof.
  destruct p as [sr ar ip ct du vo im il er].
  unfold useEffect_src, volumeView, onElement. cbn.
  destruct u; destruct ar; reflexivity.
Qed.

Lemma handle_volumeInSync (e : Event) (p : t) :
  volumeInSync p -> volumeInSync (fst (handle e p)).
Proof.
  intros [H1 H2]. unfold handle, volumeInSync in *.
  destruct p as [sr ar ip ct du vo im il er]. cbn in *.
  destruct ar as [el|].
  - destruct H2 as [H2 H3].
    destruct e as [ | | v | | | | |[pos|] | | | | | | | | ];
      unfold handlePlayPause, handleSeek, handleVolumeChange, toggleMute,
        handleSkip, handleLoadedMetadata, handleCanPlay, handleTimeUpdate,
        handleEnded, onPlay, onPause, onWaiting, onPlaying, handleError,
        playRejected, canPlayRejected, onElement; cbn;
      repeat (match goal with
              | |- context [match ?x with Some _ => _ | None => _ end] =>
                  is_var x; destruct x
              | |- context [if ?c then _ else _] => destruct c eqn:?
              end; cbn); auto.
    + split; [|auto]. intro M. now apply isZero_false_iff.
    + split; [|auto]. intros _ E. lra.
    + split; [|auto]. intro M. apply negb_false_iff in M.
      match goal with
      | H : negb (negb _) && _ = false |- _ => rewrite M in H; cbn in H
      end.
      now apply isZero_false_iff.
  - destruct e as [ | | v | | | | |[pos|] | | | | | | | | ]; cbn; auto.
Qed.

(** X4.  The volume control and the mute button keep the display and the
    element together: from the mounted player on, after every event of the
    player, every change of source and every call through the imperative
    handle, the element's volume and mute flag are the ones shown, and a
    player that is not muted has a volume other than zero (unmuting at volume
    zero sets the volume to 0.5, and the slider at zero mutes). *)
Theorem volume_in_sync :
  volumeInSync mounted
  /\ (forall (e : Event) (p : t),
        volumeInSync p -> volumeInSync (fst (handle e p)))
  /\ (forall (u : option string) (p : t),
        volumeInSync p -> volumeInSync (useEffect_src (setSrc u p)))
  /\ (forall (r p : t) (time : Q),
        volumeInSync p ->
        volumeInSync (seekTo r time p) /\ volumeInSync (pause r p)
        /\ volumeInSync (play r p))
  /\ (forall (p : t) (el : Element.t),
        audioRef p = Some el -> isMuted p = true -> (volume p == 0)%Q ->
        volume (fst (handle MuteClicked p)) = 0.5
        /\ isMuted (fst (handle MuteClicked p)) = false)
  /\ (forall (p : t) (el : Element.t) (newVolume : Q),
        audioRef p = Some el ->
        isMuted (fst (handle (VolumeSlider newVolume) p))
        = Num.isZero newVolume).
Proof.
  split; [|split; [|split; [|split; [|split]]]].
  - split; cbn; [intros _ E; lra | auto].
  - apply handle_volumeInSync.
  - intros u p. apply volumeInSync_view, useEffect_src_volumeView.
  - intros r p time H. split; [|split].
    + eapply volumeInSync_view; [apply seekTo_volumeView | exact H].
    + eapply volumeInSync_view; [apply pause_volumeView | exact H].
    + eapply volumeInSync_view; [apply play_volumeView | exact H].
  - intros p el Hel M V. apply isZero_iff in V.
    unfold handle, toggleMute, onElement. cbn. rewrite Hel. cbn.
    rewrite M, V. cbn. auto.
  - intros p el v Hel. unfold handle, handleVolumeChange, onElement. cbn.
    rewrite Hel. reflexivity.
Qed.

(** The theorem at work: the slider at zero mutes the player, and the mute
    button then brings it back at volume 0.5. *)
Lemma volume_in_sync_witness :
  let silenced := fst (handle (VolumeSlider 0) tenSeconds) in
  volumeInSync silenced
  /\ isMuted silenced = true
  /\ volume (fst (handle MuteClicked silenced)) = 0.5.
Proof.
  destruct volume_in_sync as (V0 & V1 & _ & _ & V4 & V5).
  cbv zeta. split; [|split].
  - apply V1. split; cbn; [intros _ E; lra | auto].
  - exact (V5 tenSeconds _ 0 eq_refl).
  - refine (proj1 (V4 (fst (handle (VolumeSlider 0) tenSeconds)) _ eq_refl
                     eq_refl _)).
    reflexivity.
Defined.

End AudioPlayer.

(** ** The page ([Home]) *)

Module Page.

Import TranscribeAudioFlow.

(** A [File] object: its identity and its name (the only property the page
    reads). *)
Record File : Type := { fileId : nat; name : string }.

Definition File_eqb (f g : File) : bool :=
  (fileId f =? fileId g)%nat && String.eqb (name f) (name g).

(** [Object.is] on [selectedFile] values, as the dependency array compares
    them. *)
Definition sameFile (a b : option File) : bool :=
  match a, b with
  | Some f, Some g => File_eqb f g
  | None, None => true
  | _, _ => false
  end.

Definition sameSrc (a b : option string) : bool :=
  match a, b with
  | Some u, Some v => String.eqb u v
  | None, None => true
  | _, _ => false
  end.

(** The notices handed to [toast]. *)
Inductive ToastVariant : Type := default | destructive.

Record Toast : Type :=
  { title : string;
    description : option string;
    variant : option ToastVariant;
    duration : option Z }.

(** A notice is destructive-styled only when it asks for that variant. *)
Definition isDestructive (t : Toast) : bool :=
  match variant t with
  | Some destructive => true
  | _ => false
  end.

(** [SummarizeTranscriptOutput] *)
Record SummarizeTranscriptOutput : Type := { summary_ : string }.

(** A callback waiting in the timer queue. *)
Inductive Timer : Type :=
| ProcessSelectedFile (setFileAgain : bool) (file : File) (lang : string)
    (* the [setTimeout(..., 0)] of [handleFileSelected] *)
| ClearProcessingYouTube.
    (* [setTimeout(() => setIsProcessingYouTube(false), 500)] *)

Definition quote : string := String (ascii_of_nat 34) EmptyString.
Definition newline : string := String (ascii_of_nat 10) EmptyString.

(** [URL.createObjectURL]: a fresh URL per call, numbered by the calls made
    so far. *)
Definition createObjectURL (serial : nat) : string :=
  "blob:" ++ NilEmpty.string_of_uint (Nat.to_uint serial).

(** A simulated upload of [FileUpload] that is running: the file, and the
    state variables that the [onFileSelect] it will call reads.  That
    callback is the [handleFileSelected] of the render in which the file was
    chosen, so it sees [youtubeUrl], [youtubePlaceholderMessage] and
    [language] as they were then. *)
Record Upload : Type :=
  { uploadedFile : File;
    renderedUrl : string;
    renderedPlaceholder : option string;
    renderedLanguage : string }.

Record Home : Type :=
  { (** The state variables of [Home], in the order of their [useState]. *)
    selectedFile : option File;
    youtubeUrl : string;
    audioSrc : option string;
    transcriptSegments : list TranscriptSegment;
    fullTranscript : string;
    language : string;
    summaryPrompt : string;
    summary : string;
    isProcessingFile : bool;
    isProcessingYouTube : bool;
    isSummarizing : bool;
    fontSize : Z;
    currentAudioTime : Q;
    isClient : bool;
    youtubePlaceholderMessage : option string;
    transcriptionProgress : Z;
    aiSuggestions : list string;
    selectedAiPrompt : string;
    (** The refs: the mounted player behind [audioPlayerRef] (its state and
        handle), and the live [setInterval] behind [progressIntervalRef],
        which carries the [currentProgress] variable of its callback. *)
    audioPlayerRef : option AudioPlayer.t;
    progressIntervalRef : option Z;
    (** The surroundings: the notices issued (oldest first), the pending
        [setTimeout] callbacks, the calls awaited by [handleProcessFile] and
        [handleSummarize], the number of object URLs created, and the
        simulated uploads of the file control that are still running. *)
    toasts : list Toast;
    timers : list Timer;
    transcriptionsInFlight : nat;
    summariesInFlight : nat;
    objectUrlsCreated : nat;
    uploadsRunning : list Upload }.

(** The setters: one per state variable (the [setX] of its [useState]), and
    one per ref and per part of the surroundings. *)
Definition setSelectedFile (v : option File) (s : Home) : Home :=
  {| selectedFile := v; youtubeUrl := youtubeUrl s; audioSrc := audioSrc s;
     transcriptSegments := transcriptSegments s;
     fullTranscript := fullTranscript s; language := language s;
     summaryPrompt := summaryPrompt s; summary := summary s;
     isProcessingFile := isProcessingFile s;
     isProcessingYouTube := isProcessingYouTube s;
     isSummarizing := isSummarizing s; fontSize := fontSize s;
     currentAudioTime := currentAudioTime s; isClient := isClient s;
     youtubePlaceholderMessage := youtubePlaceholderMessage s;
     transcriptionProgress := transcriptionProgress s;
     aiSuggestions := aiSuggestions s; selectedAiPrompt := selectedAiPrompt s;
     audioPlayerRef := audioPlayerRef s;
     progressIntervalRef := progressIntervalRef s; toasts := toasts s;
     timers := timers s; transcriptionsInFlight := transcriptionsInFlight s;
     summariesInFlight := summariesInFlight s;
     objectUrlsCreated := objectUrlsCreated s;
     uploadsRunning := uploadsRunning s |}.

Definition setYoutubeUrl (v : string) (s : Home) : Home :=
  {| selectedFile := selectedFile s; youtubeUrl := v; audioSrc := audioSrc s;
     transcriptSegments := transcriptSegments s;
     fullTranscript := fullTranscript s; language := language s;
     summaryPrompt := summaryPrompt s; summary := summary s;
     isProcessingFile := isProcessingFile s;
     isProcessingYouTube := isProcessingYouTube s;
     isSummarizing := isSummarizing s; fontSize := fontSize s;
     currentAudioTime := currentAudioTime s; isClient := isClient s;
     youtubePlaceholderMessage := youtubePlaceholderMessage s;
     transcriptionProgress := transcriptionProgress s;
     aiSuggestions := aiSuggestions s; selectedAiPrompt := selectedAiPrompt s;
     audioPlayerRef := audioPlayerRef s;
     progressIntervalRef := progressIntervalRef s; toasts := toasts s;
     timers := timers s; transcriptionsInFlight := transcriptionsInFlight s;
     summariesInFlight := summariesInFlight s;
     objectUrlsCreated := objectUrlsCreated s;
     uploadsRunning := uploadsRunning s |}.

Definition setAudioSrc (v : option string) (s : Home) : Home :=
  {| selectedFile := selectedFile s; youtubeUrl := youtubeUrl s;
     audioSrc := v; transcriptSegments := transcriptSegments s;
     fullTranscript := fullTranscript s; language := language s;
     summaryPrompt := summaryPrompt s; summary := summary s;
     isProcessingFile := isProcessingFile s;
     isProcessingYouTube := isProcessingYouTube s;
     isSummarizing := isSummarizing s; fontSize := fontSize s;
     currentAudioTime := currentAudioTime s; isClient := isClient s;
     youtubePlaceholderMessage := youtubePlaceholderMessage s;
     transcriptionProgress := transcriptionProgress s;
     aiSuggestions := aiSuggestions s; selectedAiPrompt := selectedAiPrompt s;
     audioPlayerRef := audioPlayerRef s;
     progressIntervalRef := progressIntervalRef s; toasts := toasts s;
     timers := timers s; transcriptionsInFlight := transcriptionsInFlight s;
     summariesInFlight := summariesInFlight s;
     objectUrlsCreated := objectUrlsCreated s;
     uploadsRunning := uploadsRunning s |}.

Definition setTranscriptSegments (v : list TranscriptSegment) (s : Home) : Home :=
  {| selectedFile := selectedFile s; youtubeUrl := youtubeUrl s;
     audioSrc := audioSrc s; transcriptSegments := v;
     fullTranscript := fullTranscript s; language := language s;
     summaryPrompt := summaryPrompt s; summary := summary s;
     isProcessingFile := isProcessingFile s;
     isProcessingYouTube := isProcessingYouTube s;
     isSummarizing := isSummarizing s; fontSize := fontSize s;
     currentAudioTime := currentAudioTime s; isClient := isClient s;
     youtubePlaceholderMessage := youtubePlaceholderMessage s;
     transcriptionProgress := transcriptionProgress s;
     aiSuggestions := aiSuggestions s; selectedAiPrompt := selectedAiPrompt s;
     audioPlayerRef := audioPlayerRef s;
     progressIntervalRef := progressIntervalRef s; toasts := toasts s;
     timers := timers s; transcriptionsInFlight := transcriptionsInFlight s;
     summariesInFlight := summariesInFlight s;
     objectUrlsCreated := objectUrlsCreated s;
     uploadsRunning := uploadsRunning s |}.

Definition setFullTranscript (v : string) (s : Home) : Home :=
  {| selectedFile := selectedFile s; youtubeUrl := youtubeUrl s;
     audioSrc := audioSrc s; transcriptSegments := transcriptSegments s;
     fullTranscript := v; language := language s;
     summaryPrompt := summaryPrompt s; summary := summary s;
     isProcessingFile := isProcessingFile s;
     isProcessingYouTube := isProcessingYouTube s;
     isSummarizing := isSummarizing s; fontSize := fontSize s;
     currentAudioTime := currentAudioTime s; isClient := isClient s;
     youtubePlaceholderMessage := youtubePlaceholderMessage s;
     transcriptionProgress := transcriptionProgress s;
     aiSuggestions := aiSuggestions s; selectedAiPrompt := selectedAiPrompt s;
     audioPlayerRef := audioPlayerRef s;
     progressIntervalRef := progressIntervalRef s; toasts := toasts s;
     timers := timers s; transcriptionsInFlight := transcriptionsInFlight s;
     summariesInFlight := summariesInFlight s;
     objectUrlsCreated := objectUrlsCreated s;
     uploadsRunning := uploadsRunning s |}.

Definition setLanguage (v : string) (s : Home) : Home :=
  {| selectedFile := selectedFile s; youtubeUrl := youtubeUrl s;
     audioSrc := audioSrc s; transcriptSegments := transcriptSegments s;
     fullTranscript := fullTranscript s; language := v;
     summaryPrompt := summaryPrompt s; summary := summary s;
     isProcessingFile := isProcessingFile s;
     isProcessingYouTube := isProcessingYouTube s;
     isSummarizing := isSummarizing s; fontSize := fontSize s;
     currentAudioTime := currentAudioTime s; isClient := isClient s;
     youtubePlaceholderMessage := youtubePlaceholderMessage s;
     transcriptionProgress := transcriptionProgress s;
     aiSuggestions := aiSuggestions s; selectedAiPrompt := selectedAiPrompt s;
     audioPlayerRef := audioPlayerRef s;
     progressIntervalRef := progressIntervalRef s; toasts := toasts s;
     timers := timers s; transcriptionsInFlight := transcriptionsInFlight s;
     summariesInFlight := summariesInFlight s;
     objectUrlsCreated := objectUrlsCreated s;
     uploadsRunning := uploadsRunning s |}.

Definition setSummaryPrompt (v : string) (s : Home) : Home :=
  {| selectedFile := selectedFile s; youtubeUrl := youtubeUrl s;
     audioSrc := audioSrc s; transcriptSegments := transcriptSegments s;
     fullTranscript := fullTranscript s; language := language s;
     summaryPrompt := v; summary := summary s;
     isProcessingFile := isProcessingFile s;
     isProcessingYouTube := isProcessingYouTube s;
     isSummarizing := isSummarizing s; fontSize := fontSize s;
     currentAudioTime := currentAudioTime s; isClient := isClient s;
     youtubePlaceholderMessage := youtubePlaceholderMessage s;
     transcriptionProgress := transcriptionProgress s;
     aiSuggestions := aiSuggestions s; selectedAiPrompt := selectedAiPrompt s;
     audioPlayerRef := audioPlayerRef s;
     progressIntervalRef := progressIntervalRef s; toasts := toasts s;
     timers := timers s; transcriptionsInFlight := transcriptionsInFlight s;
     summariesInFlight := summariesInFlight s;
     objectUrlsCreated := objectUrlsCreated s;
     uploadsRunning := uploadsRunning s |}.

Definition setSummary (v : string) (s : Home) : Home :=
  {| selectedFile := selectedFile s; youtubeUrl := youtubeUrl s;
     audioSrc := audioSrc s; transcriptSegments := transcriptSegments s;
     fullTranscript := fullTranscript s; language := language s;
     summaryPrompt := summaryPrompt s; summary := v;
     isProcessingFile := isProcessingFile s;
     isProcessingYouTube := isProcessingYouTube s;
     isSummarizing := isSummarizing s; fontSize := fontSize s;
     currentAudioTime := currentAudioTime s; isClient := isClient s;
     youtubePlaceholderMessage := youtubePlaceholderMessage s;
     transcriptionProgress := transcriptionProgress s;
     aiSuggestions := aiSuggestions s; selectedAiPrompt := selectedAiPrompt s;
     audioPlayerRef := audioPlayerRef s;
     progressIntervalRef := progressIntervalRef s; toasts := toasts s;
     timers := timers s; transcriptionsInFlight := transcriptionsInFlight s;
     summariesInFlight := summariesInFlight s;
     objectUrlsCreated := objectUrlsCreated s;
     uploadsRunning := uploadsRunning s |}.

Definition setIsProcessingFile (v : bool) (s : Home) : Home :=
  {| selectedFile := selectedFile s; youtubeUrl := youtubeUrl s;
     audioSrc := audioSrc s; transcriptSegments := transcriptSegments s;
     fullTranscript := fullTranscript s; language := language s;
     summaryPrompt := summaryPrompt s; summary := summary s;
     isProcessingFile := v; isProcessingYouTube := isProcessingYouTube s;
     isSummarizing := isSummarizing s; fontSize := fontSize s;
     currentAudioTime := currentAudioTime s; isClient := isClient s;
     youtubePlaceholderMessage := youtubePlaceholderMessage s;
     transcriptionProgress := transcriptionProgress s;
     aiSuggestions := aiSuggestions s; selectedAiPrompt := selectedAiPrompt s;
     audioPlayerRef := audioPlayerRef s;
     progressIntervalRef := progressIntervalRef s; toasts := toasts s;
     timers := timers s; transcriptionsInFlight := transcriptionsInFlight s;
     summariesInFlight := summariesInFlight s;
     objectUrlsCreated := objectUrlsCreated s;
     uploadsRunning := uploadsRunning s |}.

Definition setIsProcessingYouTube (v : bool) (s : Home) : Home :=
  {| selectedFile := selectedFile s; youtubeUrl := youtubeUrl s;
     audioSrc := audioSrc s; transcriptSegments := transcriptSegments s;
     fullTranscript := fullTranscript s; language := language s;
     summaryPrompt := summaryPrompt s; summary := summary s;
     isProcessingFile := isProcessingFile s; isProcessingYouTube := v;
     isSummarizing := isSummarizing s; fontSize := fontSize s;
     currentAudioTime := currentAudioTime s; isClient := isClient s;
     youtubePlaceholderMessage := youtubePlaceholderMessage s;
     transcriptionProgress := transcriptionProgress s;
     aiSuggestions := aiSuggestions s; selectedAiPrompt := selectedAiPrompt s;
     audioPlayerRef := audioPlayerRef s;
     progressIntervalRef := progressIntervalRef s; toasts := toasts s;
     timers := timers s; transcriptionsInFlight := transcriptionsInFlight s;
     summariesInFlight := summariesInFlight s;
     objectUrlsCreated := objectUrlsCreated s;
     uploadsRunning := uploadsRunning s |}.

Definition setIsSummarizing (v : bool) (s : Home) : Home :=
  {| selectedFile := selectedFile s; youtubeUrl := youtubeUrl s;
     audioSrc := audioSrc s; transcriptSegments := transcriptSegments s;
     fullTranscript := fullTranscript s; language := language s;
     summaryPrompt := summaryPrompt s; summary := summary s;
     isProcessingFile := isProcessingFile s;
     isProcessingYouTube := isProcessingYouTube s; isSummarizing := v;
     fontSize := fontSize s; currentAudioTime := currentAudioTime s;
     isClient := isClient s;
     youtubePlaceholderMessage := youtubePlaceholderMessage s;
     transcriptionProgress := transcriptionProgress s;
     aiSuggestions := aiSuggestions s; selectedAiPrompt := selectedAiPrompt s;
     audioPlayerRef := audioPlayerRef s;
     progressIntervalRef := progressIntervalRef s; toasts := toasts s;
     timers := timers s; transcriptionsInFlight := transcriptionsInFlight s;
     summariesInFlight := summariesInFlight s;
     objectUrlsCreated := objectUrlsCreated s;
     uploadsRunning := uploadsRunning s |}.

Definition setFontSize (v : Z) (s : Home) : Home :=
  {| selectedFile := selectedFile s; youtubeUrl := youtubeUrl s;
     audioSrc := audioSrc s; transcriptSegments := transcriptSegments s;
     fullTranscript := fullTranscript s; language := language s;
     summaryPrompt := summaryPrompt s; summary := summary s;
     isProcessingFile := isProcessingFile s;
     isProcessingYouTube := isProcessingYouTube s;
     isSummarizing := isSummarizing s; fontSize := v;
     currentAudioTime := currentAudioTime s; isClient := isClient s;
     youtubePlaceholderMessage := youtubePlaceholderMessage s;
     transcriptionProgress := transcriptionProgress s;
     aiSuggestions := aiSuggestions s; selectedAiPrompt := selectedAiPrompt s;
     audioPlayerRef := audioPlayerRef s;
     progressIntervalRef := progressIntervalRef s; toasts := toasts s;
     timers := timers s; transcriptionsInFlight := transcriptionsInFlight s;
     summariesInFlight := summariesInFlight s;
     objectUrlsCreated := objectUrlsCreated s;
     uploadsRunning := uploadsRunning s |}.

Definition setCurrentAudioTime (v : Q) (s : Home) : Home :=
  {| selectedFile := selectedFile s; youtubeUrl := youtubeUrl s;
     audioSrc := audioSrc s; transcriptSegments := transcriptSegments s;
     fullTranscript := fullTranscript s; language := language s;
     summaryPrompt := summaryPrompt s; summary := summary s;
     isProcessingFile := isProcessingFile s;
     isProcessingYouTube := isProcessingYouTube s;
     isSummarizing := isSummarizing s; fontSize := fontSize s;
     currentAudioTime := v; isClient := isClient s;
     youtubePlaceholderMessage := youtubePlaceholderMessage s;
     transcriptionProgress := transcriptionProgress s;
     aiSuggestions := aiSuggestions s; selectedAiPrompt := selectedAiPrompt s;
     audioPlayerRef := audioPlayerRef s;
     progressIntervalRef := progressIntervalRef s; toasts := toasts s;
     timers := timers s; transcriptionsInFlight := transcriptionsInFlight s;
     summariesInFlight := summariesInFlight s;
     objectUrlsCreated := objectUrlsCreated s;
     uploadsRunning := uploadsRunning s |}.

Definition setIsClient (v : bool) (s : Home) : Home :=
  {| selectedFile := selectedFile s; youtubeUrl := youtubeUrl s;
     audioSrc := audioSrc s; transcriptSegments := transcriptSegments s;
     fullTranscript := fullTranscript s; language := language s;
     summaryPrompt := summaryPrompt s; summary := summary s;
     isProcessingFile := isProcessingFile s;
     isProcessingYouTube := isProcessingYouTube s;
     isSummarizing := isSummarizing s; fontSize := fontSize s;
     currentAudioTime := currentAudioTime s; isClient := v;
     youtubePlaceholderMessage := youtubePlaceholderMessage s;
     transcriptionProgress := transcriptionProgress s;
     aiSuggestions := aiSuggestions s; selectedAiPrompt := selectedAiPrompt s;
     audioPlayerRef := audioPlayerRef s;
     progressIntervalRef := progressIntervalRef s; toasts := toasts s;
     timers := timers s; transcriptionsInFlight := transcriptionsInFlight s;
     summariesInFlight := summariesInFlight s;
     objectUrlsCreated := objectUrlsCreated s;
     uploadsRunning := uploadsRunning s |}.

Definition setYoutubePlaceholderMessage (v : option string) (s : Home) : Home :=
  {| selectedFile := selectedFile s; youtubeUrl := youtubeUrl s;
     audioSrc := audioSrc s; transcriptSegments := transcriptSegments s;
     fullTranscript := fullTranscript s; language := language s;
     summaryPrompt := summaryPrompt s; summary := summary s;
     isProcessingFile := isProcessingFile s;
     isProcessingYouTube := isProcessingYouTube s;
     isSummarizing := isSummarizing s; fontSize := fontSize s;
     currentAudioTime := currentAudioTime s; isClient := isClient s;
     youtubePlaceholderMessage := v;
     transcriptionProgress := transcriptionProgress s;
     aiSuggestions := aiSuggestions s; selectedAiPrompt := selectedAiPrompt s;
     audioPlayerRef := audioPlayerRef s;
     progressIntervalRef := progressIntervalRef s; toasts := toasts s;
     timers := timers s; transcriptionsInFlight := transcriptionsInFlight s;
     summariesInFlight := summariesInFlight s;
     objectUrlsCreated := objectUrlsCreated s;
     uploadsRunning := uploadsRunning s |}.

Definition setTranscriptionProgress (v : Z) (s : Home) : Home :=
  {| selectedFile := selectedFile s; youtubeUrl := youtubeUrl s;
     audioSrc := audioSrc s; transcriptSegments := transcriptSegments s;
     fullTranscript := fullTranscript s; language := language s;
     summaryPrompt := summaryPrompt s; summary := summary s;
     isProcessingFile := isProcessingFile s;
     isProcessingYouTube := isProcessingYouTube s;
     isSummarizing := isSummarizing s; fontSize := fontSize s;
     currentAudioTime := currentAudioTime s; isClient := isClient s;
     youtubePlaceholderMessage := youtubePlaceholderMessage s;
     transcriptionProgress := v; aiSuggestions := aiSuggestions s;
     selectedAiPrompt := selectedAiPrompt s;
     audioPlayerRef := audioPlayerRef s;
     progressIntervalRef := progressIntervalRef s; toasts := toasts s;
     timers := timers s; transcriptionsInFlight := transcriptionsInFlight s;
     summariesInFlight := summariesInFlight s;
     objectUrlsCreated := objectUrlsCreated s;
     uploadsRunning := uploadsRunning s |}.

Definition setAiSuggestions (v : list string) (s : Home) : Home :=
  {| selectedFile := selectedFile s; youtubeUrl := youtubeUrl s;
     audioSrc := audioSrc s; transcriptSegments := transcriptSegments s;
     fullTranscript := fullTranscript s; language := language s;
     summaryPrompt := summaryPrompt s; summary := summary s;
     isProcessingFile := isProcessingFile s;
     isProcessingYouTube := isProcessingYouTube s;
     isSummarizing := isSummarizing s; fontSize := fontSize s;
     currentAudioTime := currentAudioTime s; isClient := isClient s;
     youtubePlaceholderMessage := youtubePlaceholderMessage s;
     transcriptionProgress := transcriptionProgress s; aiSuggestions := v;
     selectedAiPrompt := selectedAiPrompt s;
     audioPlayerRef := audioPlayerRef s;
     progressIntervalRef := progressIntervalRef s; toasts := toasts s;
     timers := timers s; transcriptionsInFlight := transcriptionsInFlight s;
     summariesInFlight := summariesInFlight s;
     objectUrlsCreated := objectUrlsCreated s;
     uploadsRunning := uploadsRunning s |}.

Definition setSelectedAiPrompt (v : string) (s : Home) : Home :=
  {| selectedFile := selectedFile s; youtubeUrl := youtubeUrl s;
     audioSrc := audioSrc s; transcriptSegments := transcriptSegments s;
     fullTranscript := fullTranscript s; language := language s;
     summaryPrompt := summaryPrompt s; summary := summary s;
     isProcessingFile := isProcessingFile s;
     isProcessingYouTube := isProcessingYouTube s;
     isSummarizing := isSummarizing s; fontSize := fontSize s;
     currentAudioTime := currentAudioTime s; isClient := isClient s;
     youtubePlaceholderMessage := youtubePlaceholderMessage s;
     transcriptionProgress := transcriptionProgress s;
     aiSuggestions := aiSuggestions s; selectedAiPrompt := v;
     audioPlayerRef := audioPlayerRef s;
     progressIntervalRef := progressIntervalRef s; toasts := toasts s;
     timers := timers s; transcriptionsInFlight := transcriptionsInFlight s;
     summariesInFlight := summariesInFlight s;
     objectUrlsCreated := objectUrlsCreated s;
     uploadsRunning := uploadsRunning s |}.

Definition setAudioPlayerRef (v : option AudioPlayer.t) (s : Home) : Home :=
  {| selectedFile := selectedFile s; youtubeUrl := youtubeUrl s;
     audioSrc := audioSrc s; transcriptSegments := transcriptSegments s;
     fullTranscript := fullTranscript s; language := language s;
     summaryPrompt := summaryPrompt s; summary := summary s;
     isProcessingFile := isProcessingFile s;
     isProcessingYouTube := isProcessingYouTube s;
     isSummarizing := isSummarizing s; fontSize := fontSize s;
     currentAudioTime := currentAudioTime s; isClient := isClient s;
     youtubePlaceholderMessage := youtubePlaceholderMessage s;
     transcriptionProgress := transcriptionProgress s;
     aiSuggestions := aiSuggestions s; selectedAiPrompt := selectedAiPrompt s;
     audioPlayerRef := v; progressIntervalRef := progressIntervalRef s;
     toasts := toasts s; timers := timers s;
     transcriptionsInFlight := transcriptionsInFlight s;
     summariesInFlight := summariesInFlight s;
     objectUrlsCreated := objectUrlsCreated s;
     uploadsRunning := uploadsRunning s |}.

Definition setProgressIntervalRef (v : option Z) (s : Home) : Home :=
  {| selectedFile := selectedFile s; youtubeUrl := youtubeUrl s;
     audioSrc := audioSrc s; transcriptSegments := transcriptSegments s;
     fullTranscript := fullTranscript s; language := language s;
     summaryPrompt := summaryPrompt s; summary := summary s;
     isProcessingFile := isProcessingFile s;
     isProcessingYouTube := isProcessingYouTube s;
     isSummarizing := isSummarizing s; fontSize := fontSize s;
     currentAudioTime := currentAudioTime s; isClient := isClient s;
     youtubePlaceholderMessage := youtubePlaceholderMessage s;
     transcriptionProgress := transcriptionProgress s;
     aiSuggestions := aiSuggestions s; selectedAiPrompt := selectedAiPrompt s;
     audioPlayerRef := audioPlayerRef s; progressIntervalRef := v;
     toasts := toasts s; timers := timers s;
     transcriptionsInFlight := transcriptionsInFlight s;
     summariesInFlight := summariesInFlight s;
     objectUrlsCreated := objectUrlsCreated s;
     uploadsRunning := uploadsRunning s |}.

Definition setToasts (v : list Toast) (s : Home) : Home :=
  {| selectedFile := selectedFile s; youtubeUrl := youtubeUrl s;
     audioSrc := audioSrc s; transcriptSegments := transcriptSegments s;
     fullTranscript := fullTranscript s; language := language s;
     summaryPrompt := summaryPrompt s; summary := summary s;
     isProcessingFile := isProcessingFile s;
     isProcessingYouTube := isProcessingYouTube s;
     isSummarizing := isSummarizing s; fontSize := fontSize s;
     currentAudioTime := currentAudioTime s; isClient := isClient s;
     youtubePlaceholderMessage := youtubePlaceholderMessage s;
     transcriptionProgress := transcriptionProgress s;
     aiSuggestions := aiSuggestions s; selectedAiPrompt := selectedAiPrompt s;
     audioPlayerRef := audioPlayerRef s;
     progressIntervalRef := progressIntervalRef s; toasts := v;
     timers := timers s; transcriptionsInFlight := transcriptionsInFlight s;
     summariesInFlight := summariesInFlight s;
     objectUrlsCreated := objectUrlsCreated s;
     uploadsRunning := uploadsRunning s |}.

Definition setTimers (v : list Timer) (s : Home) : Home :=
  {| selectedFile := selectedFile s; youtubeUrl := youtubeUrl s;
     audioSrc := audioSrc s; transcriptSegments := transcriptSegments s;
     fullTranscript := fullTranscript s; language := language s;
     summaryPrompt := summaryPrompt s; summary := summary s;
     isProcessingFile := isProcessingFile s;
     isProcessingYouTube := isProcessingYouTube s;
     isSummarizing := isSummarizing s; fontSize := fontSize s;
     currentAudioTime := currentAudioTime s; isClient := isClient s;
     youtubePlaceholderMessage := youtubePlaceholderMessage s;
     transcriptionProgress := transcriptionProgress s;
     aiSuggestions := aiSuggestions s; selectedAiPrompt := selectedAiPrompt s;
     audioPlayerRef := audioPlayerRef s;
     progressIntervalRef := progressIntervalRef s; toasts := toasts s;
     timers := v; transcriptionsInFlight := transcriptionsInFlight s;
     summariesInFlight := summariesInFlight s;
     objectUrlsCreated := objectUrlsCreated s;
     uploadsRunning := uploadsRunning s |}.

Definition setTranscriptionsInFlight (v : nat) (s : Home) : Home :=
  {| selectedFile := selectedFile s; youtubeUrl := youtubeUrl s;
     audioSrc := audioSrc s; transcriptSegments := transcriptSegments s;
     fullTranscript := fullTranscript s; language := language s;
     summaryPrompt := summaryPrompt s; summary := summary s;
     isProcessingFile := isProcessingFile s;
     isProcessingYouTube := isProcessingYouTube s;
     isSummarizing := isSummarizing s; fontSize := fontSize s;
     currentAudioTime := currentAudioTime s; isClient := isClient s;
     youtubePlaceholderMessage := youtubePlaceholderMessage s;
     transcriptionProgress := transcriptionProgress s;
     aiSuggestions := aiSuggestions s; selectedAiPrompt := selectedAiPrompt s;
     audioPlayerRef := audioPlayerRef s;
     progressIntervalRef := progressIntervalRef s; toasts := toasts s;
     timers := timers s; transcriptionsInFlight := v;
     summariesInFlight := summariesInFlight s;
     objectUrlsCreated := objectUrlsCreated s;
     uploadsRunning := uploadsRunning s |}.

Definition setSummariesInFlight (v : nat) (s : Home) : Home :=
  {| selectedFile := selectedFile s; youtubeUrl := youtubeUrl s;
     audioSrc := audioSrc s; transcriptSegments := transcriptSegments s;
     fullTranscript := fullTranscript s; language := language s;
     summaryPrompt := summaryPrompt s; summary := summary s;
     isProcessingFile := isProcessingFile s;
     isProcessingYouTube := isProcessingYouTube s;
     isSummarizing := isSummarizing s; fontSize := fontSize s;
     currentAudioTime := currentAudioTime s; isClient := isClient s;
     youtubePlaceholderMessage := youtubePlaceholderMessage s;
     transcriptionProgress := transcriptionProgress s;
     aiSuggestions := aiSuggestions s; selectedAiPrompt := selectedAiPrompt s;
     audioPlayerRef := audioPlayerRef s;
     progressIntervalRef := progressIntervalRef s; toasts := toasts s;
     timers := timers s; transcriptionsInFlight := transcriptionsInFlight s;
     summariesInFlight := v; objectUrlsCreated := objectUrlsCreated s;
     uploadsRunning := uploadsRunning s |}.

Definition setObjectUrlsCreated (v : nat) (s : Home) : Home :=
  {| selectedFile := selectedFile s; youtubeUrl := youtubeUrl s;
     audioSrc := audioSrc s; transcriptSegments := transcriptSegments s;
     fullTranscript := fullTranscript s; language := language s;
     summaryPrompt := summaryPrompt s; summary := summary s;
     isProcessingFile := isProcessingFile s;
     isProcessingYouTube := isProcessingYouTube s;
     isSummarizing := isSummarizing s; fontSize := fontSize s;
     currentAudioTime := currentAudioTime s; isClient := isClient s;
     youtubePlaceholderMessage := youtubePlaceholderMessage s;
     transcriptionProgress := transcriptionProgress s;
     aiSuggestions := aiSuggestions s; selectedAiPrompt := selectedAiPrompt s;
     audioPlayerRef := audioPlayerRef s;
     progressIntervalRef := progressIntervalRef s; toasts := toasts s;
     timers := timers s; transcriptionsInFlight := transcriptionsInFlight s;
     summariesInFlight := summariesInFlight s; objectUrlsCreated := v;
     uploadsRunning := uploadsRunning s |}.

Definition setUploadsRunning (v : list Upload) (s : Home) : Home :=
  {| selectedFile := selectedFile s; youtubeUrl := youtubeUrl s;
     audioSrc := audioSrc s; transcriptSegments := transcriptSegments s;
     fullTranscript := fullTranscript s; language := language s;
     summaryPrompt := summaryPrompt s; summary := summary s;
     isProcessingFile := isProcessingFile s;
     isProcessingYouTube := isProcessingYouTube s;
     isSummarizing := isSummarizing s; fontSize := fontSize s;
     currentAudioTime := currentAudioTime s; isClient := isClient s;
     youtubePlaceholderMessage := youtubePlaceholderMessage s;
     transcriptionProgress := transcriptionProgress s;
     aiSuggestions := aiSuggestions s; selectedAiPrompt := selectedAiPrompt s;
     audioPlayerRef := audioPlayerRef s;
     progressIntervalRef := progressIntervalRef s; toasts := toasts s;
     timers := timers s; transcriptionsInFlight := transcriptionsInFlight s;
     summariesInFlight := summariesInFlight s;
     objectUrlsCreated := objectUrlsCreated s; uploadsRunning := v |}.

(** Statements of a handler run left to right. *)
Notation "s |> f" := (f s) (at level 50, left associativity, only parsing).

(** [toast({...})] *)
Definition toast (t : Toast) (s : Home) : Home := setToasts (toasts s ++ [t]) s.

(** [setTimeout(callback, ...)] *)
Definition setTimeout (t : Timer) (s : Home) : Home := setTimers (timers s ++ [t]) s.

(** Truthiness of [youtubePlaceholderMessage]. *)
Definition placeholderActive (s : Home) : bool :=
  match youtubePlaceholderMessage s with
  | Some m => JS.truthy m
  | None => false
  end.

Definition fileSelected (s : Home) : bool :=
  match selectedFile s with Some _ => true | None => false end.

(** [youtubeUrl.trim()] as a condition. *)
Definition urlEntered (s : Home) : bool := JS.truthy (JS.trim (youtubeUrl s)).

(** [if (progressIntervalRef.current) { clearInterval(...); ... = null; }] *)
Definition clearProgressInterval (s : Home) : Home :=
  match progressIntervalRef s with
  | Some _ => setProgressIntervalRef None s
  | None => s
  end.

(** [if (audioPlayerRef.current) { ....pause(); ....seekTo(0); }]: the handle
    holds the methods of the player's last render, [r]. *)
Definition pauseAndRewind (r : Home) (s : Home) : Home :=
  match audioPlayerRef s, audioPlayerRef r with
  | Some p, Some rp =>
      let p := AudioPlayer.pause rp p in
      let p := AudioPlayer.seekTo rp 0 p in
      setAudioPlayerRef (Some p) s
  | _, _ => s
  end.

(** In the handlers below [r] is the render whose closures are running (the
    state variables they read) and [s] the state as updated so far. *)

Definition formClearedToast : Toast :=
  {| title := "Form Cleared";
     description := Some "Ready for a new file or YouTube URL.";
     variant := None; duration := None |}.

Definition handleClearAndReset (r : Home) (s : Home) : Home :=
  s |> clearProgressInterval
    |> setIsProcessingFile false
    |> setTranscriptionProgress 0
    |> setSelectedFile None
    |> setYoutubeUrl ""
    |> setYoutubePlaceholderMessage None
    |> setIsProcessingYouTube false
    |> setTranscriptSegments []
    |> setFullTranscript ""
    |> setSummary ""
    |> setSummaryPrompt ""
    |> setSelectedAiPrompt ""
    |> setAiSuggestions []
    |> setCurrentAudioTime 0
    |> pauseAndRewind r
    |> toast formClearedToast.

Definition handleFileSelected (r : Home) (file : File) (s : Home) : Home :=
  if urlEntered r || placeholderActive r then
    s |> handleClearAndReset r
      |> setTimeout (ProcessSelectedFile true file (language r))
  else
    s |> setSelectedFile (Some file)
      |> setTimeout (ProcessSelectedFile false file (language r)).

Definition handleYouTubeUrlChange (r : Home) (newUrl : string) (s : Home) : Home :=
  let s := setYoutubeUrl newUrl s in
  if JS.truthy (JS.trim newUrl) then
    let s := if fileSelected r || isProcessingFile r
             then handleClearAndReset r s else s in
    s |> setYoutubePlaceholderMessage None
      |> setTranscriptSegments []
      |> setFullTranscript ""
      |> setSummary ""
      |> setAudioSrc None
      |> pauseAndRewind r
  else
    setYoutubePlaceholderMessage None s.

(** [handleProcessFile] up to its first [await]. *)
Definition handleProcessFile_start (r : Home) (fileToProcess : File)
  (langToUse : string) (s : Home) : Home :=
  s |> setIsProcessingFile true
    |> setTranscriptSegments []
    |> setFullTranscript ""
    |> setSummary ""
    |> setTranscriptionProgress 0
    |> setCurrentAudioTime 0
    |> pauseAndRewind r
    |> setYoutubeUrl ""
    |> setYoutubePlaceholderMessage None
    |> setIsProcessingYouTube false
    |> clearProgressInterval
    |> setProgressIntervalRef (Some 0%Z)
    |> toast {| title := "Processing File...";
                description :=
                  Some ("Starting transcription of " ++ name fileToProcess
                        ++ ". This may take a few moments.");
                variant := None; duration := None |}
    |> (fun s => setTranscriptionsInFlight (S (transcriptionsInFlight s)) s).

(** The callback of the progress interval: [currentProgress += 5; ...]. *)
Definition progressTick (s : Home) : Home :=
  match progressIntervalRef s with
  | None => s
  | Some currentProgress =>
      let currentProgress := (currentProgress + 5)%Z in
      let s := setProgressIntervalRef (Some currentProgress) s in
      if (currentProgress <? 95)%Z
      then setTranscriptionProgress currentProgress s
      else setTranscriptionProgress 95 s
  end.

(** [result?.segments || []] and [result?.text || ""] *)
Definition segmentsOf (result : option TranscribeAudioOutput)
  : list TranscriptSegment :=
  match result with Some o => segments o | None => [] end.
Definition textOf (result : option TranscribeAudioOutput) : string :=
  match result with Some o => text o | None => "" end.

(** The condition of the "no content" notice. *)
Definition noContent (result : option TranscribeAudioOutput) : bool :=
  (negb (JS.truthy (textOf result)) || JS.isEmpty (JS.trim (textOf result)))
  && (List.length (segmentsOf result) =? 0)%nat.

Definition noContentToast : Toast :=
  {| title := "Processing Note";
     description :=
       Some "Transcription complete, but the AI returned no content. The audio might be silent or in an unsupported format/language for the AI model.";
     variant := Some default; duration := Some 7000%Z |}.

Definition completeToast : Toast :=
  {| title := "Processing Complete";
     description := Some "Transcript generated successfully.";
     variant := None; duration := None |}.

(** The rest of the [try] block, once [transcribeAudio] has resolved. *)
Definition handleProcessFile_try (result : option TranscribeAudioOutput)
  (s : Home) : Home :=
  s |> clearProgressInterval
    |> setTranscriptionProgress 100
    |> setTranscriptSegments (segmentsOf result)
    |> setFullTranscript (textOf result)
    |> toast (if noContent result then noContentToast else completeToast).

(** [error.message || 'Please try again.'] *)
Definition messageOr (error : Thrown) (fallback : string) : string :=
  match error with
  | ErrorObject m => if JS.truthy m then m else fallback
  | OtherValue => fallback
  end.

Definition errorToast (error : Thrown) : Toast :=
  {| title := "Processing Error";
     description :=
       Some ("Failed to process file: " ++ messageOr error "Please try again.");
     variant := Some destructive; duration := None |}.

(** The [catch] block. *)
Definition handleProcessFile_catch (error : Thrown) (s : Home) : Home :=
  s |> clearProgressInterval
    |> setTranscriptionProgress 0
    |> setTranscriptSegments []
    |> setFullTranscript ""
    |> toast (errorToast error).

(** The [finally] block. *)
Definition handleProcessFile_finally (s : Home) : Home :=
  setIsProcessingFile false s.

(** [handleProcessFile] from the moment its awaited call settles: [try] or
    [catch], then [finally], in one run. *)
Definition handleProcessFile_settled
  (outcome : Completion (option TranscribeAudioOutput)) (s : Home) : Home :=
  match outcome with
  | Return result => s |> handleProcessFile_try result |> handleProcessFile_finally
  | Throw error => s |> handleProcessFile_catch error |> handleProcessFile_finally
  end.


(** The placeholder text of [handleProcessYouTubeUrl]. *)
Definition placeholderText (youtubeUrl : string) : string :=
  "Full transcription for YouTube URLs (like " ++ quote ++ youtubeUrl ++ quote
  ++ ") is a feature currently under development and not yet functional."
  ++ newline ++ newline
  ++ "This is because it requires a backend service to fetch and process the video's audio, which is beyond the current scope."
  ++ newline ++ newline
  ++ "Please use the file upload feature for transcription at this time.".

Definition noUrlToast : Toast :=
  {| title := "No URL";
     description := Some "Please enter a YouTube video URL.";
     variant := Some default; duration := None |}.

Definition youtubeNotActiveToast : Toast :=
  {| title := "YouTube Feature Not Active";
     description :=
       Some "Actual transcription for YouTube URLs is not yet implemented. This is a placeholder. Please use file upload.";
     variant := Some default; duration := Some 8000%Z |}.

Definition handleProcessYouTubeUrl (r : Home) (s : Home) : Home :=
  if negb (urlEntered r) then toast noUrlToast s
  else
    let s := if fileSelected r || isProcessingFile r
             then handleClearAndReset r s else s in
    s |> setIsProcessingYouTube true
      |> setIsProcessingFile false
      |> clearProgressInterval
      |> setTranscriptionProgress 0
      |> setAudioSrc None
      |> setTranscriptSegments []
      |> setFullTranscript ""
      |> setSummary ""
      |> setCurrentAudioTime 0
      |> pauseAndRewind r
      |> setYoutubePlaceholderMessage (Some (placeholderText (youtubeUrl r)))
      |> toast youtubeNotActiveToast
      |> setTimeout ClearProcessingYouTube.

(** [handleSummarize] up to its [await]. *)
Definition handleSummarize_start (r : Home) (s : Home) : Home :=
  if negb (JS.truthy (JS.trim (fullTranscript r))) || placeholderActive r then
    toast {| title := "Not Ready for Summary";
             description :=
               Some "No transcript available or YouTube placeholder active.";
             variant := Some default; duration := None |} s
  else if negb (JS.truthy (JS.trim (summaryPrompt r))) then
    toast {| title := "No Prompt Provided";
             description :=
               Some "Please enter or select a summarization prompt.";
             variant := Some default; duration := None |} s
  else
    s |> setIsSummarizing true
      |> setSummary ""
      |> (fun s => setSummariesInFlight (S (summariesInFlight s)) s).

(** [handleSummarize] from the moment [summarizeTranscriptWithPrompt]
    settles. *)
Definition handleSummarize_settled
  (outcome : Completion SummarizeTranscriptOutput) (s : Home) : Home :=
  match outcome with
  | Return result =>
      s |> setSummary (summary_ result)
        |> toast {| title := "Summarization Complete"; description := None;
                    variant := None; duration := None |}
        |> setIsSummarizing false
  | Throw error =>
      s |> toast {| title := "Summarization Error";
                    description :=
                      Some (messageOr error
                              "Failed to generate summary. Please try again.");
                    variant := Some destructive; duration := None |}
        |> setIsSummarizing false
  end.

Definition handleSegmentClick (r : Home) (startTime : Q) (s : Home) : Home :=
  match audioPlayerRef s, audioPlayerRef r with
  | Some p, Some rp =>
      if negb (placeholderActive r)
         && match audioSrc r with Some u => JS.truthy u | None => false end
      then setAudioPlayerRef (Some (AudioPlayer.seekTo rp startTime p)) s
      else s
  | _, _ => s
  end.

Definition handleAudioTimeUpdate (time : Q) (s : Home) : Home :=
  setCurrentAudioTime time s.

(** [onValueChange] of the language selector. *)
Definition handleLanguageChange (r : Home) (value : string) (s : Home) : Home :=
  let s := setLanguage value s in
  if fileSelected r && negb (isProcessingFile r) && negb (urlEntered r)
     && negb (placeholderActive r)
  then toast {| title := "Language Changed";
                description :=
                  Some ("Language set to " ++ value ++ ". Re-process file if needed.");
                variant := None; duration := None |} s
  else s.

(** *** What the render derives from the state *)

Definition isAnyProcessingActive (s : Home) : bool :=
  isProcessingFile s || isProcessingYouTube s.

Definition isTranscriptAvailable (s : Home) : bool :=
  ((0 <? String.length (JS.trim (fullTranscript s)))%nat
   || (0 <? List.length (transcriptSegments s))%nat)
  && negb (placeholderActive s) && negb (isProcessingFile s).

Definition fileUploadDisabled (s : Home) : bool :=
  isAnyProcessingActive s || urlEntered s.

Definition languageSelectDisabled (s : Home) : bool :=
  isProcessingFile s || urlEntered s.

Definition youtubeInputDisabled (s : Home) : bool :=
  isAnyProcessingActive s || fileSelected s.

Definition processYoutubeButtonDisabled (s : Home) : bool :=
  negb (urlEntered s) || isAnyProcessingActive s || fileSelected s.

Definition featuresRequiringTranscriptDisabled (s : Home) : bool :=
  negb (isTranscriptAvailable s) || isSummarizing s || isProcessingFile s.

Definition clearAndResetDisabled (s : Home) : bool :=
  isProcessingFile s || isProcessingYouTube s || isSummarizing s.

Definition summarizeButtonDisabled (s : Home) : bool :=
  featuresRequiringTranscriptDisabled s
  || negb (JS.truthy (JS.trim (summaryPrompt s))).

(** The remove button of [FileUpload]: shown for the current file while the
    control is not disabled. *)
Definition removeFileAvailable (s : Home) : bool :=
  fileSelected s && negb (fileUploadDisabled s).

(** *** Effects *)

(** [useEffect(..., [selectedFile, isProcessingFile])] *)
Definition useEffect_selectedFile (s : Home) : Home :=
  match selectedFile s with
  | Some _ =>
      let newObjectUrl := createObjectURL (objectUrlsCreated s) in
      s |> setObjectUrlsCreated (S (objectUrlsCreated s))
        |> setAudioSrc (Some newObjectUrl)
        |> setYoutubeUrl ""
        |> setYoutubePlaceholderMessage None
        |> setIsProcessingYouTube false
  | None => setAudioSrc None s
  end.

(** A render hands [audioSrc] to the player as its [src] prop; the player's
    effect on [src] runs when the prop has changed. *)
Definition renderPlayer (s : Home) : Home :=
  match audioPlayerRef s with
  | Some p =>
      if sameSrc (AudioPlayer.src p) (audioSrc s) then s
      else
        setAudioPlayerRef
          (Some (AudioPlayer.useEffect_src (AudioPlayer.setSrc (audioSrc s) p))) s
  | None => s
  end.

(** The commit that follows a handler: [r] is the previous render, [s] the
    state the handler left.  The page renders, the effects whose dependencies
    changed run, and the updates they queue are rendered in turn. *)
Definition commit (r : Home) (s : Home) : Home :=
  let s := renderPlayer s in
  let s :=
    if sameFile (selectedFile r) (selectedFile s)
       && Bool.eqb (isProcessingFile r) (isProcessingFile s)
    then s
    else useEffect_selectedFile s in
  renderPlayer s.

(** The page once mounted on the client: every state variable at its initial
    value, [isClient] set, the player mounted without a source. *)
Definition initial : Home :=
  {| selectedFile := None; youtubeUrl := ""; audioSrc := None;
     transcriptSegments := []; fullTranscript := ""; language := "de";
     summaryPrompt := ""; summary := ""; isProcessingFile := false;
     isProcessingYouTube := false; isSummarizing := false; fontSize := 14%Z;
     currentAudioTime := 0; isClient := true;
     youtubePlaceholderMessage := None; transcriptionProgress := 0%Z;
     aiSuggestions := []; selectedAiPrompt := "";
     audioPlayerRef := Some AudioPlayer.mounted; progressIntervalRef := None;
     toasts := []; timers := []; transcriptionsInFlight := 0%nat;
     summariesInFlight := 0%nat; objectUrlsCreated := 0%nat;
     uploadsRunning := [] |}.


(** *** Events of the page *)

Inductive Event : Type :=
| FileSelected (file : File)        (* [FileUpload] calls [onFileSelect] *)
| RemoveFileClicked                 (* [FileUpload] calls [onRemoveFile] *)
| ClearClicked                      (* the "Clear & Start New" button *)
| YouTubeUrlChange (newUrl : string)
| ProcessYouTubeUrlClicked
| LanguageChange (value : string)
| SummaryPromptChange (value : string)
| SummarizeClicked
| FontSizeChange (value : Z)
| SegmentClicked (index : nat)
| TimerFired (index : nat)
| IntervalTick
| TranscriptionSettled (outcome : Completion (option TranscribeAudioOutput))
| SummarySettled (outcome : Completion SummarizeTranscriptOutput)
| Player (e : AudioPlayer.Event)
| UploadStarted (file : File)       (* [FileUpload] starts a simulated upload *)
| UploadFinished (index : nat).     (* a running upload calls [onFileSelect] *)

(** The list without its [i]-th element. *)
Fixpoint removeNth {A : Type} (i : nat) (l : list A) : list A :=
  match l, i with
  | [], _ => []
  | _ :: l', O => l'
  | x :: l', S j => x :: removeNth j l'
  end.

(** A pending [setTimeout] callback runs. *)
Definition runTimer (r : Home) (t : Timer) (s : Home) : Home :=
  match t with
  | ProcessSelectedFile setFileAgain file lang =>
      let s := if setFileAgain then setSelectedFile (Some file) s else s in
      handleProcessFile_start r file lang s
  | ClearProcessingYouTube => setIsProcessingYouTube false s
  end.

(** The state variables a running upload will see: those of the render in
    which its file is chosen. *)
Definition uploadOf (file : File) (s : Home) : Upload :=
  {| uploadedFile := file; renderedUrl := youtubeUrl s;
     renderedPlaceholder := youtubePlaceholderMessage s;
     renderedLanguage := language s |}.

(** The render whose [handleFileSelected] a running upload calls, as far as
    that closure can tell: its state variables are the ones recorded when the
    file was chosen; the refs are shared by all renders, so they are the
    current ones. *)
Definition renderOf (u : Upload) (s : Home) : Home :=
  s |> setYoutubeUrl (renderedUrl u)
    |> setYoutubePlaceholderMessage (renderedPlaceholder u)
    |> setLanguage (renderedLanguage u).

(** What [e.target.value] of the [<input type="url">] can be: the browser
    strips the line breaks from what is typed or pasted, and then the leading
    and trailing ASCII white space (TAB, LF, FF, CR, SPACE). *)
Definition isAsciiWhiteSpace (c : ascii) : bool :=
  let n := nat_of_ascii c in
  (n =? 9)%nat || (n =? 10)%nat || (n =? 12)%nat || (n =? 13)%nat
  || (n =? 32)%nat.

Definition isLineBreak (c : ascii) : bool :=
  let n := nat_of_ascii c in (n =? 10)%nat || (n =? 13)%nat.

Fixpoint hasLineBreak (s : string) : bool :=
  match s with
  | EmptyString => false
  | String c s' => isLineBreak c || hasLineBreak s'
  end.

Fixpoint endsWithAsciiWhiteSpace (s : string) : bool :=
  match s with
  | EmptyString => false
  | String c EmptyString => isAsciiWhiteSpace c
  | String _ s' => endsWithAsciiWhiteSpace s'
  end.

Definition isUrlValue (s : string) : bool :=
  negb (hasLineBreak s)
  && negb (match s with String c _ => isAsciiWhiteSpace c | EmptyString => false end)
  && negb (endsWithAsciiWhiteSpace s).

(** Whether the event can occur in the rendered state: a control reacts
    only while it is enabled, a timer, an upload or a call must be pending.
    [FileSelected] is an upload that starts and finishes with nothing in
    between; [UploadStarted] and [UploadFinished] are its two halves, between
    which the page may change. *)
Definition enabled (s : Home) (e : Event) : bool :=
  match e with
  | FileSelected _ => negb (fileUploadDisabled s)
  | RemoveFileClicked => removeFileAvailable s
  | ClearClicked => negb (clearAndResetDisabled s)
  | YouTubeUrlChange newUrl => negb (youtubeInputDisabled s) && isUrlValue newUrl
  | ProcessYouTubeUrlClicked => negb (processYoutubeButtonDisabled s)
  | LanguageChange _ => negb (languageSelectDisabled s)
  | SummaryPromptChange _ => negb (featuresRequiringTranscriptDisabled s)
  | SummarizeClicked => negb (summarizeButtonDisabled s)
  | FontSizeChange _ => true
  | SegmentClicked i =>
      negb (isProcessingFile s)
      && match nth_error (transcriptSegments s) i with
         | Some _ => true
         | None => false
         end
  | TimerFired i =>
      match nth_error (timers s) i with Some _ => true | None => false end
  | IntervalTick =>
      match progressIntervalRef s with Some _ => true | None => false end
  | TranscriptionSettled _ => (0 <? transcriptionsInFlight s)%nat
  | SummarySettled _ => (0 <? summariesInFlight s)%nat
  | Player e =>
      match audioPlayerRef s with
      | Some p => AudioPlayer.enabled p e
      | None => false
      end
  | UploadStarted _ => negb (fileUploadDisabled s)
  | UploadFinished i =>
      match nth_error (uploadsRunning s) i with
      | Some _ => true
      | None => false
      end
  end.

(** The handler of each event, run on the rendered state [s]. *)
Definition handler (e : Event) (s : Home) : Home :=
  match e with
  | FileSelected file => handleFileSelected s file s
  | RemoveFileClicked => handleClearAndReset s s
  | ClearClicked => handleClearAndReset s s
  | YouTubeUrlChange newUrl => handleYouTubeUrlChange s newUrl s
  | ProcessYouTubeUrlClicked => handleProcessYouTubeUrl s s
  | LanguageChange value => handleLanguageChange s value s
  | SummaryPromptChange value => setSummaryPrompt value s
  | SummarizeClicked => handleSummarize_start s s
  | FontSizeChange value => setFontSize value s
  | SegmentClicked i =>
      match nth_error (transcriptSegments s) i with
      | Some segment => handleSegmentClick s (Segment.start segment) s
      | None => s
      end
  | TimerFired i =>
      match nth_error (timers s) i with
      | Some t => runTimer s t (setTimers (removeNth i (timers s)) s)
      | None => s
      end
  | IntervalTick => progressTick s
  | TranscriptionSettled outcome =>
      s |> setTranscriptionsInFlight (Nat.pred (transcriptionsInFlight s))
        |> handleProcessFile_settled outcome
  | SummarySettled outcome =>
      s |> setSummariesInFlight (Nat.pred (summariesInFlight s))
        |> handleSummarize_settled outcome
  | Player e =>
      match audioPlayerRef s with
      | Some p =>
          let '(p', notified) := AudioPlayer.handle e p in
          let s := setAudioPlayerRef (Some p') s in
          match notified with
          | Some time => handleAudioTimeUpdate time s
          | None => s
          end
      | None => s
      end
  | UploadStarted file =>
      setUploadsRunning (uploadsRunning s ++ [uploadOf file s]) s
  | UploadFinished i =>
      match nth_error (uploadsRunning s) i with
      | Some u =>
          handleFileSelected (renderOf u s) (uploadedFile u)
            (setUploadsRunning (removeNth i (uploadsRunning s)) s)
      | None => s
      end
  end.

(** One turn of the event loop: the handler, then the commit. *)
Definition step (s : Home) (e : Event) : Home := commit s (handler e s).

(** The states the page can be in. *)
Inductive reachable : Home -> Prop :=
| reachable_initial : reachable initial
| reachable_step (s : Home) (e : Event) :
    reachable s -> enabled s e = true -> reachable (step s e).

(** A sequence of events, each of which must be possible when its turn
    comes. *)
Fixpoint run (s : Home) (es : list Event) : option Home :=
  match es with
  | [] => Some s
  | e :: es' => if enabled s e then run (step s e) es' else None
  end.


(** ** Properties of the page *)

(** *** How the helpers and the commit act on the state *)

Arguments AudioPlayer.pause : simpl never.
Arguments AudioPlayer.seekTo : simpl never.
Arguments AudioPlayer.handle : simpl never.
Arguments AudioPlayer.useEffect_src : simpl never.
Arguments JS.trim : simpl never.
Arguments createObjectURL : simpl never.
Arguments placeholderText : simpl never.

Lemma sameSrc_eq (a b : option string) : sameSrc a b = true -> a = b.
Proof.
  destruct a as [u|], b as [v|]; cbn; try discriminate; [|reflexivity].
  intro H. apply String.eqb_eq in H. now subst.
Qed.

Lemma sameSrc_refl (a : option string) : sameSrc a a = true.
Proof. destruct a as [u|]; cbn; [apply String.eqb_refl | reflexivity]. Qed.

Lemma File_eqb_eq (f g : File) : File_eqb f g = true -> f = g.
Proof.
  destruct f as [i n], g as [j m]. unfold File_eqb. cbn.
  intro H. apply andb_true_iff in H as [H1 H2].
  apply Nat.eqb_eq in H1. apply String.eqb_eq in H2. now subst.
Qed.

Lemma sameFile_eq (a b : option File) : sameFile a b = true -> a = b.
Proof.
  destruct a as [f|], b as [g|]; cbn; try discriminate; [|reflexivity].
  intro H. apply File_eqb_eq in H. now subst.
Qed.

Lemma sameFile_refl (a : option File) : sameFile a a = true.
Proof.
  destruct a as [[i n]|]; cbn; [|reflexivity].
  unfold File_eqb. cbn. now rewrite Nat.eqb_refl, String.eqb_refl.
Qed.

(** The player after [pause()] and [seekTo(0)], given the player [rp] of the
    render whose handle is used. *)
Definition rewound (rp p : option AudioPlayer.t) : option AudioPlayer.t :=
  match p, rp with
  | Some p, Some rp => Some (AudioPlayer.seekTo rp 0 (AudioPlayer.pause rp p))
  | p, _ => p
  end.
Arguments rewound : simpl never.

Lemma pauseAndRewind_eq (r s : Home) :
  pauseAndRewind r s
  = setAudioPlayerRef (rewound (audioPlayerRef r) (audioPlayerRef s)) s.
Proof.
  unfold pauseAndRewind, rewound.
  destruct s; cbn. destruct audioPlayerRef0; [|reflexivity].
  destruct (audioPlayerRef r); reflexivity.
Qed.

Lemma clearProgressInterval_eq (s : Home) :
  clearProgressInterval s = setProgressIntervalRef None s.
Proof.
  unfold clearProgressInterval. destruct s; cbn.
  destruct progressIntervalRef0; reflexivity.
Qed.

(** The player a render leaves, given the [src] it hands down. *)
Definition syncPlayer (u : option string) (p : AudioPlayer.t) : AudioPlayer.t :=
  if sameSrc (AudioPlayer.src p) u then p
  else AudioPlayer.useEffect_src (AudioPlayer.setSrc u p).

Lemma renderPlayer_eq (s : Home) :
  renderPlayer s
  = setAudioPlayerRef (option_map (syncPlayer (audioSrc s)) (audioPlayerRef s)) s.
Proof.
  unfold renderPlayer, syncPlayer. destruct s; cbn.
  destruct audioPlayerRef0 as [p|]; [|reflexivity]. cbn.
  destruct (sameSrc (AudioPlayer.src p) audioSrc0); reflexivity.
Qed.

Lemma syncPlayer_src (u : option string) (p : AudioPlayer.t) :
  AudioPlayer.src (syncPlayer u p) = u.
Proof.
  unfold syncPlayer. destruct (sameSrc (AudioPlayer.src p) u) eqn:E.
  - now apply sameSrc_eq.
  - now rewrite AudioPlayer.useEffect_src_src.
Qed.

Lemma syncPlayer_consistent (u : option string) (p : AudioPlayer.t) :
  AudioPlayer.consistent p -> AudioPlayer.consistent (syncPlayer u p).
Proof.
  intro H. unfold syncPlayer. destruct (sameSrc (AudioPlayer.src p) u).
  - exact H.
  - intros _. apply AudioPlayer.useEffect_src_atRest.
Qed.

Lemma syncPlayer_same (p : AudioPlayer.t) : syncPlayer (AudioPlayer.src p) p = p.
Proof. unfold syncPlayer. now rewrite sameSrc_refl. Qed.

(** Whether the dependencies of the page's effect changed between two
    renders. *)
Definition depsChanged (r s : Home) : bool :=
  negb (sameFile (selectedFile r) (selectedFile s)
        && Bool.eqb (isProcessingFile r) (isProcessingFile s)).

(** The commit, field by field. *)
Lemma commit_eq (r s : Home) :
  commit r s =
  let s1 := renderPlayer s in
  let s2 := if depsChanged r s then useEffect_selectedFile s1 else s1 in
  renderPlayer s2.
Proof.
  unfold commit, depsChanged. cbv zeta.
  assert (E1 : selectedFile (renderPlayer s) = selectedFile s)
    by now rewrite renderPlayer_eq.
  assert (E2 : isProcessingFile (renderPlayer s) = isProcessingFile s)
    by now rewrite renderPlayer_eq.
  rewrite E1, E2. now destruct (sameFile _ _ && Bool.eqb _ _).
Qed.

Lemma commit_fields (r s : Home) :
  let c := commit r s in
  let effect := depsChanged r s && fileSelected s in
  selectedFile c = selectedFile s
  /\ isProcessingFile c = isProcessingFile s
  /\ isSummarizing c = isSummarizing s
  /\ transcriptionProgress c = transcriptionProgress s
  /\ progressIntervalRef c = progressIntervalRef s
  /\ transcriptSegments c = transcriptSegments s
  /\ fullTranscript c = fullTranscript s
  /\ summary c = summary s
  /\ summaryPrompt c = summaryPrompt s
  /\ aiSuggestions c = aiSuggestions s
  /\ selectedAiPrompt c = selectedAiPrompt s
  /\ currentAudioTime c = currentAudioTime s
  /\ toasts c = toasts s
  /\ timers c = timers s
  /\ transcriptionsInFlight c = transcriptionsInFlight s
  /\ summariesInFlight c = summariesInFlight s
  /\ language c = language s
  /\ youtubeUrl c = (if effect then "" else youtubeUrl s)
  /\ youtubePlaceholderMessage c
     = (if effect then None else youtubePlaceholderMessage s)
  /\ isProcessingYouTube c = (if effect then false else isProcessingYouTube s)
  /\ audioSrc c
     = (if depsChanged r s
        then match selectedFile s with
             | Some _ => Some (createObjectURL (objectUrlsCreated s))
             | None => None
             end
        else audioSrc s)
  /\ audioPlayerRef c
     = option_map (syncPlayer (audioSrc c))
         (option_map (syncPlayer (audioSrc s)) (audioPlayerRef s)).
Proof.
  cbv zeta. rewrite commit_eq. cbv zeta.
  rewrite !renderPlayer_eq. unfold fileSelected, useEffect_selectedFile.
  destruct (depsChanged r s); cbn.
  - destruct s; cbn. destruct selectedFile0; cbn; repeat split.
  - destruct s; cbn. repeat split.
Qed.


(** *** The invariant of the page *)

(** The progress value is a percentage, and while the interval is live it is
    the interval's counter capped at 95. *)
Definition progressOK (s : Home) : Prop :=
  (0 <= transcriptionProgress s <= 100)%Z
  /\ forall currentProgress,
       progressIntervalRef s = Some currentProgress ->
       (0 <= currentProgress)%Z
       /\ transcriptionProgress s = Z.min currentProgress 95.

Record Inv (s : Home) : Prop :=
  { (* no file, no audio source *)
    inv_audioSrc : selectedFile s = None -> audioSrc s = None;
    (* the player has been handed [audioSrc] *)
    inv_player_src :
      forall p, audioPlayerRef s = Some p -> AudioPlayer.src p = audioSrc s;
    (* and without a source it is at rest *)
    inv_player :
      forall p, audioPlayerRef s = Some p -> AudioPlayer.consistent p;
    inv_progress : progressOK s;
    (* a selected file and an entered URL exclude each other *)
    inv_exclusive : fileSelected s && urlEntered s = false;
    (* and so do the two processing flags *)
    inv_flags : isProcessingFile s && isProcessingYouTube s = false }.

(** What a handler run from the render [r] must leave in [h] for the commit
    to restore the invariant. *)
Record settles (r h : Home) : Prop :=
  { st_audioSrc : audioSrc h = audioSrc r \/ audioSrc h = None;
    st_player :
      forall p, audioPlayerRef h = Some p -> AudioPlayer.consistent p;
    st_progress : progressOK h;
    st_exclusive :
      fileSelected h = true -> urlEntered h = true -> depsChanged r h = true;
    st_flags : isProcessingFile h && isProcessingYouTube h = false }.

Lemma initial_Inv : Inv initial.
Proof.
  split.
  - reflexivity.
  - intros p [= <-]. reflexivity.
  - intros p [= <-]. apply AudioPlayer.mounted_consistent.
  - split; [cbn; lia | discriminate].
  - reflexivity.
  - reflexivity.
Qed.

Lemma depsChanged_false (r s : Home) :
  depsChanged r s = false ->
  selectedFile r = selectedFile s /\ isProcessingFile r = isProcessingFile s.
Proof.
  unfold depsChanged. rewrite negb_false_iff, andb_true_iff.
  intros [H1 H2]. split; [now apply sameFile_eq | now apply Bool.eqb_prop].
Qed.

Lemma commit_Inv (r h : Home) : Inv r -> settles r h -> Inv (commit r h).
Proof.
  intros Hr Hh.
  pose proof (commit_fields r h) as F. cbv zeta in F.
  destruct F as (Fsel & Fpf & _ & Fprog & Fint & _ & _ & _ & _ & _ & _ & _ & _
                 & _ & _ & _ & _ & Furl & _ & Fyt & Fsrc & Fplayer).
  split.
  - rewrite Fsel, Fsrc. intro Hnone. rewrite Hnone.
    destruct (depsChanged r h) eqn:D; [reflexivity|].
    destruct (depsChanged_false _ _ D) as [E _].
    destruct (st_audioSrc _ _ Hh) as [A|A]; [|exact A].
    rewrite A. apply (inv_audioSrc _ Hr). congruence.
  - intros p Hp. rewrite Fplayer in Hp.
    destruct (audioPlayerRef h) as [q|]; [|discriminate Hp].
    cbn in Hp. injection Hp as <-. apply syncPlayer_src.
  - intros p Hp. rewrite Fplayer in Hp.
    destruct (audioPlayerRef h) as [q|] eqn:Q; [|discriminate Hp].
    cbn in Hp. injection Hp as <-.
    apply syncPlayer_consistent, syncPlayer_consistent.
    now apply (st_player _ _ Hh).
  - unfold progressOK. rewrite Fprog, Fint. apply (st_progress _ _ Hh).
  - unfold fileSelected, urlEntered in *. rewrite Fsel, Furl.
    unfold fileSelected.
    destruct (selectedFile h) eqn:S; [|reflexivity]. cbn.
    rewrite andb_true_r.
    destruct (depsChanged r h) eqn:D; [reflexivity|]. cbn.
    destruct (JS.truthy (JS.trim (youtubeUrl h))) eqn:U; [|reflexivity].
    pose proof (st_exclusive _ _ Hh) as X.
    unfold fileSelected, urlEntered in X. rewrite S, U in X.
    specialize (X eq_refl eq_refl). congruence.
  - rewrite Fpf, Fyt. destruct (depsChanged r h && fileSelected h).
    + apply andb_false_r.
    + apply (st_flags _ _ Hh).
Qed.


(** *** Every handler leaves a state the commit can settle *)

(** The player [p] a handler has reached from the render's player [rp]: it
    is consistent and still has the source it was rendered with. *)
Definition okPlayer (rp p : option AudioPlayer.t) : Prop :=
  forall q, p = Some q ->
    AudioPlayer.consistent q
    /\ forall rq, rp = Some rq -> AudioPlayer.src q = AudioPlayer.src rq.

Lemma okPlayer_refl (s : Home) :
  Inv s -> okPlayer (audioPlayerRef s) (audioPlayerRef s).
Proof.
  intros Hs q Hq. split; [now apply (inv_player _ Hs)|].
  intros rq Hrq. congruence.
Qed.

Lemma rewound_ok (rp p : option AudioPlayer.t) :
  (forall rq, rp = Some rq -> AudioPlayer.consistent rq) ->
  okPlayer rp p -> okPlayer rp (rewound rp p).
Proof.
  intros Hrp Hp q Hq. unfold rewound in Hq.
  destruct p as [p0|]; [|discriminate Hq].
  destruct (Hp p0 eq_refl) as [Hc Hs].
  destruct rp as [rq|].
  - injection Hq as <-. specialize (Hs rq eq_refl).
    specialize (Hrp rq eq_refl).
    assert (Hs1 : AudioPlayer.src (AudioPlayer.pause rq p0) = AudioPlayer.src rq)
      by now rewrite AudioPlayer.pause_src.
    split.
    + apply AudioPlayer.seekTo_consistent; [assumption..|].
      now apply AudioPlayer.pause_consistent.
    + intros rq' [= <-]. now rewrite AudioPlayer.seekTo_src.
  - injection Hq as <-. split; [exact Hc | intros rq' Hrq'; discriminate Hrq'].
Qed.

Lemma okPlayer_consistent (rp p : option AudioPlayer.t) :
  okPlayer rp p -> forall q, p = Some q -> AudioPlayer.consistent q.
Proof. intros H q Hq. now apply (H q). Qed.

Ltac unfold_handlers :=
  unfold handler, runTimer, handleFileSelected, handleYouTubeUrlChange,
    handleProcessYouTubeUrl, handleClearAndReset, handleProcessFile_start,
    handleProcessFile_settled, handleProcessFile_try, handleProcessFile_catch,
    handleProcessFile_finally, handleSummarize_start, handleSummarize_settled,
    handleAudioTimeUpdate, handleLanguageChange, toast, setTimeout;
  rewrite ?pauseAndRewind_eq, ?clearProgressInterval_eq.

Lemma progressOK_cleared (s : Home) (v : Z) :
  progressIntervalRef s = None -> transcriptionProgress s = v ->
  (0 <= v <= 100)%Z -> progressOK s.
Proof.
  intros Hi Hp Hv. split; [now rewrite Hp|]. intros cp H. congruence.
Qed.

Ltac player_ok s Hs :=
  apply (okPlayer_consistent (audioPlayerRef s));
  repeat (apply rewound_ok; [apply (inv_player _ Hs)|]);
  apply (okPlayer_refl _ Hs).

Lemma handleClearAndReset_settles (s : Home) :
  Inv s -> settles s (handleClearAndReset s s).
Proof.
  intros Hs. unfold_handlers.
  split; cbn.
  - now left.
  - player_ok s Hs.
  - apply (progressOK_cleared _ 0%Z); cbn; [reflexivity | reflexivity | lia].
  - discriminate.
  - reflexivity.
Qed.

Lemma handleYouTubeUrlChange_settles (s : Home) (newUrl : string) :
  Inv s -> enabled s (YouTubeUrlChange newUrl) = true ->
  settles s (handleYouTubeUrlChange s newUrl s).
Proof.
  intros Hs He. cbn [enabled] in He.
  unfold youtubeInputDisabled, isAnyProcessingActive in He.
  rewrite !negb_orb, !andb_true_iff, !negb_true_iff in He.
  destruct He as [[[Hpf Hyt] Hfile] _].
  unfold_handlers. rewrite Hfile, Hpf. cbn.
  destruct (JS.truthy (JS.trim newUrl)) eqn:U.
  - split; cbn.
    + now right.
    + player_ok s Hs.
    + apply (inv_progress _ Hs).
    + unfold fileSelected in *. cbn. congruence.
    + now rewrite Hpf.
  - split; cbn.
    + now left.
    + apply (inv_player _ Hs).
    + apply (inv_progress _ Hs).
    + unfold urlEntered. cbn. congruence.
    + now rewrite Hpf.
Qed.

Lemma urlEntered_empty : JS.truthy (JS.trim "") = false.
Proof. reflexivity. Qed.

(** The parts of [settles] that a handler leaving the fields alone gets from
    the invariant. *)
Ltac from_inv s Hs :=
  first
    [ now left
    | now right
    | player_ok s Hs
    | exact (inv_player _ Hs)
    | exact (inv_progress _ Hs)
    | exact (inv_flags _ Hs)
    | (apply (progressOK_cleared _ 0%Z); cbn; [reflexivity | reflexivity | lia])
    | (let A := fresh in
       let B := fresh in
       let X := fresh in
       intros A B; pose proof (inv_exclusive _ Hs) as X;
       unfold fileSelected, urlEntered in *; cbn in *;
       rewrite ?urlEntered_empty in *;
       first [ discriminate | congruence | rewrite A, B in X; discriminate X ])
    | reflexivity
    | (cbn; rewrite ?andb_false_r; reflexivity) ].

Lemma handleFileSelected_settles (s : Home) (file : File) :
  Inv s -> enabled s (FileSelected file) = true ->
  settles s (handleFileSelected s file s).
Proof.
  intros Hs He. cbn in He.
  unfold fileUploadDisabled, isAnyProcessingActive in He.
  rewrite !negb_orb, !andb_true_iff, !negb_true_iff in He.
  destruct He as [[Hpf Hyt] Hurl].
  unfold_handlers.
  destruct (urlEntered s || placeholderActive s); split; cbn;
    from_inv s Hs.
Qed.

Lemma handleProcessYouTubeUrl_settles (s : Home) :
  Inv s -> enabled s ProcessYouTubeUrlClicked = true ->
  settles s (handleProcessYouTubeUrl s s).
Proof.
  intros Hs He. cbn in He.
  unfold processYoutubeButtonDisabled, isAnyProcessingActive in He.
  rewrite !negb_orb, !andb_true_iff, !negb_true_iff, negb_false_iff in He.
  destruct He as [[Hurl [Hpf Hyt]] Hfile].
  unfold_handlers. rewrite Hurl, Hfile, Hpf. cbn.
  split; cbn; try from_inv s Hs.
Qed.


Lemma handleSegmentClick_settles (s : Home) (startTime : Q) :
  Inv s -> settles s (handleSegmentClick s startTime s).
Proof.
  intros Hs. unfold handleSegmentClick.
  destruct (audioPlayerRef s) as [p|] eqn:P.
  2: { split; try from_inv s Hs. }
  destruct (negb (placeholderActive s) && _).
  2: { split; try from_inv s Hs. }
  split; cbn; try from_inv s Hs.
  intros q [= <-].
  apply AudioPlayer.seekTo_consistent;
    [now apply (inv_player _ Hs) | reflexivity | now apply (inv_player _ Hs)].
Qed.

Lemma runTimer_settles (s : Home) (t : Timer) (l : list Timer) :
  Inv s -> settles s (runTimer s t (setTimers l s)).
Proof.
  intros Hs. destruct t as [again file lang|].
  - destruct again; unfold_handlers; split; cbn; try from_inv s Hs.
    + split; cbn; [lia|]. intros cp [= <-]. split; [lia | reflexivity].
    + split; cbn; [lia|]. intros cp [= <-]. split; [lia | reflexivity].
  - unfold_handlers; split; cbn; try from_inv s Hs.
Qed.

Lemma progressTick_progressOK (s : Home) : progressOK s -> progressOK (progressTick s).
Proof.
  intros H. pose proof H as [Hb Hi]. unfold progressTick.
  destruct (progressIntervalRef s) as [cp|] eqn:I; [|exact H].
  destruct (Hi cp eq_refl) as [Hcp Hp].
  destruct (Z.ltb_spec (cp + 5) 95); split; cbn; try lia;
    intros cp' [= <-]; lia.
Qed.

Lemma progressTick_settles (s : Home) : Inv s -> settles s (progressTick s).
Proof.
  intros Hs.
  pose proof (progressTick_progressOK s (inv_progress _ Hs)) as Hp.
  unfold progressTick in *.
  destruct (progressIntervalRef s) as [cp|]; [|split; try from_inv s Hs].
  destruct (cp + 5 <? 95)%Z; split; cbn; try from_inv s Hs; exact Hp.
Qed.

Lemma handleProcessFile_settled_settles (s : Home)
  (outcome : Completion (option TranscribeAudioOutput)) (n : nat) :
  Inv s ->
  settles s (handleProcessFile_settled outcome (setTranscriptionsInFlight n s)).
Proof.
  intros Hs. destruct outcome as [result|error]; unfold_handlers;
    split; cbn; try from_inv s Hs.
  apply (progressOK_cleared _ 100%Z); cbn; [reflexivity | reflexivity | lia].
Qed.

Lemma handleSummarize_settles (s : Home) :
  Inv s -> settles s (handleSummarize_start s s).
Proof.
  intros Hs. unfold_handlers.
  destruct (negb _ || placeholderActive s); [split; cbn; try from_inv s Hs|].
  destruct (negb _); split; cbn; try from_inv s Hs.
Qed.

Lemma handlePlayer_settles (s : Home) (e : AudioPlayer.Event) :
  Inv s -> enabled s (Player e) = true -> settles s (handler (Player e) s).
Proof.
  intros Hs He. cbn in He. unfold handler.
  destruct (audioPlayerRef s) as [p|] eqn:P; [|discriminate He].
  pose proof (AudioPlayer.handle_consistent e p (inv_player _ Hs p P) He) as C.
  destruct (AudioPlayer.handle e p) as [p' notified]. cbn in C.
  destruct notified as [time|]; unfold_handlers; split; cbn;
    try from_inv s Hs; intros p0 [= <-]; exact C.
Qed.

(** A running upload hands its file over: the callback is the one of the
    render in which the file was chosen. *)
Lemma handleUploadFinished_settles (s : Home) (u : Upload) (l : list Upload) :
  Inv s ->
  settles s
    (handleFileSelected (renderOf u s) (uploadedFile u) (setUploadsRunning l s)).
Proof.
  intros Hs. unfold renderOf. unfold_handlers. cbn.
  destruct (urlEntered _ || placeholderActive _); split; cbn;
    try from_inv s Hs.
  intros _ B. pose proof (inv_exclusive _ Hs) as X.
  unfold urlEntered in *. cbn in B. rewrite B, andb_true_r in X.
  unfold depsChanged, fileSelected in *. cbn.
  destruct (selectedFile s); [discriminate X | reflexivity].
Qed.

(** Every event that can occur leaves a state the commit can settle. *)
Lemma handler_settles (s : Home) (e : Event) :
  Inv s -> enabled s e = true -> settles s (handler e s).
Proof.
  intros Hs He. destruct e.
  - now apply handleFileSelected_settles.
  - now apply handleClearAndReset_settles.
  - now apply handleClearAndReset_settles.
  - now apply handleYouTubeUrlChange_settles.
  - now apply handleProcessYouTubeUrl_settles.
  - cbn [handler]. unfold_handlers.
    destruct (fileSelected s && _ && _ && _); split; cbn; try from_inv s Hs.
  - cbn [handler]. split; cbn; try from_inv s Hs.
  - now apply handleSummarize_settles.
  - cbn [handler]. split; cbn; try from_inv s Hs.
  - cbn [handler]. destruct (nth_error (transcriptSegments s) index).
    + now apply handleSegmentClick_settles.
    + split; try from_inv s Hs.
  - cbn [handler]. destruct (nth_error (timers s) index).
    + apply runTimer_settles, Hs.
    + split; try from_inv s Hs.
  - now apply progressTick_settles.
  - cbn [handler]. apply handleProcessFile_settled_settles, Hs.
  - cbn [handler]. destruct outcome; unfold_handlers;
      split; cbn; try from_inv s Hs.
  - now apply handlePlayer_settles.
  - cbn [handler]. split; cbn; try from_inv s Hs.
  - cbn [handler]. destruct (nth_error (uploadsRunning s) index).
    + now apply handleUploadFinished_settles.
    + split; try from_inv s Hs.
Qed.

(** The invariant holds in every reachable state. *)
Theorem step_Inv (s : Home) (e : Event) :
  Inv s -> enabled s e = true -> Inv (step s e).
Proof.
  intros Hs He. apply commit_Inv; [exact Hs | now apply handler_settles].
Qed.

Theorem reachable_Inv (s : Home) : reachable s -> Inv s.
Proof.
  induction 1 as [|s e _ IH He]; [apply initial_Inv | now apply step_Inv].
Qed.


Lemma run_reachable (es : list Event) :
  forall s s', reachable s -> run s es = Some s' -> reachable s'.
Proof.
  induction es as [|e es IH]; intros s s' Hs Hrun; cbn in Hrun.
  - now injection Hrun as <-.
  - destruct (enabled s e) eqn:E; [|discriminate Hrun].
    apply (IH (step s e)); [now apply reachable_step | exact Hrun].
Qed.

(** The state a run ends in (the initial state if the run is impossible). *)
Definition stateAfter (es : list Event) : Home :=
  match run initial es with
  | Some s => s
  | None => initial
  end.

Lemma stateAfter_reachable (es : list Event) : reachable (stateAfter es).
Proof.
  unfold stateAfter. destruct (run initial es) as [s|] eqn:E.
  - exact (run_reachable es initial s reachable_initial E).
  - exact reachable_initial.
Qed.

(** *** The two input modes do not mix *)

(** The render a running upload was started in had no URL entered and
    showed no placeholder message. *)
Definition startedInFileMode (u : Upload) : Prop :=
  JS.truthy (JS.trim (renderedUrl u)) = false
  /\ match renderedPlaceholder u with
     | Some m => JS.truthy m
     | None => false
     end = false.

(** A placeholder message is shown only beside the URL it was made for; an
    upload runs only if it was started while the file control was enabled;
    and while a file is processed there is no transcript, no placeholder
    message and no URL text. *)
Record Modes (s : Home) : Prop :=
  { md_placeholder : placeholderActive s = true -> urlEntered s = true;
    md_uploads : forall u, In u (uploadsRunning s) -> startedInFileMode u;
    md_processing :
      isProcessingFile s = true ->
      transcriptSegments s = [] /\ fullTranscript s = ""
      /\ youtubePlaceholderMessage s = None /\ youtubeUrl s = "" }.

Lemma initial_Modes : Modes initial.
Proof. split; cbn; try discriminate. intros u []. Qed.

Lemma commit_uploadsRunning (r s : Home) :
  uploadsRunning (commit r s) = uploadsRunning s.
Proof.
  rewrite commit_eq. cbv zeta.
  rewrite !renderPlayer_eq. unfold useEffect_selectedFile.
  destruct (depsChanged r s); cbn; [|reflexivity].
  destruct s; cbn. destruct selectedFile0; reflexivity.
Qed.

Lemma commit_Modes (r h : Home) : Modes h -> Modes (commit r h).
Proof.
  intros [P U F].
  pose proof (commit_fields r h) as C. cbv zeta in C.
  destruct C as (_ & Cpf & _ & _ & _ & Cseg & Ctxt & _ & _ & _ & _ & _ & _
                 & _ & _ & _ & _ & Curl & Cph & _).
  split.
  - unfold placeholderActive, urlEntered in *. rewrite Cph, Curl.
    destruct (depsChanged r h && fileSelected h); [discriminate | exact P].
  - rewrite commit_uploadsRunning. exact U.
  - rewrite Cpf, Cseg, Ctxt, Cph, Curl. intro H.
    destruct (F H) as (F1 & F2 & F3 & F4).
    destruct (depsChanged r h && fileSelected h); auto.
Qed.

Lemma In_removeNth {A : Type} (i : nat) (l : list A) (x : A) :
  In x (removeNth i l) -> In x l.
Proof.
  revert i. induction l as [|y l IH]; intros i H; [destruct i; exact H|].
  destruct i as [|i]; cbn in H; [now right|].
  destruct H as [->|H]; [now left | right; now apply (IH i)].
Qed.

(** The parts of [Modes] that a handler leaving the fields alone gets from
    the render. *)
Ltac from_md s Hm :=
  first
    [ exact (md_placeholder _ Hm)
    | exact (md_uploads _ Hm)
    | exact (md_processing _ Hm)
    | discriminate
    | (intros _; repeat split; reflexivity)
    | (let u := fresh in
       let H := fresh in
       intros u H; apply (md_uploads _ Hm); now apply In_removeNth in H) ].

Lemma handleFileSelected_Modes (r s : Home) (file : File) (l : list Upload) :
  Modes s -> (forall u, In u l -> startedInFileMode u) ->
  Modes (handleFileSelected r file (setUploadsRunning l s)).
Proof.
  intros Hm Hl. unfold_handlers.
  destruct (urlEntered r || placeholderActive r); split; cbn;
    try from_md s Hm; exact Hl.
Qed.

(** Every event that can occur keeps the modes apart. *)
Lemma handler_Modes (s : Home) (e : Event) :
  Modes s -> enabled s e = true -> Modes (handler e s).
Proof.
  intros Hm He. destruct e; cbn [handler].
  - (* FileSelected *)
    unfold_handlers.
    destruct (urlEntered s || placeholderActive s); split; cbn;
      try from_md s Hm.
  - (* RemoveFileClicked *)
    unfold_handlers. split; cbn; try from_md s Hm.
  - (* ClearClicked *)
    unfold_handlers. split; cbn; try from_md s Hm.
  - (* YouTubeUrlChange *)
    cbn [enabled] in He.
    unfold youtubeInputDisabled, isAnyProcessingActive in He.
    rewrite !negb_orb, !andb_true_iff, !negb_true_iff in He.
    destruct He as [[[Hpf Hyt] Hfile] _].
    unfold_handlers. rewrite Hfile, Hpf. cbn.
    destruct (JS.truthy (JS.trim newUrl)); split; cbn; try from_md s Hm.
    all: rewrite Hpf; discriminate.
  - (* ProcessYouTubeUrlClicked *)
    cbn [enabled] in He.
    unfold processYoutubeButtonDisabled, isAnyProcessingActive in He.
    rewrite !negb_orb, !andb_true_iff, !negb_true_iff, negb_false_iff in He.
    destruct He as [[Hurl [Hpf Hyt]] Hfile].
    unfold_handlers. rewrite Hurl, Hfile, Hpf. cbn.
    split; cbn; try from_md s Hm.
    intros _. exact Hurl.
  - (* LanguageChange *)
    unfold_handlers.
    destruct (fileSelected s && _ && _ && _); split; cbn; try from_md s Hm.
  - (* SummaryPromptChange *)
    split; cbn; try from_md s Hm.
  - (* SummarizeClicked *)
    unfold_handlers.
    destruct (negb _ || placeholderActive s); [split; cbn; try from_md s Hm|].
    destruct (negb _); split; cbn; try from_md s Hm.
  - (* FontSizeChange *)
    split; cbn; try from_md s Hm.
  - (* SegmentClicked *)
    destruct (nth_error (transcriptSegments s) index); [|exact Hm].
    unfold handleSegmentClick.
    destruct (audioPlayerRef s); [|exact Hm].
    destruct (negb (placeholderActive s) && _); split; cbn; try from_md s Hm.
  - (* TimerFired *)
    destruct (nth_error (timers s) index) as [t|]; [|exact Hm].
    destruct t as [again file lang|].
    + destruct again; unfold_handlers; split; cbn; try from_md s Hm.
    + unfold_handlers; split; cbn; try from_md s Hm.
  - (* IntervalTick *)
    unfold progressTick.
    destruct (progressIntervalRef s) as [cp|]; [|exact Hm].
    destruct (cp + 5 <? 95)%Z; split; cbn; try from_md s Hm.
  - (* TranscriptionSettled *)
    destruct outcome as [result|error]; unfold_handlers; split; cbn;
      try from_md s Hm.
  - (* SummarySettled *)
    destruct outcome as [result|error]; unfold_handlers; split; cbn;
      try from_md s Hm.
  - (* Player *)
    destruct (audioPlayerRef s) as [p|]; [|exact Hm].
    destruct (AudioPlayer.handle e p) as [p' notified].
    destruct notified as [time|]; unfold_handlers; split; cbn;
      try from_md s Hm.
  - (* UploadStarted *)
    cbn [enabled] in He. unfold fileUploadDisabled in He.
    rewrite negb_orb, andb_true_iff, !negb_true_iff in He.
    destruct He as [_ Hurl].
    split; cbn; try from_md s Hm.
    intros u H. apply in_app_or in H as [H|[<-|[]]];
      [now apply (md_uploads _ Hm)|].
    split; [exact Hurl|]. cbn.
    pose proof (md_placeholder _ Hm) as P. unfold placeholderActive in P.
    destruct (match youtubePlaceholderMessage s with
              | Some m => JS.truthy m
              | None => false
              end); [|reflexivity].
    specialize (P eq_refl). congruence.
  - (* UploadFinished *)
    destruct (nth_error (uploadsRunning s) index) as [u|]; [|exact Hm].
    apply handleFileSelected_Modes; [exact Hm|].
    intros v H. apply (md_uploads _ Hm). now apply In_removeNth in H.
Qed.

Theorem step_Modes (s : Home) (e : Event) :
  Modes s -> enabled s e = true -> Modes (step s e).
Proof. intros Hm He. apply commit_Modes. now apply handler_Modes. Qed.

Theorem reachable_Modes (s : Home) : reachable s -> Modes s.
Proof.
  induction 1 as [|s e _ IH He]; [apply initial_Modes | now apply step_Modes].
Qed.


(** *** The full reset (C1) *)





Definition meeting : File := {| fileId := 1; name := "meeting.mp3" |}.

Definition helloWorld : option TranscribeAudioOutput :=
  Some {| text := "Hello world"; segments := [segHello; segWorld] |}.

(** Scenarios A and B up to the moment the summary is awaited: a file is
    selected and transcribed, a prompt is entered, "Generate Summary" is
    clicked. *)
Definition summarizing : Home :=
  stateAfter [FileSelected meeting; TimerFired 0; IntervalTick; IntervalTick;
              TranscriptionSettled (Return helloWorld);
              SummaryPromptChange "Summarize briefly"; SummarizeClicked].

Example summarizing_state :
  isSummarizing summarizing = true
  /\ fullTranscript summarizing = "Hello world"
  /\ transcriptionProgress summarizing = 100%Z
  /\ enabled summarizing RemoveFileClicked = true
  /\ enabled summarizing ClearClicked = false.
Proof. vm_compute. repeat split. Qed.





(** Scenario A of the specification, settled. *)
Definition transcribed : Home :=
  stateAfter [FileSelected meeting; TimerFired 0; IntervalTick; IntervalTick;
              TranscriptionSettled (Return helloWorld)].


(** *** Entering a URL while a file is active (C2) *)

(** Scenario D of the specification: a file is being processed and the
    simulated progress has reached 40. *)
Definition processingAt40 : Home :=
  stateAfter [FileSelected meeting; TimerFired 0; IntervalTick; IntervalTick;
              IntervalTick; IntervalTick; IntervalTick; IntervalTick;
              IntervalTick; IntervalTick].

Example processingAt40_state :
  isProcessingFile processingAt40 = true
  /\ selectedFile processingAt40 = Some meeting
  /\ transcriptionProgress processingAt40 = 40%Z
  /\ progressIntervalRef processingAt40 = Some 40%Z
  /\ youtubeInputDisabled processingAt40 = true.
Proof. vm_compute. repeat split. Qed.





(** *** The simulated progress (C3) *)



(** After the start of an attempt and [k] ticks of the interval the progress
    is [5 * k], capped at 95, and the attempt is still running. *)
Lemma progress_after_ticks (r s : Home) (file : File) (lang : string) (k : nat) :
  let s' := Nat.iter k progressTick (handleProcessFile_start r file lang s) in
  isProcessingFile s' = true
  /\ progressIntervalRef s' = Some (5 * Z.of_nat k)%Z
  /\ transcriptionProgress s' = Z.min (5 * Z.of_nat k) 95.
Proof.
  cbv zeta. induction k as [|k IH].
  - cbn [Nat.iter]. unfold_handlers. cbn. repeat split.
  - rewrite !Nat.iter_succ. destruct IH as (Hf & Hi & Hp).
    set (sk := Nat.iter k progressTick _) in *. clearbody sk.
    unfold progressTick. rewrite Hi.
    replace (5 * Z.of_nat (S k))%Z with (5 * Z.of_nat k + 5)%Z by lia.
    destruct (Z.ltb_spec (5 * Z.of_nat k + 5) 95);
      cbn [transcriptionProgress progressIntervalRef isProcessingFile
           setTranscriptionProgress setProgressIntervalRef];
      (split; [exact Hf | split; [reflexivity | lia]]).
Qed.


(** A second file handed over before the first attempt has started; the
    first attempt has made two ticks when the callback of the second runs. *)
Definition other : File := {| fileId := 2; name := "other.mp3" |}.



(** The same through two uploads that run side by side: the second file is
    handed over while the first is being processed. *)
Example progress_drops_after_late_upload :
  let s := stateAfter [UploadStarted meeting; UploadStarted other;
                       UploadFinished 0; TimerFired 0; IntervalTick;
                       IntervalTick; UploadFinished 0] in
  isProcessingFile s = true
  /\ transcriptionProgress s = 10%Z
  /\ selectedFile s = Some other
  /\ enabled s (TimerFired 0) = true
  /\ isProcessingFile (step s (TimerFired 0)) = true
  /\ transcriptionProgress (step s (TimerFired 0)) = 0%Z.
Proof. vm_compute. repeat split. Qed.



(** Sixty ticks after the start the progress still stands at 95. *)
Example progress_held_at_95 :
  transcriptionProgress
    (Nat.iter 60 progressTick (handleProcessFile_start initial meeting "de" initial))
  = 95%Z.
Proof. vm_compute. reflexivity. Qed.


(** *** How a processing attempt settles (C5, C6) *)

(** The awaited call of [handleProcessFile] settles: one turn of the event
    loop. *)
Definition settled (outcome : Completion (option TranscribeAudioOutput))
  (s : Home) : Home :=
  step s (TranscriptionSettled outcome).

Lemma settled_fields (outcome : Completion (option TranscribeAudioOutput))
  (s : Home) :
  let h := handleProcessFile_settled outcome s in
  isProcessingFile (settled outcome s) = false
  /\ progressIntervalRef (settled outcome s) = None
  /\ transcriptionProgress (settled outcome s) = transcriptionProgress h
  /\ transcriptSegments (settled outcome s) = transcriptSegments h
  /\ fullTranscript (settled outcome s) = fullTranscript h
  /\ toasts (settled outcome s) = toasts h.
Proof.
  cbv zeta. unfold settled, step.
  pose proof (commit_fields s (handler (TranscriptionSettled outcome) s)) as F.
  cbv zeta in F.
  destruct F as (_ & Fpf & _ & Fprog & Fint & Fseg & Ftxt & _ & _ & _ & _ & _
                 & Ftoasts & _).
  rewrite Fpf, Fprog, Fint, Fseg, Ftxt, Ftoasts.
  destruct outcome; unfold_handlers; cbn; repeat split.
Qed.

(** C5.  When the transcription capability throws an error with message
    [message], the attempt settles with the progress interval cancelled, the
    progress at exactly 0, the transcript segments and the transcript text
    empty, and one more notice: destructive-styled, titled "Processing
    Error", its description "Failed to process file: " followed by the
    message (by "Please try again." when the message is empty). *)
Theorem failure_clears_transcript (s : Home) (message : string) :
  let s' := settled (Throw (ErrorObject message)) s in
  progressIntervalRef s' = None
  /\ transcriptionProgress s' = 0%Z
  /\ transcriptSegments s' = []
  /\ fullTranscript s' = ""
  /\ isProcessingFile s' = false
  /\ toasts s' = (toasts s ++ [errorToast (ErrorObject message)])%list
  /\ isDestructive (errorToast (ErrorObject message)) = true
  /\ title (errorToast (ErrorObject message)) = "Processing Error"
  /\ description (errorToast (ErrorObject message))
     = Some ("Failed to process file: "
             ++ (if JS.truthy message then message else "Please try again.")).
Proof.
  cbv zeta.
  destruct (settled_fields (Throw (ErrorObject message)) s)
    as (Hf & Hi & Hp & Hseg & Htxt & Htoasts).
  rewrite Hf, Hi, Hp, Hseg, Htxt, Htoasts.
  unfold_handlers. cbn. repeat split.
Qed.

Example failure_notice_carries_message :
  description (errorToast (ErrorObject "Transcription failed: quota exceeded"))
  = Some "Failed to process file: Transcription failed: quota exceeded".
Proof. reflexivity. Qed.

(** A rejection that is no [Error] (a failed file read) takes the same path,
    with the fallback text. *)
Example failure_notice_fallback :
  description (errorToast OtherValue)
  = Some "Failed to process file: Please try again.".
Proof. reflexivity. Qed.

(** C6.  When the transcription capability returns
    [{ text: "", segments: [] }] the attempt settles as a success: the
    progress is exactly 100, the transcript segments are the empty list and
    the transcript text the empty string, and the one notice added is the
    "Processing Note", which is not destructive-styled.  The file-processing
    flag is false after the attempt has settled, whatever the outcome. *)
Theorem empty_result_is_success :
  (forall s : Home,
     let s' := settled (Return (Some {| text := ""; segments := [] |})) s in
     transcriptionProgress s' = 100%Z
     /\ transcriptSegments s' = []
     /\ fullTranscript s' = ""
     /\ progressIntervalRef s' = None
     /\ toasts s' = (toasts s ++ [noContentToast])%list
     /\ isDestructive noContentToast = false
     /\ variant noContentToast = Some default
     /\ isProcessingFile s' = false)
  /\ (forall (s : Home) (outcome : Completion (option TranscribeAudioOutput)),
        isProcessingFile (settled outcome s) = false).
Proof.
  split.
  - intro s. cbv zeta.
    destruct (settled_fields (Return (Some {| text := ""; segments := [] |})) s)
      as (Hf & Hi & Hp & Hseg & Htxt & Htoasts).
    rewrite Hf, Hi, Hp, Hseg, Htxt, Htoasts.
    unfold_handlers. cbn. repeat split.
  - intros s outcome. apply settled_fields.
Qed.

(** A result with content gets the "Processing Complete" notice; scenario A
    ends with the transcript in place. *)
Example scenarioA :
  let s := stateAfter [FileSelected meeting; TimerFired 0; IntervalTick;
                       IntervalTick; TranscriptionSettled (Return helloWorld)] in
  transcriptionProgress s = 100%Z
  /\ isProcessingFile s = false
  /\ fullTranscript s = "Hello world"
  /\ transcriptSegments s = [segHello; segWorld]
  /\ summary s = ""
  /\ map title (toasts s) = ["Processing File..."; "Processing Complete"]
  /\ isTranscriptAvailable s = true.
Proof. vm_compute. repeat split. Qed.


(** Scenario B: the summary the capability returns is stored verbatim. *)
Example scenarioB :
  let s := stateAfter [FileSelected meeting; TimerFired 0; IntervalTick;
                       IntervalTick; TranscriptionSettled (Return helloWorld);
                       SummaryPromptChange "Summarize briefly"; SummarizeClicked;
                       SummarySettled (Return {| summary_ := "<p>Short.</p>" |})] in
  summary s = "<p>Short.</p>"
  /\ isSummarizing s = false
  /\ fullTranscript s = "Hello world".
Proof. vm_compute. repeat split. Qed.

(** *** The URL placeholder (C7) *)

(** [handleProcessYouTubeUrl] as one turn of the event loop. *)
Definition processUrl (s : Home) : Home := step s ProcessYouTubeUrlClicked.

(** The source handed to the audio transport. *)
Definition transportSrc (s : Home) : option string :=
  match audioPlayerRef s with
  | Some p => AudioPlayer.src p
  | None => None
  end.

Lemma commit_audioSrc_None (r h : Home) :
  audioSrc h = None -> fileSelected h = false ->
  audioSrc (commit r h) = None /\ transportSrc (commit r h) = None.
Proof.
  intros Hsrc Hsel.
  pose proof (commit_fields r h) as F. cbv zeta in F.
  destruct F as (_ & _ & _ & _ & _ & _ & _ & _ & _ & _ & _ & _ & _ & _ & _ & _
                 & _ & _ & _ & _ & Fsrc & Fplayer).
  assert (E : audioSrc (commit r h) = None).
  { rewrite Fsrc, Hsrc. unfold fileSelected in Hsel.
    destruct (selectedFile h); [discriminate Hsel|].
    now destruct (depsChanged r h). }
  split; [exact E|].
  unfold transportSrc. rewrite Fplayer, E.
  destruct (audioPlayerRef h) as [p|]; [|reflexivity].
  cbn. apply syncPlayer_src.
Qed.

(** The queued callback clears the URL-processing flag when it runs. *)
Lemma ClearProcessingYouTube_fires (s : Home) (i : nat) :
  nth_error (timers s) i = Some ClearProcessingYouTube ->
  isProcessingYouTube (step s (TimerFired i)) = false.
Proof.
  intro H. unfold step.
  pose proof (commit_fields s (handler (TimerFired i) s)) as G. cbv zeta in G.
  destruct G as (_ & _ & _ & _ & _ & _ & _ & _ & _ & _ & _ & _ & _ & _ & _
                 & _ & _ & _ & _ & Gyt & _).
  rewrite Gyt. clear Gyt. cbn [handler]. rewrite H. cbn.
  now destruct (depsChanged _ _ && _).
Qed.

(** The state after a click on the process-URL button that reacts. *)
Lemma processUrl_fields (s : Home) :
  enabled s ProcessYouTubeUrlClicked = true ->
  youtubePlaceholderMessage (processUrl s)
  = Some (placeholderText (youtubeUrl s))
  /\ toasts (processUrl s) = (toasts s ++ [youtubeNotActiveToast])%list
  /\ transcriptSegments (processUrl s) = []
  /\ fullTranscript (processUrl s) = ""
  /\ transcriptionsInFlight (processUrl s) = transcriptionsInFlight s
  /\ isProcessingFile (processUrl s) = false
  /\ progressIntervalRef (processUrl s) = None
  /\ selectedFile (processUrl s) = None
  /\ audioSrc (processUrl s) = None
  /\ transportSrc (processUrl s) = None
  /\ isProcessingYouTube (processUrl s) = true
  /\ timers (processUrl s) = (timers s ++ [ClearProcessingYouTube])%list.
Proof.
  intro He. cbn [enabled] in He.
  unfold processYoutubeButtonDisabled, isAnyProcessingActive in He.
  rewrite !negb_orb, !andb_true_iff, !negb_true_iff, negb_false_iff in He.
  destruct He as [[Hurl [Hpf Hyt]] Hfile].
  assert (Hsel : selectedFile s = None).
  { unfold fileSelected in Hfile. now destruct (selectedFile s). }
  unfold processUrl.
  change (step s ProcessYouTubeUrlClicked)
    with (commit s (handleProcessYouTubeUrl s s)).
  set (h := handleProcessYouTubeUrl s s).
  assert (Hh : youtubePlaceholderMessage h = Some (placeholderText (youtubeUrl s))
               /\ toasts h = (toasts s ++ [youtubeNotActiveToast])%list
               /\ transcriptSegments h = [] /\ fullTranscript h = ""
               /\ transcriptionsInFlight h = transcriptionsInFlight s
               /\ isProcessingFile h = false /\ progressIntervalRef h = None
               /\ selectedFile h = None /\ audioSrc h = None
               /\ isProcessingYouTube h = true
               /\ timers h = (timers s ++ [ClearProcessingYouTube])%list).
  { unfold h. unfold_handlers. rewrite Hurl, Hfile, Hpf. cbn.
    repeat split. exact Hsel. }
  destruct Hh as (H1 & H2 & H3 & H4 & H5 & H6 & H7 & H8 & H9 & H10 & H11).
  assert (H12 : fileSelected h = false) by (unfold fileSelected; now rewrite H8).
  pose proof (commit_fields s h) as F. cbv zeta in F.
  rewrite H12, andb_false_r in F.
  destruct F as (Fsel & Fpf & _ & _ & Fint & Fseg & Ftxt & _ & _ & _ & _ & _
                 & Ftoasts & Ftimers & Fin & _ & _ & _ & Fph & Fyt & _ & _).
  destruct (commit_audioSrc_None s h H9 H12) as [A1 A2].
  rewrite Fsel, Fpf, Fint, Fseg, Ftxt, Ftoasts, Ftimers, Fin, Fph, Fyt, A1, A2.
  repeat split; assumption.
Qed.

(** C7.  Whenever the process-URL button reacts, the URL text has a
    character other than white space (so it is not empty), and the click, in
    the same turn, starts no transcription: it sets the placeholder message,
    which is the fixed explanation with the URL quoted in it, shows the
    "YouTube Feature Not Active" notice, leaves the transcript segments and
    the transcript text empty and the audio transport without a source, sets
    the URL-processing flag and queues the callback that clears the flag
    again.  With a URL text that is empty or blank the button does not react;
    the handler, were it run then, would only show the "No URL" notice and
    change nothing else. *)
Theorem processUrl_placeholder :
  (forall s : Home,
  enabled s ProcessYouTubeUrlClicked = true ->
  JS.onlyWhiteSpace (youtubeUrl s) = false
  /\ youtubePlaceholderMessage (processUrl s)
     = Some (placeholderText (youtubeUrl s))
  /\ placeholderText (youtubeUrl s)
     = "Full transcription for YouTube URLs (like " ++ quote ++ youtubeUrl s
       ++ quote
       ++ ") is a feature currently under development and not yet functional."
       ++ newline ++ newline
       ++ "This is because it requires a backend service to fetch and process the video's audio, which is beyond the current scope."
       ++ newline ++ newline
       ++ "Please use the file upload feature for transcription at this time."
  /\ toasts (processUrl s) = (toasts s ++ [youtubeNotActiveToast])%list
  /\ transcriptSegments (processUrl s) = []
  /\ fullTranscript (processUrl s) = ""
  /\ transcriptionsInFlight (processUrl s) = transcriptionsInFlight s
  /\ isProcessingFile (processUrl s) = false
  /\ progressIntervalRef (processUrl s) = None
  /\ selectedFile (processUrl s) = None
  /\ audioSrc (processUrl s) = None
  /\ transportSrc (processUrl s) = None
  /\ isProcessingYouTube (processUrl s) = true
  /\ timers (processUrl s) = (timers s ++ [ClearProcessingYouTube])%list
  /\ isProcessingYouTube
       (step (processUrl s) (TimerFired (List.length (timers s)))) = false)
  /\ (forall s : Home,
        JS.onlyWhiteSpace (youtubeUrl s) = true ->
        enabled s ProcessYouTubeUrlClicked = false
        /\ handleProcessYouTubeUrl s s = toast noUrlToast s
        /\ toasts (toast noUrlToast s) = (toasts s ++ [noUrlToast])%list
        /\ title noUrlToast = "No URL").
Proof.
  split.
  2: { intros s B.
       assert (U : urlEntered s = false)
         by (unfold urlEntered; now rewrite JS.truthy_trim, B).
       split; [|split; [|split; reflexivity]].
       - cbn [enabled]. unfold processYoutubeButtonDisabled. now rewrite U.
       - unfold handleProcessYouTubeUrl. now rewrite U. }
  intros s He.
  destruct (processUrl_fields s He)
    as (H1 & H2 & H3 & H4 & H5 & H6 & H7 & H8 & H9 & H10 & H11 & H12).
  split.
  { cbn [enabled] in He.
    unfold processYoutubeButtonDisabled in He.
    rewrite !negb_orb, !andb_true_iff in He.
    destruct He as [[Hurl _] _]. apply negb_true_iff, negb_false_iff in Hurl.
    unfold urlEntered in Hurl. rewrite JS.truthy_trim in Hurl.
    now apply negb_true_iff in Hurl. }
  repeat split; try assumption.
  apply ClearProcessingYouTube_fires. rewrite H12.
  rewrite nth_error_app2 by apply Nat.le_refl. now rewrite Nat.sub_diag.
Qed.

(** Scenario C of the specification. *)
Definition urlEnteredState : Home := stateAfter [YouTubeUrlChange "https://x/y"].

Lemma processUrl_placeholder_witness :
  youtubePlaceholderMessage (processUrl urlEnteredState)
  = Some (placeholderText "https://x/y")
  /\ transportSrc (processUrl urlEnteredState) = None.
Proof.
  pose proof (proj1 processUrl_placeholder urlEnteredState eq_refl)
    as (_ & A & _ & _ & _ & _ & _ & _ & _ & _ & _ & B & _).
  split; [exact A | exact B].
Defined.

Example scenarioC :
  let s := stateAfter [YouTubeUrlChange "https://x/y"; ProcessYouTubeUrlClicked] in
  let s' := step s (TimerFired 0) in
  placeholderActive s = true
  /\ transcriptSegments s = []
  /\ transportSrc s = None
  /\ isProcessingYouTube s = true
  /\ isProcessingYouTube s' = false
  /\ placeholderActive s' = true.
Proof. vm_compute. repeat split. Qed.

(** A URL text that is not empty but blank cannot be processed: the button
    does not react.  A space cannot even be the whole text of the field, a
    no-break space can. *)
Definition noBreakSpace : string := String (ascii_of_nat 160) EmptyString.

Example blank_url_cannot_be_processed :
  isUrlValue " " = false
  /\ isUrlValue noBreakSpace = true
  /\ enabled (stateAfter [YouTubeUrlChange noBreakSpace]) ProcessYouTubeUrlClicked
     = false.
Proof. vm_compute. repeat split. Qed.


(** *** One input mode at a time (C8) *)

(** A URL text of one no-break space: typed into the empty page. *)
Definition blankUrl : Home := stateAfter [YouTubeUrlChange noBreakSpace].

(** C8, as stated, fails: with a no-break space as URL text (not empty) the
    file-upload control is not disabled and accepts a file, while the
    process-URL button does not react. *)
Lemma blank_url_leaves_upload_enabled :
  reachable blankUrl
  /\ enabled initial (YouTubeUrlChange noBreakSpace) = true
  /\ youtubeUrl blankUrl = noBreakSpace
  /\ youtubeUrl blankUrl <> ""
  /\ fileUploadDisabled blankUrl = false
  /\ enabled blankUrl (UploadStarted meeting) = true
  /\ enabled blankUrl (FileSelected meeting) = true
  /\ processYoutubeButtonDisabled blankUrl = true.
Proof.
  split; [apply stateAfter_reachable|].
  vm_compute. repeat split. discriminate.
Qed.

(** What a hand-over in file mode leaves before the commit. *)
Lemma handleFileSelected_fileMode (r s : Home) (file : File) :
  urlEntered r || placeholderActive r = false ->
  handleFileSelected r file s
  = s |> setSelectedFile (Some file)
      |> setTimeout (ProcessSelectedFile false file (language r)).
Proof. intro H. unfold handleFileSelected. now rewrite H. Qed.

(** After the commit of a turn that selected [file], the URL mode is off. *)
Lemma selected_after_commit (s h : Home) (file : File) :
  Inv s -> Modes s -> settles s h -> Modes h ->
  selectedFile h = Some file ->
  selectedFile (commit s h) = Some file
  /\ urlEntered (commit s h) = false
  /\ placeholderActive (commit s h) = false.
Proof.
  intros Hi Hm Hs Hh Hsel.
  pose proof (commit_Inv s h Hi Hs) as Ci.
  pose proof (commit_Modes s h Hh) as Cm.
  pose proof (commit_fields s h) as F. cbv zeta in F.
  destruct F as (Fsel & _).
  assert (S : selectedFile (commit s h) = Some file) by now rewrite Fsel.
  assert (U : urlEntered (commit s h) = false).
  { pose proof (inv_exclusive _ Ci) as X. unfold fileSelected in X.
    now rewrite S in X. }
  split; [exact S|]. split; [exact U|].
  destruct (placeholderActive (commit s h)) eqn:P; [|reflexivity].
  rewrite (md_placeholder _ Cm P) in U. discriminate U.
Qed.

(** C8, amended.  (1) Whenever the URL text has a character other than white
    space, the file-upload control is disabled.  (2) Whenever a file is
    selected, the URL input and its process button are disabled.  (3) In no
    state are the file-upload control and the process button both enabled.
    (4) In every reachable state a selected file and a non-blank URL text
    exclude each other, and a placeholder message is shown only beside a
    non-blank URL text.  (5) In every reachable state, when a running upload
    hands its file over, the callback runs no reset (it belongs to a render
    in which no URL was entered): the file becomes the selected file, the
    callback that starts its processing is queued, no notice is shown, and
    after the commit no URL text is entered and no placeholder message is
    shown, whatever was typed while the upload ran.  (6) The same holds for a
    file handed over at once by the enabled control. *)
Theorem mode_exclusivity :
  (forall s, urlEntered s = true -> fileUploadDisabled s = true)
  /\ (forall s, fileSelected s = true ->
                youtubeInputDisabled s = true
                /\ processYoutubeButtonDisabled s = true)
  /\ (forall s, fileUploadDisabled s = false ->
                processYoutubeButtonDisabled s = true)
  /\ (forall s, reachable s ->
                fileSelected s && urlEntered s = false
                /\ (placeholderActive s = true -> urlEntered s = true))
  /\ (forall s i u,
        reachable s -> nth_error (uploadsRunning s) i = Some u ->
        let s' := step s (UploadFinished i) in
        selectedFile s' = Some (uploadedFile u)
        /\ urlEntered s' = false
        /\ placeholderActive s' = false
        /\ timers s'
           = (timers s
              ++ [ProcessSelectedFile false (uploadedFile u)
                    (renderedLanguage u)])%list
        /\ toasts s' = toasts s)
  /\ (forall s file,
        reachable s -> enabled s (FileSelected file) = true ->
        let s' := step s (FileSelected file) in
        selectedFile s' = Some file
        /\ urlEntered s' = false
        /\ placeholderActive s' = false
        /\ timers s'
           = (timers s ++ [ProcessSelectedFile false file (language s)])%list
        /\ toasts s' = toasts s).
Proof.
  split; [|split; [|split; [|split; [|split]]]].
  - intros s H. unfold fileUploadDisabled. rewrite H. apply orb_true_r.
  - intros s H. unfold youtubeInputDisabled, processYoutubeButtonDisabled.
    rewrite H, !orb_true_r. auto.
  - intros s H. unfold fileUploadDisabled in H.
    apply orb_false_iff in H as [_ H].
    unfold processYoutubeButtonDisabled. now rewrite H.
  - intros s Hr. split.
    + apply (inv_exclusive _ (reachable_Inv s Hr)).
    + apply (md_placeholder _ (reachable_Modes s Hr)).
  - intros s i u Hr Hu. cbv zeta.
    pose proof (reachable_Inv s Hr) as Hi.
    pose proof (reachable_Modes s Hr) as Hm.
    assert (He : enabled s (UploadFinished i) = true)
      by (cbn [enabled]; now rewrite Hu).
    pose proof (handler_settles s _ Hi He) as Hs.
    pose proof (handler_Modes s _ Hm He) as Hh.
    unfold step. revert Hs Hh. cbn [handler]. rewrite Hu.
    destruct (md_uploads _ Hm u (nth_error_In _ _ Hu)) as [Q1 Q2].
    rewrite handleFileSelected_fileMode
      by (unfold urlEntered, placeholderActive, renderOf; cbn;
          now rewrite Q1, Q2).
    intros Hs Hh.
    destruct (selected_after_commit s _ (uploadedFile u) Hi Hm Hs Hh eq_refl)
      as (A & B & C).
    pose proof (commit_fields s
                  (setUploadsRunning (removeNth i (uploadsRunning s)) s
                   |> setSelectedFile (Some (uploadedFile u))
                   |> setTimeout
                        (ProcessSelectedFile false (uploadedFile u)
                           (language (renderOf u s))))) as F.
    cbv zeta in F.
    destruct F as (_ & _ & _ & _ & _ & _ & _ & _ & _ & _ & _ & _ & Ftoasts
                   & Ftimers & _).
    repeat split; try assumption.
  - intros s file Hr He. cbv zeta.
    pose proof (reachable_Inv s Hr) as Hi.
    pose proof (reachable_Modes s Hr) as Hm.
    pose proof (handler_settles s _ Hi He) as Hs.
    pose proof (handler_Modes s _ Hm He) as Hh.
    assert (Q : urlEntered s || placeholderActive s = false).
    { cbn [enabled] in He. unfold fileUploadDisabled in He.
      rewrite negb_orb, andb_true_iff, !negb_true_iff in He.
      destruct He as [_ Hurl]. rewrite Hurl. cbn.
      destruct (placeholderActive s) eqn:P; [|reflexivity].
      rewrite (md_placeholder _ Hm P) in Hurl. discriminate Hurl. }
    unfold step. revert Hs Hh. cbn [handler].
    rewrite (handleFileSelected_fileMode s s file Q).
    intros Hs Hh.
    destruct (selected_after_commit s _ file Hi Hm Hs Hh eq_refl)
      as (A & B & C).
    pose proof (commit_fields s
                  (s |> setSelectedFile (Some file)
                     |> setTimeout (ProcessSelectedFile false file (language s))))
      as F.
    cbv zeta in F.
    destruct F as (_ & _ & _ & _ & _ & _ & _ & _ & _ & _ & _ & _ & Ftoasts
                   & Ftimers & _).
    repeat split; try assumption.
Qed.

(** A file is chosen, the URL of scenario C is typed while its upload runs,
    and the upload hands the file over. *)
Definition typedDuringUpload : Home :=
  stateAfter [UploadStarted meeting; YouTubeUrlChange "https://x/y"].

Lemma mode_exclusivity_witness :
  urlEntered typedDuringUpload = true
  /\ fileUploadDisabled typedDuringUpload = true
  /\ selectedFile (step typedDuringUpload (UploadFinished 0)) = Some meeting
  /\ urlEntered (step typedDuringUpload (UploadFinished 0)) = false.
Proof.
  destruct mode_exclusivity as (M1 & _ & _ & _ & M5 & _).
  assert (U : urlEntered typedDuringUpload = true) by (vm_compute; reflexivity).
  split; [exact U|]. split; [exact (M1 _ U)|].
  pose proof (M5 typedDuringUpload 0%nat (uploadOf meeting initial)
                (stateAfter_reachable _) eq_refl) as (A & B & _).
  split; [exact A | exact B].
Defined.

(** *** Bookkeeping kept by every turn *)

(** [progressIntervalRef.current] as a condition. *)
Definition intervalLive (s : Home) : bool :=
  match progressIntervalRef s with Some _ => true | None => false end.

(** What the page keeps track of besides its input mode: the audio source
    is the object URL created last, the progress interval runs exactly while a
    file is processed, a flag that is set has the event that clears it
    pending, and a summarization in flight has an empty summary. *)
Record Bookkeeping (s : Home) : Prop :=
  { bk_file_src : fileSelected s = true -> audioSrc s <> None;
    bk_latest :
      forall u, audioSrc s = Some u ->
        exists n, objectUrlsCreated s = S n /\ u = createObjectURL n;
    bk_interval : intervalLive s = isProcessingFile s;
    bk_file_pending :
      isProcessingFile s = true -> (0 < transcriptionsInFlight s)%nat;
    bk_youtube_pending :
      isProcessingYouTube s = true -> In ClearProcessingYouTube (timers s);
    bk_summaries :
      summariesInFlight s = if isSummarizing s then 1%nat else 0%nat;
    bk_summary : isSummarizing s = true -> summary s = "" }.

(** What a handler run from the render [r] must leave in [h] for the commit
    to keep the books. *)
Record keeps (r h : Home) : Prop :=
  { kp_src :
      audioSrc h = audioSrc r \/ (audioSrc h = None /\ fileSelected h = false);
    kp_urls : objectUrlsCreated h = objectUrlsCreated r;
    kp_interval : intervalLive h = isProcessingFile h;
    kp_file_pending :
      isProcessingFile h = true -> (0 < transcriptionsInFlight h)%nat;
    kp_youtube_pending :
      isProcessingYouTube h = true -> In ClearProcessingYouTube (timers h);
    kp_summaries :
      summariesInFlight h = if isSummarizing h then 1%nat else 0%nat;
    kp_summary : isSummarizing h = true -> summary h = "" }.

Lemma initial_Bookkeeping : Bookkeeping initial.
Proof. split; cbn; try reflexivity; try discriminate. Qed.

Lemma commit_objectUrlsCreated (r s : Home) :
  objectUrlsCreated (commit r s)
  = if depsChanged r s && fileSelected s
    then S (objectUrlsCreated s) else objectUrlsCreated s.
Proof.
  rewrite commit_eq. cbv zeta.
  rewrite !renderPlayer_eq. unfold fileSelected, useEffect_selectedFile.
  destruct (depsChanged r s); cbn.
  - destruct s; cbn. destruct selectedFile0; reflexivity.
  - destruct s; reflexivity.
Qed.

Lemma commit_Bookkeeping (r h : Home) :
  Bookkeeping r -> keeps r h -> Bookkeeping (commit r h).
Proof.
  intros Hr Hh.
  pose proof (commit_fields r h) as F. cbv zeta in F.
  destruct F as (Fsel & Fpf & Fsum & _ & Fint & _ & _ & Fsummary & _ & _ & _
                 & _ & _ & Ftimers & Ftr & Fsu & _ & _ & _ & Fyt & Fsrc & _).
  pose proof (commit_objectUrlsCreated r h) as Furls.
  unfold fileSelected in *.
  split.
  - unfold fileSelected. rewrite Fsel, Fsrc.
    destruct (selectedFile h) as [f|] eqn:S; [|discriminate]. intros _.
    destruct (depsChanged r h) eqn:D; [discriminate|].
    destruct (depsChanged_false _ _ D) as [E _].
    destruct (kp_src _ _ Hh) as [A|[_ A]].
    + rewrite A. apply (bk_file_src _ Hr). unfold fileSelected. now rewrite E, S.
    + unfold fileSelected in A. rewrite S in A. discriminate A.
  - intros u. rewrite Fsrc, Furls.
    destruct (depsChanged r h) eqn:D; cbn.
    + destruct (selectedFile h); [|discriminate].
      intros [= <-]. eauto.
    + intro Hu. rewrite (kp_urls _ _ Hh).
      destruct (kp_src _ _ Hh) as [A|[A _]]; [|congruence].
      apply (bk_latest _ Hr). congruence.
  - unfold intervalLive. rewrite Fint, Fpf. apply (kp_interval _ _ Hh).
  - rewrite Fpf, Ftr. apply (kp_file_pending _ _ Hh).
  - rewrite Fyt, Ftimers.
    destruct (depsChanged r h && _); [discriminate|].
    apply (kp_youtube_pending _ _ Hh).
  - rewrite Fsu, Fsum. apply (kp_summaries _ _ Hh).
  - rewrite Fsum, Fsummary. apply (kp_summary _ _ Hh).
Qed.

(** The parts of [keeps] that a handler leaving the fields alone gets from
    the books of the render. *)
Ltac from_bk s Hb :=
  first
    [ now left
    | (right; split; reflexivity)
    | reflexivity
    | exact (bk_interval _ Hb)
    | exact (bk_file_pending _ Hb)
    | exact (bk_youtube_pending _ Hb)
    | exact (bk_summaries _ Hb)
    | exact (bk_summary _ Hb)
    | discriminate
    | (intros _; reflexivity)
    | (let A := fresh in
       intro A; apply in_or_app; first
         [ left; exact (bk_youtube_pending _ Hb A) | right; now left ])
    | (cbn; lia) ].

Lemma handleClearAndReset_keeps (s : Home) (l : list Timer) :
  Bookkeeping s -> keeps s (setTimers l (handleClearAndReset s s)).
Proof.
  intros Hb. unfold_handlers. split; cbn; try from_bk s Hb.
Qed.
(** Every event that can occur leaves a state whose books the commit can
    keep. *)
Lemma handler_keeps (s : Home) (e : Event) :
  Bookkeeping s -> enabled s e = true -> keeps s (handler e s).
Proof.
  intros Hb He. destruct e; cbn [handler].
  - (* FileSelected *)
    unfold_handlers.
    destruct (urlEntered s || placeholderActive s); split; cbn;
      try from_bk s Hb.
  - (* RemoveFileClicked *)
    unfold_handlers. split; cbn; try from_bk s Hb.
  - (* ClearClicked *)
    unfold_handlers. split; cbn; try from_bk s Hb.
  - (* YouTubeUrlChange *)
    cbn [enabled] in He.
    unfold youtubeInputDisabled, isAnyProcessingActive in He.
    rewrite !negb_orb, !andb_true_iff, !negb_true_iff in He.
    destruct He as [[[Hpf Hyt] Hfile] _].
    unfold_handlers. rewrite Hfile, Hpf. cbn.
    destruct (JS.truthy (JS.trim newUrl)); split; cbn; try from_bk s Hb.
    all: unfold fileSelected in *; cbn; try (right; split; [reflexivity|]);
      try assumption.
    all: try (rewrite <- Hpf; exact (bk_interval _ Hb)).
    all: try (rewrite Hpf; discriminate).
  - (* ProcessYouTubeUrlClicked *)
    cbn in He.
    unfold processYoutubeButtonDisabled, isAnyProcessingActive in He.
    rewrite !negb_orb, !andb_true_iff, !negb_true_iff, negb_false_iff in He.
    destruct He as [[Hurl [Hpf Hyt]] Hfile].
    unfold_handlers. rewrite Hurl, Hfile, Hpf. cbn.
    split; cbn; try from_bk s Hb.
    right. split; [reflexivity | exact Hfile].
  - (* LanguageChange *)
    unfold_handlers.
    destruct (fileSelected s && _ && _ && _); split; cbn; try from_bk s Hb.
  - (* SummaryPromptChange *)
    split; cbn; try from_bk s Hb.
  - (* SummarizeClicked *)
    cbn in He. unfold summarizeButtonDisabled,
      featuresRequiringTranscriptDisabled in He.
    rewrite !negb_orb, !andb_true_iff, !negb_true_iff in He.
    destruct He as [[[_ Hsum] _] _].
    pose proof (bk_summaries _ Hb) as N. rewrite Hsum in N.
    unfold_handlers.
    destruct (negb _ || placeholderActive s); [split; cbn; try from_bk s Hb|].
    destruct (negb _); split; cbn; try from_bk s Hb.
  - (* FontSizeChange *)
    split; cbn; try from_bk s Hb.
  - (* SegmentClicked *)
    destruct (nth_error (transcriptSegments s) index);
      [|split; try from_bk s Hb].
    unfold handleSegmentClick.
    destruct (audioPlayerRef s); [|split; try from_bk s Hb].
    destruct (negb (placeholderActive s) && _); split; cbn; try from_bk s Hb.
  - (* TimerFired *)
    destruct (nth_error (timers s) index) as [t|] eqn:T;
      [|split; try from_bk s Hb].
    destruct t as [again file lang|].
    + destruct again; unfold_handlers; split; cbn; try from_bk s Hb.
    + unfold_handlers; split; cbn; try from_bk s Hb.
  - (* IntervalTick *)
    cbn in He. unfold progressTick.
    pose proof (bk_interval _ Hb) as I. unfold intervalLive in I.
    destruct (progressIntervalRef s) as [cp|]; [|discriminate He].
    destruct (cp + 5 <? 95)%Z; split; cbn; try from_bk s Hb; exact I.
  - (* TranscriptionSettled *)
    destruct outcome as [result|error]; unfold_handlers; split; cbn;
      try from_bk s Hb.
  - (* SummarySettled *)
    unfold enabled in He. apply Nat.ltb_lt in He.
    pose proof (bk_summaries _ Hb) as N.
    destruct (isSummarizing s); [|lia].
    destruct outcome as [result|error]; unfold_handlers; split; cbn;
      try from_bk s Hb.
  - (* Player *)
    destruct (audioPlayerRef s) as [p|]; [|split; try from_bk s Hb].
    destruct (AudioPlayer.handle e p) as [p' notified].
    destruct notified as [time|]; unfold_handlers; split; cbn;
      try from_bk s Hb.
  - (* UploadStarted *)
    split; cbn; try from_bk s Hb.
  - (* UploadFinished *)
    destruct (nth_error (uploadsRunning s) index) as [u|];
      [|split; try from_bk s Hb].
    unfold renderOf. unfold_handlers. cbn.
    destruct (urlEntered _ || placeholderActive _); split; cbn;
      try from_bk s Hb.
Qed.

Theorem step_Bookkeeping (s : Home) (e : Event) :
  Bookkeeping s -> enabled s e = true -> Bookkeeping (step s e).
Proof.
  intros Hb He. apply commit_Bookkeeping; [exact Hb | now apply handler_keeps].
Qed.

Theorem reachable_Bookkeeping (s : Home) : reachable s -> Bookkeeping s.
Proof.
  induction 1 as [|s e _ IH He];
    [apply initial_Bookkeeping | now apply step_Bookkeeping].
Qed.

Lemma createObjectURL_inj (m n : nat) :
  createObjectURL m = createObjectURL n -> m = n.
Proof.
  unfold createObjectURL. cbn. intros [= H].
  apply DecimalNat.Unsigned.to_uint_inj.
  pose proof (NilEmpty.usu (Nat.to_uint m)) as Hm.
  pose proof (NilEmpty.usu (Nat.to_uint n)) as Hn.
  rewrite H in Hm. congruence.
Qed.

(** X5.  In every state the page can reach, the audio source is present
    exactly when a file is selected; it is then the object URL created last;
    the player has been handed exactly this source, and without a source the
    player is at rest (not playing, position and duration zero, the element
    paused at zero). *)
Theorem audio_source_follows_file (s : Home) :
  reachable s ->
  (fileSelected s = true <-> audioSrc s <> None)
  /\ (forall u, audioSrc s = Some u ->
        exists n, objectUrlsCreated s = S n /\ u = createObjectURL n)
  /\ (forall p, audioPlayerRef s = Some p ->
        AudioPlayer.src p = audioSrc s
        /\ (audioSrc s = None -> AudioPlayer.atRest p)).
Proof.
  intro Hr.
  pose proof (reachable_Inv s Hr) as Hi.
  pose proof (reachable_Bookkeeping s Hr) as Hb.
  split; [|split].
  - split; [apply (bk_file_src _ Hb)|].
    intro H. unfold fileSelected.
    destruct (selectedFile s) eqn:S; [reflexivity|].
    exfalso. apply H. now apply (inv_audioSrc _ Hi).
  - apply (bk_latest _ Hb).
  - intros p Hp. pose proof (inv_player_src _ Hi p Hp) as E.
    split; [exact E|]. intro N. apply (inv_player _ Hi p Hp). congruence.
Qed.

(** The theorem at work: once a file has been handed over, the player holds
    the first object URL. *)
Lemma audio_source_follows_file_witness :
  audioSrc (stateAfter [FileSelected meeting]) <> None
  /\ option_map AudioPlayer.src (audioPlayerRef (stateAfter [FileSelected meeting]))
     = Some (Some "blob:0").
Proof.
  pose proof (audio_source_follows_file (stateAfter [FileSelected meeting])
                (stateAfter_reachable _)) as (A & _ & C).
  split.
  - apply A. vm_compute. reflexivity.
  - destruct (audioPlayerRef (stateAfter [FileSelected meeting])) as [p|] eqn:P.
    + cbn. rewrite (proj1 (C p eq_refl)). vm_compute. reflexivity.
    + vm_compute in P. discriminate P.
Defined.

Lemma nth_error_In_timer (l : list Timer) (t : Timer) :
  In t l -> exists i, nth_error l i = Some t.
Proof.
  induction l as [|x l IH]; intros H; [destruct H|].
  destruct H as [->|H].
  - now exists 0%nat.
  - destruct (IH H) as [i Hi]. now exists (S i).
Qed.

Lemma TranscriptionSettled_clears (s : Home)
  (outcome : Completion (option TranscribeAudioOutput)) :
  isProcessingFile (step s (TranscriptionSettled outcome)) = false
  /\ progressIntervalRef (step s (TranscriptionSettled outcome)) = None.
Proof.
  unfold step.
  pose proof (commit_fields s (handler (TranscriptionSettled outcome) s)) as F.
  cbv zeta in F. destruct F as (_ & Fpf & _ & _ & Fint & _).
  rewrite Fpf, Fint. destruct outcome; unfold_handlers; cbn; split; reflexivity.
Qed.

(** X6.  In every state the page can reach, the two processing flags are
    never both set, the progress interval is live exactly while the
    file-processing flag is set, and a flag that is set is not stuck: with
    the file-processing flag set a transcription call is still to settle, and
    its settling (whatever the outcome) clears the flag and the interval;
    with the URL-processing flag set the callback that clears it is in the
    timer queue, and its firing clears the flag. *)
Theorem processing_flags_settle (s : Home) :
  reachable s ->
  isProcessingFile s && isProcessingYouTube s = false
  /\ (isProcessingFile s = true <-> progressIntervalRef s <> None)
  /\ (isProcessingFile s = true ->
        forall outcome,
          enabled s (TranscriptionSettled outcome) = true
          /\ isProcessingFile (step s (TranscriptionSettled outcome)) = false
          /\ progressIntervalRef (step s (TranscriptionSettled outcome)) = None)
  /\ (isProcessingYouTube s = true ->
        exists i,
          enabled s (TimerFired i) = true
          /\ isProcessingYouTube (step s (TimerFired i)) = false).
Proof.
  intro Hr.
  pose proof (reachable_Inv s Hr) as Hi.
  pose proof (reachable_Bookkeeping s Hr) as Hb.
  split; [|split; [|split]].
  - apply (inv_flags _ Hi).
  - pose proof (bk_interval _ Hb) as I. unfold intervalLive in I.
    destruct (progressIntervalRef s); rewrite <- I; split;
      congruence || discriminate.
  - intros H outcome. split.
    + unfold enabled. apply Nat.ltb_lt. now apply (bk_file_pending _ Hb).
    + apply TranscriptionSettled_clears.
  - intro H.
    destruct (nth_error_In_timer _ _ (bk_youtube_pending _ Hb H)) as [i Hi'].
    exists i. split.
    + unfold enabled. now rewrite Hi'.
    + now apply ClearProcessingYouTube_fires.
Qed.

(** The theorem at work: while the file of the scenarios is processed, the
    interval is live and the call is pending. *)
Lemma processing_flags_settle_witness :
  progressIntervalRef (stateAfter [FileSelected meeting; TimerFired 0]) <> None
  /\ isProcessingFile
       (step (stateAfter [FileSelected meeting; TimerFired 0])
          (TranscriptionSettled (Return helloWorld))) = false.
Proof.
  pose proof (processing_flags_settle
                (stateAfter [FileSelected meeting; TimerFired 0])
                (stateAfter_reachable _)) as (_ & B & C & _).
  split.
  - apply B. vm_compute. reflexivity.
  - refine (proj1 (proj2 (C _ (Return helloWorld)))). vm_compute. reflexivity.
Defined.

Lemma SummarySettled_fields (s : Home)
  (outcome : Completion SummarizeTranscriptOutput) :
  let s' := step s (SummarySettled outcome) in
  isSummarizing s' = false
  /\ summariesInFlight s' = Nat.pred (summariesInFlight s)
  /\ summary s'
     = match outcome with
       | Return result => summary_ result
       | Throw _ => summary s
       end
  /\ toasts s'
     = (toasts s
        ++ [match outcome with
            | Return _ =>
                {| title := "Summarization Complete"; description := None;
                   variant := None; duration := None |}
            | Throw error =>
                {| title := "Summarization Error";
                   description :=
                     Some (messageOr error
                             "Failed to generate summary. Please try again.");
                   variant := Some destructive; duration := None |}
            end])%list.
Proof.
  cbv zeta. unfold step.
  pose proof (commit_fields s (handler (SummarySettled outcome) s)) as F.
  cbv zeta in F.
  destruct F as (_ & _ & Fsum & _ & _ & _ & _ & Fsummary & _ & _ & _ & _
                 & Ftoasts & _ & _ & Fsu & _).
  rewrite Fsum, Fsummary, Ftoasts, Fsu.
  destruct outcome; unfold_handlers; cbn; repeat split.
Qed.

(** X7.  In every state the page can reach, at most one summarization call
    is in flight, and one is in flight exactly while the summarizing flag is
    set; while it is set the summary text is empty and the summarize button
    does not react.  When the call settles the flag is cleared and no call
    remains in flight: a result becomes the summary text; a failure leaves the
    summary empty and adds a destructive notice titled "Summarization Error"
    that carries the error message (or the fallback text when there is
    none). *)
Theorem one_summarization_at_a_time (s : Home) :
  reachable s ->
  (isSummarizing s = true <-> summariesInFlight s = 1%nat)
  /\ (isSummarizing s = false <-> summariesInFlight s = 0%nat)
  /\ (isSummarizing s = true ->
        summary s = "" /\ enabled s SummarizeClicked = false)
  /\ forall outcome,
       enabled s (SummarySettled outcome) = true ->
       let s' := step s (SummarySettled outcome) in
       isSummarizing s' = false
       /\ summariesInFlight s' = 0%nat
       /\ match outcome with
          | Return result => summary s' = summary_ result
          | Throw error =>
              summary s' = ""
              /\ toasts s'
                 = (toasts s
                    ++ [{| title := "Summarization Error";
                           description :=
                             Some (messageOr error
                                     "Failed to generate summary. Please try again.");
                           variant := Some destructive;
                           duration := None |}])%list
          end.
Proof.
  intro Hr. pose proof (reachable_Bookkeeping s Hr) as Hb.
  pose proof (bk_summaries _ Hb) as N. pose proof (bk_summary _ Hb) as E.
  split; [|split; [|split]].
  - destruct (isSummarizing s); rewrite N; split; intro;
      reflexivity || discriminate.
  - destruct (isSummarizing s); rewrite N; split; intro;
      reflexivity || discriminate.
  - intro H. split; [now apply E|].
    unfold enabled, summarizeButtonDisabled,
      featuresRequiringTranscriptDisabled.
    rewrite H. now rewrite orb_true_r.
  - intros outcome He. unfold enabled in He. apply Nat.ltb_lt in He.
    assert (S : isSummarizing s = true)
      by (destruct (isSummarizing s); [reflexivity | lia]).
    rewrite S in N.
    destruct (SummarySettled_fields s outcome) as (F1 & F2 & F3 & F4).
    cbv zeta. split; [exact F1|]. split; [now rewrite F2, N|].
    destruct outcome as [result|error]; [exact F3|].
    split; [rewrite F3; now apply E | exact F4].
Qed.

(** The theorem at work on the scenario in which the summary is awaited. *)
Lemma one_summarization_at_a_time_witness :
  summary summarizing = ""
  /\ summary (step summarizing
                (SummarySettled (Throw (ErrorObject "quota exceeded")))) = "".
Proof.
  destruct (one_summarization_at_a_time summarizing
              (stateAfter_reachable _)) as (_ & _ & C & D).
  split.
  - refine (proj1 (C _)). vm_compute. reflexivity.
  - refine (proj1 (proj2 (proj2
              (D (Throw (ErrorObject "quota exceeded")) _)))).
    vm_compute. reflexivity.
Defined.

Lemma sameSrc_false (a b : option string) : a <> b -> sameSrc a b = false.
Proof.
  intro H. destruct (sameSrc a b) eqn:E; [|reflexivity].
  apply sameSrc_eq in E. contradiction.
Qed.

(** X8.  The page's effect on [[selectedFile, isProcessingFile]] runs again
    whenever the file-processing flag flips.  So in every reachable state, a
    turn that starts or ends the processing of a file while a file is
    selected creates one more object URL and makes it the audio source, which
    differs from the source before the turn; the player takes the new source
    through its own effect and is left at rest and loading: not playing,
    position and duration back at zero. *)
Theorem processing_flip_reloads_player (s : Home) (e : Event) (f : File) :
  reachable s -> enabled s e = true ->
  isProcessingFile (step s e) <> isProcessingFile s ->
  selectedFile (step s e) = Some f ->
  audioSrc (step s e) = Some (createObjectURL (objectUrlsCreated s))
  /\ objectUrlsCreated (step s e) = S (objectUrlsCreated s)
  /\ audioSrc (step s e) <> audioSrc s
  /\ forall p, audioPlayerRef (step s e) = Some p ->
       AudioPlayer.src p = Some (createObjectURL (objectUrlsCreated s))
       /\ AudioPlayer.atRest p /\ AudioPlayer.isLoading p = true.
Proof.
  intros Hr He Hflip Hsel.
  pose proof (reachable_Bookkeeping s Hr) as Hb.
  pose proof (handler_keeps s e Hb He) as Hk.
  unfold step in *. set (h := handler e s) in *.
  pose proof (commit_fields s h) as F. cbv zeta in F.
  destruct F as (Fsel & Fpf & _ & _ & _ & _ & _ & _ & _ & _ & _ & _ & _ & _
                 & _ & _ & _ & _ & _ & _ & Fsrc & Fplayer).
  pose proof (commit_objectUrlsCreated s h) as Furls.
  rewrite Fsel in Hsel. rewrite Fpf in Hflip.
  assert (D : depsChanged s h = true).
  { unfold depsChanged.
    destruct (isProcessingFile s), (isProcessingFile h); cbn;
      rewrite ?andb_false_r; cbn; congruence. }
  rewrite D, Hsel in Fsrc. unfold fileSelected in Furls.
  rewrite D, Hsel in Furls. cbn in Furls.
  rewrite (kp_urls _ _ Hk) in Fsrc, Furls.
  assert (Hold : forall u, audioSrc s = Some u ->
                   u <> createObjectURL (objectUrlsCreated s)).
  { intros u Hu E. destruct (bk_latest _ Hb u Hu) as (n & Hn & ->).
    apply createObjectURL_inj in E. lia. }
  assert (Hne : forall v, v = audioSrc s \/ v = None ->
                  v <> Some (createObjectURL (objectUrlsCreated s))).
  { intros v [->| ->] E; [|discriminate E]. now apply (Hold _ E). }
  split; [exact Fsrc|]. split; [exact Furls|]. split.
  - rewrite Fsrc. intro E. symmetry in E. revert E. apply Hne. now left.
  - intros p Hp. rewrite Fplayer, Fsrc in Hp.
    destruct (audioPlayerRef h) as [q|]; [|discriminate Hp].
    cbn in Hp. injection Hp as <-.
    set (q1 := syncPlayer (audioSrc h) q).
    assert (Hq1 : AudioPlayer.src q1 = audioSrc h) by apply syncPlayer_src.
    unfold syncPlayer at 1 2 3. rewrite sameSrc_false.
    2: { rewrite Hq1. apply Hne.
         destruct (kp_src _ _ Hk) as [A|[A _]]; [now left | now right]. }
    split; [|split].
    + now rewrite AudioPlayer.useEffect_src_src.
    + apply AudioPlayer.useEffect_src_atRest.
    + unfold AudioPlayer.useEffect_src, AudioPlayer.onElement. cbn.
      destruct (AudioPlayer.audioRef q1); reflexivity.
Qed.

(** The theorem at work: the start of the processing of the selected file
    replaces the first object URL by the second. *)
Lemma processing_flip_reloads_player_witness :
  audioSrc (stateAfter [FileSelected meeting]) = Some "blob:0"
  /\ audioSrc (step (stateAfter [FileSelected meeting]) (TimerFired 0))
     = Some (createObjectURL 1).
Proof.
  split; [vm_compute; reflexivity|].
  refine (proj1 (processing_flip_reloads_player
                   (stateAfter [FileSelected meeting]) (TimerFired 0) meeting
                   (stateAfter_reachable _) _ _ _)).
  - vm_compute. reflexivity.
  - vm_compute. discriminate.
  - vm_compute. reflexivity.
Defined.


(** *** The transcript area *)

(** The [fullTranscriptPlaceholder] prop the page hands to the viewer. *)
Definition fullTranscriptPlaceholder (s : Home) : string :=
  let otherwise :=
    if isProcessingFile s then ""
    else if negb (fileSelected s) && negb (urlEntered s)
            && negb (isProcessingFile s) && negb (placeholderActive s)
    then "Transcript will appear here once a file is processed..."
    else if urlEntered s && negb (placeholderActive s)
            && negb (isProcessingFile s)
    then "Click 'Process YouTube URL' above to see placeholder details."
    else "Transcript will appear here..." in
  match youtubePlaceholderMessage s with
  | Some m => if JS.truthy m then m else otherwise
  | None => otherwise
  end.

(** [<TranscriptEditor segments={transcriptSegments} ...
    currentTime={currentAudioTime} />]: the children it renders, and whether
    its [style] shows it. *)
Definition viewer (s : Home) : list TranscriptEditor.Node :=
  TranscriptEditor.children (Some (fullTranscriptPlaceholder s))
    (Some (currentAudioTime s)) (transcriptSegments s).

Definition viewerDisplayed (s : Home) : bool := negb (isProcessingFile s).

#[local] Set Warnings "-inexact-float".

(** X9.  When the media element reports the playback position [t], the page
    stores it as [currentAudioTime] and leaves the transcript alone, and the
    viewer then highlights exactly the segments of the transcript with
    [start <= t] and [t <= end + 0.1], the comparisons and the rounded sum
    being those of JavaScript numbers. *)
Theorem highlight_follows_playback (s : Home) (p : AudioPlayer.t)
  (el : AudioPlayer.Element.t) (t : Q) :
  audioPlayerRef s = Some p -> AudioPlayer.audioRef p = Some el ->
  let s' := step s (Player (AudioPlayer.MediaTimeUpdate (Some t))) in
  currentAudioTime s' = t
  /\ transcriptSegments s' = transcriptSegments s
  /\ TranscriptEditor.highlighted (viewer s')
     = TranscriptEditor.activeSegments (Some t) (transcriptSegments s)
  /\ forall segment,
       In segment (TranscriptEditor.highlighted (viewer s'))
       <-> In segment (transcriptSegments s)
           /\ (Double.ofQ (Segment.start segment) <=? Double.ofQ t)%float = true
           /\ (Double.ofQ t
               <=? Double.ofQ (Segment.end_ segment) + 0.1)%float = true.
Proof.
  intros Hp Hel. cbv zeta. unfold step.
  pose proof (commit_fields s
                (handler (Player (AudioPlayer.MediaTimeUpdate (Some t))) s)) as F.
  cbv zeta in F.
  destruct F as (_ & _ & _ & _ & _ & Fseg & _ & _ & _ & _ & _ & Ftime & _).
  assert (T : currentAudioTime
                (handler (Player (AudioPlayer.MediaTimeUpdate (Some t))) s) = t).
  { cbn [handler]. rewrite Hp.
    unfold AudioPlayer.handle, AudioPlayer.handleTimeUpdate,
      AudioPlayer.onElement. rewrite Hel. cbn. reflexivity. }
  assert (G : transcriptSegments
                (handler (Player (AudioPlayer.MediaTimeUpdate (Some t))) s)
              = transcriptSegments s).
  { cbn [handler]. rewrite Hp.
    destruct (AudioPlayer.handle _ p) as [p' [time|]]; reflexivity. }
  rewrite T in Ftime. rewrite G in Fseg.
  assert (H : TranscriptEditor.highlighted
                (viewer (commit s (handler (Player (AudioPlayer.MediaTimeUpdate (Some t))) s)))
              = TranscriptEditor.activeSegments (Some t) (transcriptSegments s)).
  { unfold viewer. rewrite TranscriptEditor.highlighted_children.
    now rewrite Ftime, Fseg. }
  split; [exact Ftime|]. split; [exact Fseg|]. split; [exact H|].
  intro segment. rewrite H. unfold TranscriptEditor.activeSegments.
  rewrite filter_In, TranscriptEditor.isSegmentActive_bounds.
  unfold TranscriptEditor.windowEnd. tauto.
Qed.

(** The theorem at work: the transcript of the scenarios at 1.05 s. *)
Lemma highlight_follows_playback_witness :
  TranscriptEditor.highlighted
    (viewer (step transcribed
               (Player (AudioPlayer.MediaTimeUpdate (Some 1.05%Q)))))
  = [segHello; segWorld].
Proof.
  destruct (audioPlayerRef transcribed) as [p|] eqn:P;
    [|vm_compute in P; discriminate P].
  destruct (AudioPlayer.audioRef p) as [el|] eqn:E.
  - rewrite (proj1 (proj2 (proj2
               (highlight_follows_playback transcribed p el 1.05%Q P E)))).
    vm_compute. reflexivity.
  - vm_compute in P. injection P as <-. discriminate E.
Defined.

Lemma placeholderText_truthy (url : string) :
  JS.truthy (placeholderText url) = true.
Proof. reflexivity. Qed.

(** X10.  What the transcript area shows around the URL mode, in every
    state the page can reach.  With a URL entered, no placeholder message and
    no transcript, it shows the hint to click "Process YouTube URL".  After a
    click on the process-URL button, whenever that button reacts, it shows
    exactly the placeholder message, which quotes the URL.  While a file is
    processed there is no transcript and no placeholder message, the page
    hands the viewer an empty placeholder, so the viewer falls back to its
    own default text, and the area is not displayed. *)
Theorem viewer_shows_placeholder (s : Home) :
  reachable s ->
  (urlEntered s = true -> placeholderActive s = false ->
   transcriptSegments s = [] ->
   viewer s
   = [TranscriptEditor.PlaceholderSpan
        "Click 'Process YouTube URL' above to see placeholder details."])
  /\ (enabled s ProcessYouTubeUrlClicked = true ->
      viewer (step s ProcessYouTubeUrlClicked)
      = [TranscriptEditor.PlaceholderSpan (placeholderText (youtubeUrl s))]
      /\ TranscriptEditor.textContent (viewer (step s ProcessYouTubeUrlClicked))
         = placeholderText (youtubeUrl s))
  /\ (isProcessingFile s = true ->
      transcriptSegments s = []
      /\ placeholderActive s = false
      /\ viewer s
         = [TranscriptEditor.PlaceholderSpan
              "Transcript will appear here once the file is processed..."]
      /\ viewerDisplayed s = false).
Proof.
  intro Hr. pose proof (reachable_Modes s Hr) as Hm.
  split; [|split].
  - intros U P S.
    assert (F : isProcessingFile s = false).
    { destruct (isProcessingFile s) eqn:F; [|reflexivity].
      destruct (md_processing _ Hm F) as (_ & _ & _ & E).
      unfold urlEntered in U. rewrite E in U. discriminate U. }
    unfold viewer, TranscriptEditor.children.
    rewrite S. cbn [List.length Nat.eqb].
    unfold fullTranscriptPlaceholder. unfold placeholderActive in *.
    rewrite F, U.
    destruct (youtubePlaceholderMessage s) as [m|]; [rewrite P|];
      cbn; now rewrite andb_false_r.
  - intro He.
    pose proof (processUrl_fields s He) as (Hph & _ & Hseg & _).
    unfold processUrl in *.
    assert (V : viewer (step s ProcessYouTubeUrlClicked)
                = [TranscriptEditor.PlaceholderSpan
                     (placeholderText (youtubeUrl s))]).
    { unfold viewer, TranscriptEditor.children.
      rewrite Hseg. cbn [List.length Nat.eqb].
      unfold fullTranscriptPlaceholder. rewrite Hph.
      rewrite placeholderText_truthy. cbn [JS.orDefault].
      now rewrite placeholderText_truthy. }
    split; [exact V|]. rewrite V. cbn.
    reflexivity.
  - intros F. destruct (md_processing _ Hm F) as (S & _ & P & _).
    split; [exact S|].
    split; [unfold placeholderActive; now rewrite P|].
    split; [|unfold viewerDisplayed; now rewrite F].
    unfold viewer, TranscriptEditor.children.
    rewrite S. cbn [List.length Nat.eqb].
    unfold fullTranscriptPlaceholder. rewrite F, P. reflexivity.
Qed.

(** The theorem at work on scenario C, and on the file of the scenarios
    while it is processed. *)
Lemma viewer_shows_placeholder_witness :
  TranscriptEditor.textContent
    (viewer (step (stateAfter [YouTubeUrlChange "https://x/y"])
               ProcessYouTubeUrlClicked))
  = placeholderText "https://x/y"
  /\ viewer processingAt40
     = [TranscriptEditor.PlaceholderSpan
          "Transcript will appear here once the file is processed..."].
Proof.
  split.
  - pose proof (viewer_shows_placeholder
                  (stateAfter [YouTubeUrlChange "https://x/y"])
                  (stateAfter_reachable _)) as (_ & B & _).
    exact (proj2 (B eq_refl)).
  - pose proof (viewer_shows_placeholder processingAt40
                  (stateAfter_reachable _)) as (_ & _ & C).
    refine (proj1 (proj2 (proj2 (C _)))). vm_compute. reflexivity.
Defined.

End Page.

(** ** The summarization flow ([summarizeTranscriptWithPrompt])

    [src/ai/flows/summarize-transcript-flow.ts].  The model call is a
    parameter of the flow; the checks that Genkit runs against the schemas of
    the flow are implied by those of the wrapper and of the body. *)

Module SummarizeTranscriptFlow.

Import Page.

Record SummarizeTranscriptInput : Type :=
  { transcript : string; customPrompt : string }.

(** An issue of [safeParse]: the path of the field and the message. *)
Record ZodIssue : Type := { path : list string; message : string }.

(** [SummarizeTranscriptInputSchema.safeParse(input)] on an input whose two
    fields are strings: each field is checked with [.min(1, ...)], and every
    failing field contributes its issue, in the order of the schema.  The
    parse succeeds when the list is empty. *)
Definition safeParse (input : SummarizeTranscriptInput) : list ZodIssue :=
  ((if (String.length (transcript input) <? 1)%nat
    then [{| path := ["transcript"];
             message := "Transcript cannot be empty." |}]
    else [])
   ++
   (if (String.length (customPrompt input) <? 1)%nat
    then [{| path := ["customPrompt"];
             message := "Summarization prompt cannot be empty." |}]
    else []))%list.

(** What the model call hands back: [{output}], where [output] may be [null]
    and its [summary] may be something other than a string; or a thrown
    value, an [Error] with its message or any other value with its string
    form. *)
Record PromptOutput : Type := { promptSummary : option string }.

Inductive PromptThrown : Type :=
| PromptError (errorMessage : string)
| PromptOther (asString : string).

Inductive PromptResult : Type :=
| Resolved (output : option PromptOutput)
| Rejected (error : PromptThrown).

Definition emptyTranscriptSummary : string :=
  "Cannot summarize an empty transcript. Please provide some text.".
Definition emptyPromptSummary : string :=
  "Cannot summarize without a guiding prompt. Please provide instructions.".
Definition emptySummarySummary : string :=
  "The AI generated an empty summary. You might want to rephrase your prompt or check the transcript content.".
Definition invalidOutputMessage : string :=
  "Summary generation failed to produce a valid output structure.".

Section Flow.

Variable summaryGenerationPrompt : SummarizeTranscriptInput -> PromptResult.

(** The body of the [try] block: a result, or the value thrown. *)
Definition flowTry (input : SummarizeTranscriptInput)
  : SummarizeTranscriptOutput + PromptThrown :=
  match summaryGenerationPrompt input with
  | Rejected error => inr error
  | Resolved None => inr (PromptError invalidOutputMessage)
  | Resolved (Some output) =>
      match promptSummary output with
      | None => inr (PromptError invalidOutputMessage)
      | Some summary =>
          if String.eqb (JS.trim summary) ""
          then inl {| summary_ := emptySummarySummary |}
          else inl {| summary_ := summary |}
      end
  end.

(** [error instanceof Error ? error.message : String(error)] *)
Definition errorText (error : PromptThrown) : string :=
  match error with
  | PromptError errorMessage => errorMessage
  | PromptOther asString => asString
  end.

Definition summarizeTranscriptFlow (input : SummarizeTranscriptInput)
  : Completion SummarizeTranscriptOutput :=
  if negb (JS.truthy (JS.trim (transcript input))) then
    Return {| summary_ := emptyTranscriptSummary |}
  else if negb (JS.truthy (JS.trim (customPrompt input))) then
    Return {| summary_ := emptyPromptSummary |}
  else
    match flowTry input with
    | inl output => Return output
    | inr error =>
        Throw (ErrorObject ("Failed to generate summary: " ++ errorText error))
    end.

(** [`${e.path.join('.')} - ${e.message}`] *)
Definition issueText (e : ZodIssue) : string :=
  JS.join "." (path e) ++ " - " ++ message e.

Definition summarizeTranscriptWithPrompt (input : SummarizeTranscriptInput)
  : Completion SummarizeTranscriptOutput :=
  match safeParse input with
  | [] => summarizeTranscriptFlow input
  | errors =>
      Throw (ErrorObject
               ("Invalid input: " ++ JS.join "; " (map issueText errors)))
  end.

End Flow.

(** The call [handleSummarize] makes from the render [r]. *)
Definition inputOf (r : Home) : SummarizeTranscriptInput :=
  {| transcript := fullTranscript r; customPrompt := summaryPrompt r |}.

(** *** Properties of the summarization flow *)

Lemma truthy_length (s : string) :
  JS.truthy s = negb (String.length s <? 1)%nat.
Proof. destruct s; reflexivity. Qed.

Lemma truthy_trim_nonempty (s : string) :
  JS.truthy (JS.trim s) = true -> (String.length s <? 1)%nat = false.
Proof. destruct s; [discriminate | reflexivity]. Qed.

Lemma eqb_empty (s : string) : String.eqb s "" = JS.isEmpty s.
Proof. destruct s; reflexivity. Qed.

Lemma flowTry_summary (prompt : SummarizeTranscriptInput -> PromptResult)
  (input : SummarizeTranscriptInput) (output : SummarizeTranscriptOutput) :
  flowTry prompt input = inl output ->
  JS.onlyWhiteSpace (summary_ output) = false.
Proof.
  unfold flowTry.
  destruct (prompt input) as [[[[summary|]]|]|error]; try discriminate.
  cbn [promptSummary]. rewrite eqb_empty, JS.isEmpty_trim.
  destruct (JS.onlyWhiteSpace summary) eqn:W; intros [= <-];
    [reflexivity | exact W].
Qed.

(** X11.  [summarizeTranscriptWithPrompt] never returns a blank summary and
    never throws anything but an [Error]: a result carries a summary with a
    character other than white space (the text of the model, or one of three
    fixed explanations), and a failure carries a message that starts with
    "Invalid input: " or with "Failed to generate summary: ".  It rejects the
    input exactly when the transcript or the prompt is the empty string, and
    names every empty field in the message. *)
Theorem summarize_result_shape
  (prompt : SummarizeTranscriptInput -> PromptResult)
  (input : SummarizeTranscriptInput) :
  match summarizeTranscriptWithPrompt prompt input with
  | Return output => JS.onlyWhiteSpace (summary_ output) = false
  | Throw (ErrorObject m) =>
      (exists rest, m = "Invalid input: " ++ rest)
      \/ (exists rest, m = "Failed to generate summary: " ++ rest)
  | Throw OtherValue => False
  end
  /\ ((transcript input = "" \/ customPrompt input = "")
      <-> exists rest,
            summarizeTranscriptWithPrompt prompt input
            = Throw (ErrorObject ("Invalid input: " ++ rest)))
  /\ (transcript input = "" -> customPrompt input <> "" ->
      summarizeTranscriptWithPrompt prompt input
      = Throw (ErrorObject
                 "Invalid input: transcript - Transcript cannot be empty."))
  /\ (transcript input <> "" -> customPrompt input = "" ->
      summarizeTranscriptWithPrompt prompt input
      = Throw (ErrorObject
                 "Invalid input: customPrompt - Summarization prompt cannot be empty."))
  /\ (transcript input = "" -> customPrompt input = "" ->
      summarizeTranscriptWithPrompt prompt input
      = Throw (ErrorObject
                 "Invalid input: transcript - Transcript cannot be empty.; customPrompt - Summarization prompt cannot be empty.")).
Proof.
  destruct input as [t c].
  unfold summarizeTranscriptWithPrompt, safeParse. cbn [transcript customPrompt].
  destruct t as [|a t]; destruct c as [|b c]; cbn [String.length Nat.ltb Nat.leb app].
  - split; [left; eexists; reflexivity|].
    split; [split; [intros _; eexists; reflexivity | auto]|].
    repeat split; intros; try congruence; reflexivity.
  - split; [left; eexists; reflexivity|].
    split; [split; [intros _; eexists; reflexivity | auto]|].
    repeat split; intros; try congruence; reflexivity.
  - split; [left; eexists; reflexivity|].
    split; [split; [intros _; eexists; reflexivity | auto]|].
    repeat split; intros; try congruence; reflexivity.
  - split; [|split; [|repeat split; intros; congruence]].
    + unfold summarizeTranscriptFlow. cbn [transcript customPrompt].
      destruct (negb (JS.truthy (JS.trim (String a t)))); [reflexivity|].
      destruct (negb (JS.truthy (JS.trim (String b c)))); [reflexivity|].
      destruct (flowTry prompt _) as [output|error] eqn:E.
      * now apply flowTry_summary in E.
      * right. eexists. reflexivity.
    + split; [intros [H|H]; discriminate H|].
      intros [rest H]. exfalso. revert H. unfold summarizeTranscriptFlow.
      cbn [transcript customPrompt].
      destruct (negb (JS.truthy (JS.trim (String a t)))); [discriminate|].
      destruct (negb (JS.truthy (JS.trim (String b c)))); [discriminate|].
      destruct (flowTry prompt _); discriminate.
Qed.

(** The theorem at work: an empty transcript and a non-empty prompt. *)
Lemma summarize_result_shape_witness :
  summarizeTranscriptWithPrompt (fun _ => Resolved None)
    {| transcript := ""; customPrompt := "Summarize briefly" |}
  = Throw (ErrorObject
             "Invalid input: transcript - Transcript cannot be empty.").
Proof.
  refine (proj1 (proj2 (proj2
            (summarize_result_shape (fun _ => Resolved None)
               {| transcript := ""; customPrompt := "Summarize briefly" |})))
            eq_refl _).
  discriminate.
Defined.

(** *** The flow as the page calls it *)

Definition notReadyToast : Toast :=
  {| title := "Not Ready for Summary";
     description :=
       Some "No transcript available or YouTube placeholder active.";
     variant := Some default; duration := None |}.

(** A transcript whose segments carry no text: the flow returns it with an
    empty [text]. *)
Definition silentSegment : TranscriptSegment :=
  {| Segment.start := 0; Segment.end_ := 1; Segment.text := "" |}.

Definition silentTranscript : Home :=
  stateAfter [FileSelected meeting; TimerFired 0;
              TranscriptionSettled
                (Return (Some {| TranscribeAudioFlow.text := "";
                                 TranscribeAudioFlow.segments := [silentSegment] |}));
              SummaryPromptChange "Summarize briefly"].

(** X12.  When the summarize button reacts and the transcript text has a
    character other than white space, the click sets the summarizing flag and
    issues one call, and the input of that call passes every check of the
    flow: the result is the text of the model (or the fixed explanation when
    that text is blank), or a failure whose message starts with "Failed to
    generate summary: "; the "Invalid input" failure and the two "Cannot
    summarize" explanations do not occur.  The button also reacts when the
    transcript has segments but a blank text; the click then issues no call
    and only shows the "Not Ready for Summary" notice. *)
Theorem summarize_click_calls_flow
  (prompt : SummarizeTranscriptInput -> PromptResult) (s : Home) :
  enabled s SummarizeClicked = true ->
  (JS.onlyWhiteSpace (fullTranscript s) = false ->
     isSummarizing (handler SummarizeClicked s) = true
     /\ summariesInFlight (handler SummarizeClicked s)
        = S (summariesInFlight s)
     /\ summarizeTranscriptWithPrompt prompt (inputOf s)
        = match flowTry prompt (inputOf s) with
          | inl output => Return output
          | inr error =>
              Throw (ErrorObject
                       ("Failed to generate summary: " ++ errorText error))
          end)
  /\ (JS.onlyWhiteSpace (fullTranscript s) = true ->
      handler SummarizeClicked s = toast notReadyToast s).
Proof.
  intro He. unfold enabled, summarizeButtonDisabled,
    featuresRequiringTranscriptDisabled, isTranscriptAvailable in He.
  rewrite !negb_orb, !negb_involutive, !andb_true_iff, !negb_true_iff in He.
  destruct He as [[[[[_ Hph] _] _] _] Hprompt].
  cbn [handler]. unfold handleSummarize_start.
  rewrite JS.truthy_trim, Hph, Hprompt. cbn [negb].
  split; intro W; rewrite W; cbn [negb orb]; [|reflexivity].
  split; [reflexivity|]. split; [reflexivity|].
  assert (T : JS.truthy (JS.trim (fullTranscript s)) = true)
    by now rewrite JS.truthy_trim, W.
  unfold summarizeTranscriptWithPrompt, safeParse, inputOf.
  cbn [transcript customPrompt].
  rewrite (truthy_trim_nonempty _ T), (truthy_trim_nonempty _ Hprompt).
  cbn [app]. unfold summarizeTranscriptFlow. cbn [transcript customPrompt].
  now rewrite T, Hprompt.
Qed.

(** The theorem at work: scenario B's click issues the call; with a transcript
    of silent segments the button reacts but no call is issued. *)
Lemma summarize_click_calls_flow_witness :
  summariesInFlight
    (handler SummarizeClicked
       (stateAfter [FileSelected meeting; TimerFired 0;
                    TranscriptionSettled (Return helloWorld);
                    SummaryPromptChange "Summarize briefly"])) = 1%nat
  /\ enabled silentTranscript SummarizeClicked = true
  /\ summariesInFlight (handler SummarizeClicked silentTranscript) = 0%nat.
Proof.
  split; [|split].
  - refine (proj1 (proj2 (proj1
              (summarize_click_calls_flow (fun _ => Resolved None)
                 (stateAfter [FileSelected meeting; TimerFired 0;
                              TranscriptionSettled (Return helloWorld);
                              SummaryPromptChange "Summarize briefly"]) _) _))).
    + vm_compute. reflexivity.
    + vm_compute. reflexivity.
  - vm_compute. reflexivity.
  - rewrite (proj2 (summarize_click_calls_flow (fun _ => Resolved None)
                      silentTranscript eq_refl) eq_refl).
    vm_compute. reflexivity.
Defined.

End SummarizeTranscriptFlow.

(** ** The prompt-suggestion flow ([smartPromptSuggestions])

    [src/ai/flows/smart-prompt-suggestions.ts].  The model call is a
    parameter, and so are the messages of the errors with which Genkit
    rejects a flow whose input or result does not fit its schema. *)

Module SmartPromptSuggestions.

(** [output] of the model call: its [suggestedPrompts] may be missing. *)
Record PromptOutput : Type := { promptSuggestedPrompts : option (list string) }.

(** [SmartPromptSuggestionsOutput] *)
Record SmartPromptSuggestionsOutput : Type :=
  { suggestedPrompts : list string }.

Definition tooShortFallback : list string :=
  ["Provide a concise summary of the main topic."].
Definition noSuggestionsFallback : list string :=
  ["Summarize the key points."; "List any action items mentioned.";
   "What was the main topic discussed?"].
Definition errorFallback : list string :=
  ["Summarize the key points."; "List any action items mentioned."].

Section Flow.

(** [prompt(input)]: it throws, or it returns [{output}] where [output] may
    be [null]. *)
Variable prompt : string -> Completion (option PromptOutput).

(** The messages of the errors with which a flow defined by [ai.defineFlow]
    rejects: one for an input, one for a result that does not fit the
    schema. *)
Variable inputRejected : string -> string.
Variable outputRejected : SmartPromptSuggestionsOutput -> string.

(** [SmartPromptSuggestionsInputSchema]: a transcript of at least 10 code
    units. *)
Definition fitsInputSchema (transcript : string) : bool :=
  (10 <=? String.length transcript)%nat.

(** [SmartPromptSuggestionsOutputSchema]: between one and five prompts. *)
Definition fitsOutputSchema (output : SmartPromptSuggestionsOutput) : bool :=
  (1 <=? List.length (suggestedPrompts output))%nat
  && (List.length (suggestedPrompts output) <=? 5)%nat.

(** The function handed to [ai.defineFlow]: its [try] and [catch]. *)
Definition flowBody (transcript : string) : SmartPromptSuggestionsOutput :=
  match prompt transcript with
  | Return (Some output) =>
      match promptSuggestedPrompts output with
      | Some (p :: rest) => {| suggestedPrompts := p :: rest |}
      | _ => {| suggestedPrompts := noSuggestionsFallback |}
      end
  | Return None => {| suggestedPrompts := noSuggestionsFallback |}
  | Throw _ => {| suggestedPrompts := errorFallback |}
  end.

(** The flow as [ai.defineFlow] returns it: the input is checked against the
    input schema, the body runs, and its result is checked against the output
    schema, outside the body's [try]. *)
Definition smartPromptSuggestionsFlow (transcript : string)
  : Completion SmartPromptSuggestionsOutput :=
  if negb (fitsInputSchema transcript)
  then Throw (ErrorObject (inputRejected transcript))
  else
    let output := flowBody transcript in
    if fitsOutputSchema output then Return output
    else Throw (ErrorObject (outputRejected output)).

(** The exported wrapper. *)
Definition smartPromptSuggestions (transcript : string)
  : Completion SmartPromptSuggestionsOutput :=
  if negb (JS.truthy transcript)
     || (String.length (JS.trim transcript) <? 20)%nat
  then Return {| suggestedPrompts := tooShortFallback |}
  else smartPromptSuggestionsFlow transcript.

End Flow.

(** More prompts than the output schema allows, as the model call returned
    them. *)
Definition tooManyPrompts
  (outcome : Completion (option PromptOutput)) : bool :=
  match outcome with
  | Return (Some {| promptSuggestedPrompts := Some prompts |}) =>
      (5 <? List.length prompts)%nat
  | _ => false
  end.

Lemma flowBody_cases
  (prompt : string -> Completion (option PromptOutput)) (transcript : string) :
  if tooManyPrompts (prompt transcript)
  then exists prompts,
         prompt transcript
         = Return (Some {| promptSuggestedPrompts := Some prompts |})
         /\ flowBody prompt transcript = {| suggestedPrompts := prompts |}
         /\ (5 < List.length prompts)%nat
  else fitsOutputSchema (flowBody prompt transcript) = true.
Proof.
  unfold flowBody, tooManyPrompts, fitsOutputSchema.
  destruct (prompt transcript) as [[[[[|p rest]|]]|]|e]; try reflexivity.
  cbn [List.length suggestedPrompts].
  destruct (5 <? S (List.length rest))%nat eqn:E.
  - exists (p :: rest). repeat split. now apply Nat.ltb_lt in E.
  - apply Nat.ltb_ge in E. cbn [Nat.leb andb].
    now apply Nat.leb_le.
Qed.

(** The wrapper resolves with one to five prompts, unless the model call
    returned more than five: then the flow rejects. *)
Lemma smartPromptSuggestions_cases
  (prompt : string -> Completion (option PromptOutput))
  (inputRejected : string -> string)
  (outputRejected : SmartPromptSuggestionsOutput -> string)
  (transcript : string) :
  (20 <= String.length (JS.trim transcript))%nat ->
  (10 <= String.length transcript)%nat ->
  smartPromptSuggestions prompt inputRejected outputRejected transcript
  = if tooManyPrompts (prompt transcript)
    then Throw (ErrorObject (outputRejected (flowBody prompt transcript)))
    else Return (flowBody prompt transcript).
Proof.
  intros L20 L10. unfold smartPromptSuggestions, smartPromptSuggestionsFlow.
  assert (T : JS.truthy transcript = true)
    by (destruct transcript; [cbn in L10; lia | reflexivity]).
  rewrite T. cbn [negb orb].
  replace (String.length (JS.trim transcript) <? 20)%nat with false
    by (symmetry; apply Nat.ltb_ge; exact L20).
  unfold fitsInputSchema.
  replace (10 <=? String.length transcript)%nat with true
    by (symmetry; apply Nat.leb_le; exact L10).
  cbn [negb]. pose proof (flowBody_cases prompt transcript) as C.
  destruct (tooManyPrompts (prompt transcript)).
  - destruct C as (prompts & _ & E & L). unfold fitsOutputSchema.
    rewrite E at 1 2. cbn [suggestedPrompts].
    replace (List.length prompts <=? 5)%nat with false
      by (symmetry; apply Nat.leb_gt; exact L).
    now rewrite andb_false_r.
  - now rewrite C.
Qed.

End SmartPromptSuggestions.
(** ** The prompt panel ([PromptSuggestions])

    [src/components/prompt-suggestions.tsx]: the AI suggestions and the three
    custom prompts kept in [localStorage]. *)

Module PromptSuggestions.

Import Page.
Import SmartPromptSuggestions.

(** [CustomPromptEntry] *)
Record CustomPromptEntry : Type := { name : string; content : string }.

Definition MAX_CUSTOM_PROMPTS : nat := 3.

Definition emptyEntry : CustomPromptEntry := {| name := ""; content := "" |}.

(** [Array(MAX_CUSTOM_PROMPTS).fill({ name: '', content: '' })] *)
Definition initialEmptyPrompts : list CustomPromptEntry :=
  repeat emptyEntry MAX_CUSTOM_PROMPTS.

(** The item stored under [LOCAL_STORAGE_KEY], as the loading effect reads
    it: a text that [JSON.parse] rejects (or the empty text), a value that is
    not an array, or an array, each element of which either is an object with
    a string [name] and a string [content] or is something else. *)
Inductive StoredItem : Type :=
| Unparseable
| NotAnArray
| StoredArray (elements : list (option CustomPromptEntry)).

(** The component: its props, its state variables, and its surroundings (the
    notices issued, the storage and whether it accepts writes, the prompts
    handed to [onPromptSelect], the transcripts sent to
    [smartPromptSuggestions] and not yet answered). *)
Record t : Type :=
  { transcript : string;
    disabled : bool;
    aiSuggestions : list string;
    isLoadingAiSuggestions : bool;
    selectedAiPrompt : string;
    savedCustomPrompts : list CustomPromptEntry;
    currentCustomPromptEntries : list CustomPromptEntry;
    toasts : list Toast;
    storedItem : option StoredItem;
    storageWritable : bool;
    promptsSelected : list string;
    suggestionCalls : list string }.

Definition setTranscript (v : string) (c : t) : t :=
  {| transcript := v; disabled := disabled c;
     aiSuggestions := aiSuggestions c;
     isLoadingAiSuggestions := isLoadingAiSuggestions c;
     selectedAiPrompt := selectedAiPrompt c;
     savedCustomPrompts := savedCustomPrompts c;
     currentCustomPromptEntries := currentCustomPromptEntries c;
     toasts := toasts c; storedItem := storedItem c;
     storageWritable := storageWritable c;
     promptsSelected := promptsSelected c;
     suggestionCalls := suggestionCalls c |}.

Definition setAiSuggestions (v : list string) (c : t) : t :=
  {| transcript := transcript c; disabled := disabled c; aiSuggestions := v;
     isLoadingAiSuggestions := isLoadingAiSuggestions c;
     selectedAiPrompt := selectedAiPrompt c;
     savedCustomPrompts := savedCustomPrompts c;
     currentCustomPromptEntries := currentCustomPromptEntries c;
     toasts := toasts c; storedItem := storedItem c;
     storageWritable := storageWritable c;
     promptsSelected := promptsSelected c;
     suggestionCalls := suggestionCalls c |}.

Definition setIsLoadingAiSuggestions (v : bool) (c : t) : t :=
  {| transcript := transcript c; disabled := disabled c;
     aiSuggestions := aiSuggestions c; isLoadingAiSuggestions := v;
     selectedAiPrompt := selectedAiPrompt c;
     savedCustomPrompts := savedCustomPrompts c;
     currentCustomPromptEntries := currentCustomPromptEntries c;
     toasts := toasts c; storedItem := storedItem c;
     storageWritable := storageWritable c;
     promptsSelected := promptsSelected c;
     suggestionCalls := suggestionCalls c |}.

Definition setSelectedAiPrompt (v : string) (c : t) : t :=
  {| transcript := transcript c; disabled := disabled c;
     aiSuggestions := aiSuggestions c;
     isLoadingAiSuggestions := isLoadingAiSuggestions c;
     selectedAiPrompt := v; savedCustomPrompts := savedCustomPrompts c;
     currentCustomPromptEntries := currentCustomPromptEntries c;
     toasts := toasts c; storedItem := storedItem c;
     storageWritable := storageWritable c;
     promptsSelected := promptsSelected c;
     suggestionCalls := suggestionCalls c |}.

Definition setSavedCustomPrompts (v : list CustomPromptEntry) (c : t) : t :=
  {| transcript := transcript c; disabled := disabled c;
     aiSuggestions := aiSuggestions c;
     isLoadingAiSuggestions := isLoadingAiSuggestions c;
     selectedAiPrompt := selectedAiPrompt c; savedCustomPrompts := v;
     currentCustomPromptEntries := currentCustomPromptEntries c;
     toasts := toasts c; storedItem := storedItem c;
     storageWritable := storageWritable c;
     promptsSelected := promptsSelected c;
     suggestionCalls := suggestionCalls c |}.

Definition setCurrentCustomPromptEntries (v : list CustomPromptEntry) (c : t) : t :=
  {| transcript := transcript c; disabled := disabled c;
     aiSuggestions := aiSuggestions c;
     isLoadingAiSuggestions := isLoadingAiSuggestions c;
     selectedAiPrompt := selectedAiPrompt c;
     savedCustomPrompts := savedCustomPrompts c;
     currentCustomPromptEntries := v; toasts := toasts c;
     storedItem := storedItem c; storageWritable := storageWritable c;
     promptsSelected := promptsSelected c;
     suggestionCalls := suggestionCalls c |}.

Definition setToasts (v : list Toast) (c : t) : t :=
  {| transcript := transcript c; disabled := disabled c;
     aiSuggestions := aiSuggestions c;
     isLoadingAiSuggestions := isLoadingAiSuggestions c;
     selectedAiPrompt := selectedAiPrompt c;
     savedCustomPrompts := savedCustomPrompts c;
     currentCustomPromptEntries := currentCustomPromptEntries c; toasts := v;
     storedItem := storedItem c; storageWritable := storageWritable c;
     promptsSelected := promptsSelected c;
     suggestionCalls := suggestionCalls c |}.

Definition setStoredItem (v : option StoredItem) (c : t) : t :=
  {| transcript := transcript c; disabled := disabled c;
     aiSuggestions := aiSuggestions c;
     isLoadingAiSuggestions := isLoadingAiSuggestions c;
     selectedAiPrompt := selectedAiPrompt c;
     savedCustomPrompts := savedCustomPrompts c;
     currentCustomPromptEntries := currentCustomPromptEntries c;
     toasts := toasts c; storedItem := v;
     storageWritable := storageWritable c;
     promptsSelected := promptsSelected c;
     suggestionCalls := suggestionCalls c |}.

Definition setPromptsSelected (v : list string) (c : t) : t :=
  {| transcript := transcript c; disabled := disabled c;
     aiSuggestions := aiSuggestions c;
     isLoadingAiSuggestions := isLoadingAiSuggestions c;
     selectedAiPrompt := selectedAiPrompt c;
     savedCustomPrompts := savedCustomPrompts c;
     currentCustomPromptEntries := currentCustomPromptEntries c;
     toasts := toasts c; storedItem := storedItem c;
     storageWritable := storageWritable c; promptsSelected := v;
     suggestionCalls := suggestionCalls c |}.

Definition setSuggestionCalls (v : list string) (c : t) : t :=
  {| transcript := transcript c; disabled := disabled c;
     aiSuggestions := aiSuggestions c;
     isLoadingAiSuggestions := isLoadingAiSuggestions c;
     selectedAiPrompt := selectedAiPrompt c;
     savedCustomPrompts := savedCustomPrompts c;
     currentCustomPromptEntries := currentCustomPromptEntries c;
     toasts := toasts c; storedItem := storedItem c;
     storageWritable := storageWritable c;
     promptsSelected := promptsSelected c; suggestionCalls := v |}.

Definition toast (x : Toast) (c : t) : t := setToasts (toasts c ++ [x]) c.

Definition onPromptSelect (prompt : string) (c : t) : t :=
  setPromptsSelected (promptsSelected c ++ [prompt]) c.

(** [localStorage.setItem(LOCAL_STORAGE_KEY, JSON.stringify(prompts))]:
    [None] when the storage throws. *)
Definition setItem (prompts : list CustomPromptEntry) (c : t) : option t :=
  if storageWritable c
  then Some (setStoredItem (Some (StoredArray (map Some prompts))) c)
  else None.

(** The test of the loading effect: an array of [MAX_CUSTOM_PROMPTS]
    elements, every one an entry. *)
Fixpoint allEntries (elements : list (option CustomPromptEntry))
  : option (list CustomPromptEntry) :=
  match elements with
  | [] => Some []
  | Some entry :: rest =>
      match allEntries rest with
      | Some entries => Some (entry :: entries)
      | None => None
      end
  | None :: _ => None
  end.

Definition parsedPrompts (item : StoredItem) : option (list CustomPromptEntry) :=
  match item with
  | StoredArray elements =>
      if (List.length elements =? MAX_CUSTOM_PROMPTS)%nat
      then allEntries elements else None
  | _ => None
  end.

(** The loading effect, run once on mount.  Whenever the item is missing,
    malformed or unparseable, both lists are set to the empty prompts and
    these are written back; the effect throws ([None]) when that write is
    refused. *)
Definition useEffect_load (c : t) : option t :=
  let initialise (c : t) :=
    c |> setSavedCustomPrompts initialEmptyPrompts
      |> setCurrentCustomPromptEntries initialEmptyPrompts
      |> setItem initialEmptyPrompts in
  match storedItem c with
  | Some item =>
      match parsedPrompts item with
      | Some prompts =>
          Some (c |> setSavedCustomPrompts prompts
                  |> setCurrentCustomPromptEntries prompts)
      | None => initialise c
      end
  | None => initialise c
  end.

(** [useEffect(..., [transcript])] *)
Definition useEffect_transcript (c : t) : t :=
  c |> setAiSuggestions [] |> setSelectedAiPrompt "".

Definition tooShortToast : Toast :=
  {| title := "Transcript Too Short";
     description :=
       Some "Provide a transcript with at least 50 characters for relevant AI suggestions.";
     variant := Some default; duration := None |}.

Definition readyToast : Toast :=
  {| title := "AI Suggestions Ready";
     description := Some "Select an AI-suggested prompt from the dropdown.";
     variant := None; duration := None |}.

Definition noSuggestionsToast : Toast :=
  {| title := "No AI Suggestions Generated";
     description :=
       Some "The AI couldn't generate specific suggestions for this transcript.";
     variant := Some default; duration := None |}.

(** [handleSuggestPrompts] up to its [await]. *)
Definition handleSuggestPrompts_start (c : t) : t :=
  let trimmedTranscript := JS.trim (transcript c) in
  if negb (JS.truthy trimmedTranscript)
     || (String.length trimmedTranscript <? 50)%nat
  then toast tooShortToast c
  else
    c |> setIsLoadingAiSuggestions true
      |> setAiSuggestions []
      |> setSelectedAiPrompt ""
      |> (fun c => setSuggestionCalls (suggestionCalls c ++ [trimmedTranscript]) c).

(** [handleSuggestPrompts] from the moment the call settles. *)
Definition handleSuggestPrompts_settled
  (outcome : Completion (option SmartPromptSuggestionsOutput)) (c : t) : t :=
  let c :=
    match outcome with
    | Return (Some {| suggestedPrompts := p :: rest |}) =>
        c |> setAiSuggestions (p :: rest) |> toast readyToast
    | Return _ => c |> setAiSuggestions [] |> toast noSuggestionsToast
    | Throw error =>
        c |> setAiSuggestions []
          |> toast {| title := "AI Suggestion Error";
                      description :=
                        Some (messageOr error
                                "Failed to fetch AI prompt suggestions.");
                      variant := Some destructive; duration := None |}
    end in
  setIsLoadingAiSuggestions false c.

Definition handleAiPromptValueChange (value : string) (c : t) : t :=
  if String.eqb value "placeholder" then setSelectedAiPrompt value c
  else c |> setSelectedAiPrompt value |> onPromptSelect value.

(** [l[index] = v] on a copy of [l], for an [index] inside the list. *)
Fixpoint assign {A : Type} (index : nat) (v : A) (l : list A) : list A :=
  match l, index with
  | [], _ => []
  | _ :: rest, O => v :: rest
  | x :: rest, S i => x :: assign i v rest
  end.

Inductive Field : Type := name_ | content_.

(** In the three handlers below the result is [None] for an [index] outside
    the lists; the component only passes the indices of the slots it
    renders. *)
Definition handleCustomPromptEntryChange (index : nat) (field : Field)
  (value : string) (c : t) : option t :=
  match nth_error (currentCustomPromptEntries c) index with
  | Some entry =>
      let entry :=
        match field with
        | name_ => {| name := value; content := content entry |}
        | content_ => {| name := name entry; content := value |}
        end in
      Some (setCurrentCustomPromptEntries
              (assign index entry (currentCustomPromptEntries c)) c)
  | None => None
  end.

(** [`${index + 1}`] *)
Definition slotNumber (index : nat) : string :=
  NilEmpty.string_of_uint (Nat.to_uint (index + 1)).

(** [entry.name || `Slot ${index + 1}`] *)
Definition displayName (entry : CustomPromptEntry) (index : nat) : string :=
  if JS.truthy (name entry) then name entry else "Slot " ++ slotNumber index.

Definition savedToast (entry : CustomPromptEntry) (index : nat) : Toast :=
  {| title := "Custom Prompt '" ++ displayName entry index ++ "' Saved";
     description := Some "Your prompt and its name have been saved locally.";
     variant := None; duration := None |}.

Definition saveErrorToast : Toast :=
  {| title := "Save Error";
     description := Some "Could not save custom prompt to local storage.";
     variant := Some destructive; duration := None |}.

Definition handleSaveCustomPrompt (index : nat) (c : t) : option t :=
  match nth_error (currentCustomPromptEntries c) index,
        nth_error (savedCustomPrompts c) index with
  | Some entry, Some _ =>
      let newSavedPrompts := assign index entry (savedCustomPrompts c) in
      let c := setSavedCustomPrompts newSavedPrompts c in
      match setItem newSavedPrompts c with
      | Some c => Some (toast (savedToast entry index) c)
      | None => Some (toast saveErrorToast c)
      end
  | _, _ => None
  end.

Definition handleUseCustomPrompt (index : nat) (c : t) : option t :=
  match nth_error (currentCustomPromptEntries c) index with
  | Some entry =>
      if JS.truthy (JS.trim (content entry)) then
        Some (c |> onPromptSelect (content entry)
                |> toast {| title := "Custom Prompt '" ++ displayName entry index
                                     ++ "' Applied";
                            description :=
                              Some "The prompt has been set for summarization.";
                            variant := None; duration := None |})
      else
        Some (toast {| title := "Empty Prompt Content";
                       description :=
                         Some "Cannot use a prompt with empty content.";
                       variant := Some default; duration := None |} c)
  | None => None
  end.

(** *** What the render derives *)

Definition canSuggestAi (c : t) : bool :=
  negb (isLoadingAiSuggestions c) && negb (disabled c)
  && JS.truthy (transcript c)
  && (50 <=? String.length (JS.trim (transcript c)))%nat.

(** [list[index] || { name: '', content: '' }] *)
Definition entryAt (l : list CustomPromptEntry) (index : nat)
  : CustomPromptEntry :=
  match nth_error l index with Some entry => entry | None => emptyEntry end.

Definition hasUnsavedChanges (index : nat) (c : t) : bool :=
  let currentEntry := entryAt (currentCustomPromptEntries c) index in
  let savedEntry := entryAt (savedCustomPrompts c) index in
  negb (String.eqb (name currentEntry) (name savedEntry))
  || negb (String.eqb (content currentEntry) (content savedEntry)).

(** The component as first rendered over a given storage. *)
Definition mount (transcript : string) (disabled : bool)
  (storedItem : option StoredItem) (storageWritable : bool) : t :=
  {| transcript := transcript; disabled := disabled; aiSuggestions := [];
     isLoadingAiSuggestions := false; selectedAiPrompt := "";
     savedCustomPrompts := initialEmptyPrompts;
     currentCustomPromptEntries := initialEmptyPrompts; toasts := [];
     storedItem := storedItem; storageWritable := storageWritable;
     promptsSelected := []; suggestionCalls := [] |}.

(** Both lists hold one entry per slot. *)
Definition threeSlots (c : t) : Prop :=
  List.length (savedCustomPrompts c) = MAX_CUSTOM_PROMPTS
  /\ List.length (currentCustomPromptEntries c) = MAX_CUSTOM_PROMPTS.

(** *** Properties of the prompt panel *)

Lemma assign_length {A : Type} (index : nat) (v : A) (l : list A) :
  List.length (assign index v l) = List.length l.
Proof.
  revert index. induction l as [|x l IH]; intros [|i]; cbn; auto.
Qed.

Lemma assign_same {A : Type} (index : nat) (v : A) (l : list A) :
  (index < List.length l)%nat -> nth_error (assign index v l) index = Some v.
Proof.
  revert index. induction l as [|x l IH]; intros [|i] H; cbn in *;
    try lia; [reflexivity | apply IH; lia].
Qed.

Lemma assign_other {A : Type} (index j : nat) (v : A) (l : list A) :
  j <> index -> nth_error (assign index v l) j = nth_error l j.
Proof.
  revert index j. induction l as [|x l IH]; intros [|i] [|j] H; cbn;
    try reflexivity; try congruence.
  apply IH. congruence.
Qed.

Lemma allEntries_map (l : list CustomPromptEntry) :
  allEntries (map Some l) = Some l.
Proof. induction l as [|x l IH]; cbn; [reflexivity | now rewrite IH]. Qed.

Lemma allEntries_length (elements : list (option CustomPromptEntry))
  (l : list CustomPromptEntry) :
  allEntries elements = Some l -> List.length l = List.length elements.
Proof.
  revert l. induction elements as [|[e|] rest IH]; intros l H; cbn in H.
  - now injection H as <-.
  - destruct (allEntries rest) as [entries|]; [|discriminate H].
    injection H as <-. cbn. now rewrite (IH entries).
  - discriminate H.
Qed.

Lemma hasUnsavedChanges_same (index : nat) (c : t) :
  entryAt (currentCustomPromptEntries c) index
  = entryAt (savedCustomPrompts c) index ->
  hasUnsavedChanges index c = false.
Proof.
  intro H. unfold hasUnsavedChanges. rewrite H.
  now rewrite !String.eqb_refl.
Qed.

(** A mount over a storage that holds [prompts], three of them. *)
Lemma useEffect_load_stored (prompts : list CustomPromptEntry) (c : t) :
  storedItem c = Some (StoredArray (map Some prompts)) ->
  List.length prompts = MAX_CUSTOM_PROMPTS ->
  useEffect_load c
  = Some (c |> setSavedCustomPrompts prompts
            |> setCurrentCustomPromptEntries prompts).
Proof.
  intros H L. unfold useEffect_load. rewrite H. cbn [parsedPrompts].
  rewrite length_map, L, Nat.eqb_refl, allEntries_map. reflexivity.
Qed.

(** X13.  Saving a slot and reloading.  With one entry per slot and a
    storage that accepts the write, [handleSaveCustomPrompt(index)] copies the
    edited entry of that slot into the saved list (the other slots and the
    edited list stay as they are), the slot no longer counts as changed, and
    a component mounted later over the same storage loads exactly the saved
    list, as its saved and as its edited entries.  When the storage refuses
    the write, the saved list is updated all the same and the slot no longer
    counts as changed, but the storage keeps its old item and the notice is
    the destructive "Save Error". *)
Theorem saved_prompt_survives_reload (index : nat) (c : t) :
  threeSlots c -> (index < MAX_CUSTOM_PROMPTS)%nat ->
  exists c',
    handleSaveCustomPrompt index c = Some c'
    /\ threeSlots c'
    /\ entryAt (savedCustomPrompts c') index
       = entryAt (currentCustomPromptEntries c) index
    /\ (forall j, j <> index ->
          entryAt (savedCustomPrompts c') j = entryAt (savedCustomPrompts c) j)
    /\ currentCustomPromptEntries c' = currentCustomPromptEntries c
    /\ hasUnsavedChanges index c' = false
    /\ (storageWritable c = true ->
        forall transcript disabled,
          exists m,
            useEffect_load
              (mount transcript disabled (storedItem c') (storageWritable c'))
            = Some m
            /\ savedCustomPrompts m = savedCustomPrompts c'
            /\ currentCustomPromptEntries m = savedCustomPrompts c'
            /\ storedItem m = storedItem c')
    /\ (storageWritable c = false ->
        storedItem c' = storedItem c
        /\ toasts c' = (toasts c ++ [saveErrorToast])%list
        /\ isDestructive saveErrorToast = true).
Proof.
  intros [Ls Lc] Hi. unfold handleSaveCustomPrompt.
  destruct (nth_error (currentCustomPromptEntries c) index) as [entry|] eqn:E.
  2: { apply nth_error_None in E. lia. }
  destruct (nth_error (savedCustomPrompts c) index) as [old|] eqn:O.
  2: { apply nth_error_None in O. lia. }
  cbv zeta. unfold setItem. cbn [storageWritable setSavedCustomPrompts].
  set (saved' := assign index entry (savedCustomPrompts c)).
  assert (L' : List.length saved' = MAX_CUSTOM_PROMPTS)
    by (unfold saved'; now rewrite assign_length).
  assert (S1 : entryAt saved' index
               = entryAt (currentCustomPromptEntries c) index).
  { unfold entryAt, saved'. rewrite assign_same by lia. now rewrite E. }
  assert (S2 : forall j, j <> index ->
                 entryAt saved' j = entryAt (savedCustomPrompts c) j).
  { intros j Hj. unfold entryAt, saved'. now rewrite assign_other. }
  destruct (storageWritable c) eqn:W; eexists; (split; [reflexivity|]);
    cbn; (split; [split; assumption|]); (split; [exact S1|]);
    (split; [exact S2|]); (split; [reflexivity|]);
    (split; [apply hasUnsavedChanges_same; cbn; now rewrite S1|]).
  - split; [|discriminate]. intros _ tr dis.
    rewrite length_map, L', allEntries_map. cbn.
    eexists. split; [reflexivity|]. cbn. auto.
  - split; [discriminate|]. intros _.
    repeat split.
Qed.

(** The theorem at work: slot 1 edited on a fresh component, then saved. *)
Definition decisions : CustomPromptEntry :=
  {| name := "Decisions"; content := "List the decisions that were taken." |}.

Definition slotEdited : t :=
  setCurrentCustomPromptEntries [decisions; emptyEntry; emptyEntry]
    (mount "" false None true).

Lemma saved_prompt_survives_reload_witness :
  exists c',
    handleSaveCustomPrompt 0 slotEdited = Some c'
    /\ entryAt (savedCustomPrompts c') 0 = decisions.
Proof.
  destruct (saved_prompt_survives_reload 0 slotEdited) as (c' & H & _ & S & _).
  - split; reflexivity.
  - unfold MAX_CUSTOM_PROMPTS. lia.
  - exists c'. split; [exact H | exact S].
Defined.

(** X14.  The panel keeps one entry per slot.  The loading effect, when it
    does not throw, leaves three saved entries and the same three as edited
    entries, whatever the storage held.  From then on an edit of a slot
    changes that field of that slot's edited entry and nothing else: not the
    other slots, not the saved list, not the storage.  "Use this prompt"
    hands the content of the slot to [onPromptSelect] exactly when the
    content has a character other than white space. *)
Theorem custom_prompt_slots (c : t) :
  (forall c', useEffect_load c = Some c' ->
     threeSlots c'
     /\ currentCustomPromptEntries c' = savedCustomPrompts c')
  /\ (threeSlots c ->
      forall index field value, (index < MAX_CUSTOM_PROMPTS)%nat ->
      exists c',
        handleCustomPromptEntryChange index field value c = Some c'
        /\ threeSlots c'
        /\ savedCustomPrompts c' = savedCustomPrompts c
        /\ storedItem c' = storedItem c
        /\ promptsSelected c' = promptsSelected c
        /\ entryAt (currentCustomPromptEntries c') index
           = match field with
             | name_ =>
                 {| name := value;
                    content :=
                      content (entryAt (currentCustomPromptEntries c) index) |}
             | content_ =>
                 {| name := name (entryAt (currentCustomPromptEntries c) index);
                    content := value |}
             end
        /\ forall j, j <> index ->
             entryAt (currentCustomPromptEntries c') j
             = entryAt (currentCustomPromptEntries c) j)
  /\ (threeSlots c ->
      forall index, (index < MAX_CUSTOM_PROMPTS)%nat ->
      exists c',
        handleUseCustomPrompt index c = Some c'
        /\ threeSlots c'
        /\ promptsSelected c'
           = if JS.onlyWhiteSpace
                  (content (entryAt (currentCustomPromptEntries c) index))
             then promptsSelected c
             else (promptsSelected c
                   ++ [content (entryAt (currentCustomPromptEntries c) index)])%list).
Proof.
  split; [|split].
  - intros c' H. unfold useEffect_load, setItem in H.
    assert (I : (if storageWritable
                      (setCurrentCustomPromptEntries initialEmptyPrompts
                         (setSavedCustomPrompts initialEmptyPrompts c))
                 then Some (setStoredItem
                              (Some (StoredArray (map Some initialEmptyPrompts)))
                              (setCurrentCustomPromptEntries initialEmptyPrompts
                                 (setSavedCustomPrompts initialEmptyPrompts c)))
                 else None) = Some c' ->
                threeSlots c'
                /\ currentCustomPromptEntries c' = savedCustomPrompts c').
    { cbn. destruct (storageWritable c); [|discriminate].
      intros [= <-]. repeat split. }
    destruct (storedItem c) as [item|]; [|now apply I].
    destruct (parsedPrompts item) as [prompts|] eqn:P; [|now apply I].
    injection H as <-. cbn. split; [|reflexivity].
    unfold parsedPrompts in P. destruct item as [ | |elements]; try discriminate P.
    destruct (Nat.eqb_spec (List.length elements) MAX_CUSTOM_PROMPTS) as [L|];
      [|discriminate P].
    apply allEntries_length in P. split; cbn; congruence.
  - intros [Ls Lc] index field value Hi. unfold handleCustomPromptEntryChange.
    destruct (nth_error (currentCustomPromptEntries c) index) as [entry|] eqn:E.
    2: { apply nth_error_None in E. lia. }
    eexists. split; [reflexivity|]. unfold threeSlots.
    cbn [currentCustomPromptEntries savedCustomPrompts storedItem
         promptsSelected setCurrentCustomPromptEntries].
    split; [split; [exact Ls | now rewrite assign_length]|].
    repeat (split; [reflexivity|]).
    split.
    + unfold entryAt. rewrite assign_same by lia. rewrite E.
      destruct field; reflexivity.
    + intros j Hj. unfold entryAt. now rewrite assign_other.
  - intros [Ls Lc] index Hi. unfold handleUseCustomPrompt, entryAt.
    destruct (nth_error (currentCustomPromptEntries c) index) as [entry|] eqn:E.
    2: { apply nth_error_None in E. lia. }
    rewrite JS.truthy_trim.
    destruct (JS.onlyWhiteSpace (content entry)); eexists;
      (split; [reflexivity|]); cbn; (split; [split; assumption | reflexivity]).
Qed.

(** The theorem at work: the content of slot 2 is typed on a fresh
    component. *)
Lemma custom_prompt_slots_witness :
  exists c',
    handleCustomPromptEntryChange 1 content_ "Three bullet points."
      (mount "" false None true) = Some c'
    /\ entryAt (currentCustomPromptEntries c') 1
       = {| name := ""; content := "Three bullet points." |}.
Proof.
  destruct (proj1 (proj2 (custom_prompt_slots (mount "" false None true)))
              (conj eq_refl eq_refl) 1%nat content_ "Three bullet points.")
    as (c' & H & _ & _ & _ & _ & S & _).
  - unfold MAX_CUSTOM_PROMPTS. lia.
  - exists c'. split; [exact H | exact S].
Defined.

Lemma trimmed_long (s : string) :
  (50 <=? String.length (JS.trim s))%nat = true ->
  negb (JS.truthy (JS.trim s)) || (String.length (JS.trim s) <? 50)%nat = false.
Proof.
  intro H. apply Nat.leb_le in H.
  destruct (JS.trim s) as [|a r]; [cbn in H; lia|]. cbn [JS.truthy negb orb].
  apply Nat.ltb_ge. exact H.
Qed.

(** What [await smartPromptSuggestions(...)] hands to the rest of
    [handleSuggestPrompts]. *)
Definition awaited (answer : Completion SmartPromptSuggestionsOutput)
  : Completion (option SmartPromptSuggestionsOutput) :=
  match answer with
  | Return result => Return (Some result)
  | Throw error => Throw error
  end.

Definition suggestionErrorToast (message : string) : Toast :=
  {| title := "AI Suggestion Error";
     description :=
       Some (if JS.truthy message then message
             else "Failed to fetch AI prompt suggestions.");
     variant := Some destructive; duration := None |}.

(** X15.  When the "Suggest with AI" button reacts, the click marks the
    panel as loading (so the button stops reacting) and sends the trimmed
    transcript, which has at least 50 characters, so that
    [smartPromptSuggestions] runs its flow on it and the input schema accepts
    it.  Unless the model call returned more than five prompts, the call
    resolves with between one and five prompts (the model's, or a fallback
    when the model call threw or returned none), and the panel ends up with
    exactly these as its suggestions, not loading, with the "AI Suggestions
    Ready" notice.  When the model call returned more than five prompts, the
    output schema of the flow rejects them: the call rejects, and the panel
    ends up without suggestions, not loading, with the destructive "AI
    Suggestion Error" notice carrying the error's message (or the default
    text when that message is empty). *)
Theorem suggestions_arrive_or_fail
  (prompt : string -> Completion (option PromptOutput))
  (inputRejected : string -> string)
  (outputRejected : SmartPromptSuggestionsOutput -> string) (c : t) :
  canSuggestAi c = true ->
  let sent := JS.trim (transcript c) in
  let c1 := handleSuggestPrompts_start c in
  let answer := smartPromptSuggestions prompt inputRejected outputRejected sent in
  let c2 := handleSuggestPrompts_settled (awaited answer) c1 in
  (50 <= String.length sent)%nat
  /\ isLoadingAiSuggestions c1 = true
  /\ canSuggestAi c1 = false
  /\ suggestionCalls c1 = (suggestionCalls c ++ [sent])%list
  /\ isLoadingAiSuggestions c2 = false
  /\ if tooManyPrompts (prompt sent)
     then exists prompts,
            prompt sent
            = Return (Some {| promptSuggestedPrompts := Some prompts |})
            /\ answer
               = Throw (ErrorObject
                          (outputRejected {| suggestedPrompts := prompts |}))
            /\ aiSuggestions c2 = []
            /\ toasts c2
               = (toasts c
                  ++ [suggestionErrorToast
                        (outputRejected {| suggestedPrompts := prompts |})])%list
     else exists p rest,
            answer = Return {| suggestedPrompts := p :: rest |}
            /\ (List.length (p :: rest) <= 5)%nat
            /\ (p :: rest
                = match prompt sent with
                  | Return (Some {| promptSuggestedPrompts :=
                                      Some (q :: more) |}) => q :: more
                  | Return _ => noSuggestionsFallback
                  | Throw _ => errorFallback
                  end)
            /\ aiSuggestions c2 = p :: rest
            /\ toasts c2 = (toasts c ++ [readyToast])%list.
Proof.
  intro H. unfold canSuggestAi in H.
  rewrite !andb_true_iff in H. destruct H as [[[_ _] _] L].
  cbv zeta. unfold handleSuggestPrompts_start.
  rewrite (trimmed_long _ L). apply Nat.leb_le in L.
  split; [exact L|].
  split; [reflexivity|]. split; [cbn; reflexivity|]. split; [reflexivity|].
  split; [reflexivity|].
  rewrite smartPromptSuggestions_cases
    by (rewrite ?JS.trim_idem; lia).
  pose proof (flowBody_cases prompt (JS.trim (transcript c))) as C.
  destruct (tooManyPrompts (prompt (JS.trim (transcript c)))) eqn:T.
  - destruct C as (prompts & P & B & _). exists prompts. rewrite B.
    split; [exact P|]. split; [reflexivity|]. split; reflexivity.
  - unfold flowBody in *. unfold fitsOutputSchema in C.
    destruct (prompt (JS.trim (transcript c))) as [[[[[|q more]|]]|]|e];
      cbn [suggestedPrompts] in C.
    all: eexists; eexists; split; [reflexivity|].
    all: split; [first [ apply andb_true_iff in C; destruct C as [_ C];
                         apply Nat.leb_le in C; exact C
                       | cbn; lia ]|].
    all: repeat split.
Qed.

(** The theorem at work: a model call that throws leaves the panel with the
    two fallback prompts, and one that returns six prompts leaves it with the
    error notice. *)
Definition longTranscript : string :=
  "We agreed to ship the release on Friday and to review the open issues on Monday.".

Definition sixPrompts : list string := ["a"; "b"; "c"; "d"; "e"; "f"].

Lemma suggestions_arrive_or_fail_witness :
  (let c2 :=
     handleSuggestPrompts_settled
       (awaited (smartPromptSuggestions (fun _ => Throw OtherValue)
                   (fun _ => "bad input") (fun _ => "bad output")
                   longTranscript))
       (handleSuggestPrompts_start (mount longTranscript false None true)) in
   aiSuggestions c2 = errorFallback
   /\ toasts c2 = [readyToast])
  /\ (let c2 :=
        handleSuggestPrompts_settled
          (awaited (smartPromptSuggestions
                      (fun _ => Return (Some {| promptSuggestedPrompts :=
                                                  Some sixPrompts |}))
                      (fun _ => "bad input") (fun _ => "bad output")
                      longTranscript))
          (handleSuggestPrompts_start (mount longTranscript false None true)) in
      aiSuggestions c2 = []
      /\ toasts c2 = [suggestionErrorToast "bad output"]).
Proof.
  split.
  - pose proof (suggestions_arrive_or_fail (fun _ => Throw OtherValue)
                  (fun _ => "bad input") (fun _ => "bad output")
                  (mount longTranscript false None true) eq_refl) as H.
    vm_compute in H. destruct H as (_ & _ & _ & _ & _ & p & rest & _ & _ & E & A & T).
    vm_compute. split; [rewrite E in A; exact A | exact T].
  - pose proof (suggestions_arrive_or_fail
                  (fun _ => Return (Some {| promptSuggestedPrompts :=
                                              Some sixPrompts |}))
                  (fun _ => "bad input") (fun _ => "bad output")
                  (mount longTranscript false None true) eq_refl) as H.
    vm_compute in H. destruct H as (_ & _ & _ & _ & _ & prompts & P & _ & A & T).
    injection P as <-. vm_compute. split; [exact A | exact T].
Defined.

End PromptSuggestions.

(** ** Formatting ([formatTime])

    [src/lib/formatters.ts].  [formatTime] is what the player shows beside
    its slider.  Its argument is any JavaScript number, so the model works on
    the kernel's binary64 numbers: the division is the rounded one, [floor]
    and [%] are exact. *)

Module Formatters.

#[local] Open Scope float_scope.

(** [isNaN(x)] and [isFinite(x)] *)
Definition isNaN (x : float) : bool :=
  match Prim2SF x with
  | S754_nan => true
  | _ => false
  end.

Definition isFinite (x : float) : bool :=
  match Prim2SF x with
  | S754_zero _ | S754_finite _ _ _ => true
  | _ => false
  end.

(** The number [n] as a binary64 value. *)
Definition ofZ (n : Z) : float := Double.ofQ (inject_Z n).

(** The greatest integer that is not above [(-1)^s * m * 2^e]. *)
Definition wholePart (s : bool) (m : positive) (e : Z) : Z :=
  let z := if s then Zneg m else Zpos m in
  if (0 <=? e)%Z then (z * 2 ^ e)%Z else (z / 2 ^ (- e))%Z.

(** [Math.floor(x)]: a number without a fractional part is its own floor
    (that includes the zeros, the infinities and [NaN]). *)
Definition floor (x : float) : float :=
  match Prim2SF x with
  | S754_finite s m e => if (0 <=? e)%Z then x else ofZ (wholePart s m e)
  | _ => x
  end.

(** [a % b]: the remainder of the division that truncates, which is exact
    and has the sign of [a]. *)
Definition remainder (a b : float) : float :=
  match Prim2SF a, Prim2SF b with
  | S754_nan, _ | _, S754_nan | S754_infinity _, _ | _, S754_zero _ =>
      PrimFloat.nan
  | S754_zero _, _ | _, S754_infinity _ => a
  | S754_finite sa ma ea, S754_finite _ mb eb =>
      let e := Z.min ea eb in
      let r := Z.rem (Zpos ma * 2 ^ (ea - e)) (Zpos mb * 2 ^ (eb - e)) in
      if (r =? 0)%Z then (if sa then PrimFloat.neg_zero else PrimFloat.zero)
      else
        let z := if sa then (- r)%Z else r in
        Double.ofQ (if (0 <=? e)%Z then inject_Z (z * 2 ^ e)
                    else Qmake z (Z.to_pos (2 ^ (- e))))
  end.

(** The decimal numeral of a non-negative integer. *)
Definition decimal (n : Z) : string :=
  NilEmpty.string_of_uint (N.to_uint (Z.to_N n)).

(** [s.padStart(targetLength, '0')] *)
Definition padStart (targetLength : nat) (s : string) : string :=
  JS.join "" (repeat "0" (targetLength - String.length s)) ++ s.

Section Format.

(** What [String(x)] is for a number that is not an integer of magnitude
    below 2^53: the shortest digits that read back as [x] (a choice the
    language leaves in part to the engine), in exponent notation from 10^21
    on.  An integer below 2^53 prints as its decimal numeral. *)
Variable numeral : float -> string.

(** [String(x)] *)
Definition stringOfNumber (x : float) : string :=
  match Prim2SF x with
  | S754_nan => "NaN"
  | S754_infinity false => "Infinity"
  | S754_infinity true => "-Infinity"
  | S754_zero _ => "0"
  | S754_finite s m e =>
      let magnitude := wholePart false m e in
      if ((0 <=? e)%Z || (Zpos m mod 2 ^ (- e) =? 0)%Z)
         && (magnitude <? 2 ^ 53)%Z
      then (if s then "-" else "") ++ decimal magnitude
      else numeral x
  end%string.

(** [formatTime] from [Math.floor(seconds)] on. *)
Definition formatWhole (totalSeconds : float) : string :=
  let minutes := floor (totalSeconds / 60) in
  let remainingSeconds := remainder totalSeconds 60 in
  let formattedMinutes := padStart 2 (stringOfNumber minutes) in
  let formattedSeconds := padStart 2 (stringOfNumber remainingSeconds) in
  (formattedMinutes ++ ":" ++ formattedSeconds)%string.

Definition formatTime (seconds : float) : string :=
  if isNaN seconds || negb (isFinite seconds) || (seconds <? 0)
  then "00:00"%string
  else formatWhole (floor seconds).

End Format.

#[local] Set Warnings "-inexact-float".

Example floor_examples :
  floor 95.5 = 95 /\ floor (-0.5) = (-1) /\ floor 0.9999999999999999 = 0
  /\ floor 1e300 = 1e300 /\ floor 4503599627370495.5 = 4503599627370495
  /\ Prim2SF (floor (-0)) = S754_zero true.
Proof. vm_compute. repeat split. Qed.

Example remainder_examples :
  remainder 95 60 = 35 /\ remainder (-95) 60 = (-35) /\ remainder 5.5 2 = 1.5
  /\ remainder 1e300 60 = 0 /\ remainder 7 PrimFloat.infinity = 7
  /\ Prim2SF (remainder 120 60) = S754_zero false.
Proof. vm_compute. repeat split. Qed.

Example formatTime_examples (numeral : float -> string) :
  formatTime numeral 95.5 = "01:35"%string
  /\ formatTime numeral 6000 = "100:00"%string
  /\ formatTime numeral PrimFloat.nan = "00:00"%string
  /\ formatTime numeral PrimFloat.infinity = "00:00"%string
  /\ formatTime numeral (-3) = "00:00"%string
  /\ formatTime numeral 1e21
     = (padStart 2 (numeral 16666666666666665984) ++ ":40")%string.
Proof. repeat split. Qed.


(** *** Properties of [formatTime] *)

(** [p] holds of [count] integers from [start] on. *)
Fixpoint holdsFrom (p : Z -> bool) (start : Z) (count : nat) : bool :=
  match count with
  | O => true
  | S c => p start && holdsFrom p (start + 1) c
  end.

Lemma holdsFrom_spec (p : Z -> bool) (count : nat) :
  forall start, holdsFrom p start count = true ->
  forall k, (start <= k < start + Z.of_nat count)%Z -> p k = true.
Proof.
  induction count as [|c IH]; intros start H k Hk; [lia|].
  cbn [holdsFrom] in H. apply andb_true_iff in H as [H0 H].
  destruct (Z.eq_dec k start) as [-> | N]; [exact H0|].
  apply (IH (start + 1)%Z H). lia.
Qed.

(** [Math.floor(x)] as an integer, for a finite [x]. *)
Definition wholeSeconds (x : float) : Z :=
  match Prim2SF x with
  | S754_finite s m e => wholePart s m e
  | _ => 0%Z
  end.

Example wholeSeconds_examples :
  wholeSeconds 95.5 = 95%Z /\ wholeSeconds 0.9999999999999999 = 0%Z
  /\ wholeSeconds 5999.999999999999 = 5999%Z /\ wholeSeconds 6000 = 6000%Z
  /\ wholeSeconds (-0.5) = (-1)%Z.
Proof. vm_compute. repeat split. Qed.

(** The text for a whole number of seconds: the minutes and the seconds left,
    each as a decimal numeral of at least two digits. *)
Definition minutesAndSeconds (n : Z) : string :=
  (padStart 2 (decimal (n / 60)) ++ ":" ++ padStart 2 (decimal (n mod 60)))%string.

(** Below 100 minutes the division by 60, its floor and the remainder are
    the integer ones, and both numbers print as decimal numerals: checked on
    each whole second. *)
Lemma formatWhole_exact (numeral : float -> string) (n : Z) :
  (0 <= n < 6000)%Z -> formatWhole numeral (ofZ n) = minutesAndSeconds n.
Proof.
  intro H. apply String.eqb_eq.
  revert n H. change 6000%Z with (0 + 6000)%Z.
  rewrite <- (Z2Nat.id 6000) by lia.
  apply (holdsFrom_spec
           (fun n => String.eqb (formatWhole numeral (ofZ n)) (minutesAndSeconds n))).
  vm_compute. reflexivity.
Qed.

Lemma minutesAndSeconds_shape (n : Z) :
  (0 <= n < 6000)%Z ->
  String.length (minutesAndSeconds n) = 5%nat
  /\ String.get 2 (minutesAndSeconds n) = Some ":"%char.
Proof.
  intro H.
  assert (C : (String.length (minutesAndSeconds n) =? 5)%nat
              && match String.get 2 (minutesAndSeconds n) with
                 | Some c => Ascii.eqb c ":"
                 | None => false
                 end = true).
  { revert n H. change 6000%Z with (0 + 6000)%Z.
    rewrite <- (Z2Nat.id 6000) by lia.
    apply (holdsFrom_spec
             (fun n => (String.length (minutesAndSeconds n) =? 5)%nat
                       && match String.get 2 (minutesAndSeconds n) with
                          | Some c => Ascii.eqb c ":"
                          | None => false
                          end)).
    vm_compute. reflexivity. }
  apply andb_true_iff in C as [L G]. split; [now apply Nat.eqb_eq|].
  destruct (String.get 2 (minutesAndSeconds n)) as [c|]; [|discriminate G].
  apply Ascii.eqb_eq in G. now subst.
Qed.

(** A string of decimal digits. *)
Fixpoint digits (s : string) : bool :=
  match s with
  | EmptyString => true
  | String c s' =>
      (48 <=? nat_of_ascii c)%nat && (nat_of_ascii c <=? 57)%nat && digits s'
  end.

(** The number a string of digits denotes. *)
Definition valueOf (s : string) : option N :=
  option_map N.of_uint (NilEmpty.uint_of_string s).

Lemma digits_string_of_uint (d : Decimal.uint) :
  digits (NilEmpty.string_of_uint d) = true.
Proof. induction d; cbn; auto. Qed.

Lemma valueOf_decimal (n : Z) : valueOf (decimal n) = Some (Z.to_N n).
Proof.
  unfold valueOf, decimal.
  rewrite NilEmpty.usu. cbn. now rewrite DecimalN.Unsigned.of_to.
Qed.

Lemma valueOf_zero (s : string) : valueOf (String "0" s) = valueOf s.
Proof.
  unfold valueOf. cbn.
  destruct (NilEmpty.uint_of_string s); reflexivity.
Qed.

Lemma padStart_cases (s : string) :
  padStart 2 s = s \/ padStart 2 s = String "0" s
  \/ padStart 2 s = String "0" (String "0" s).
Proof.
  unfold padStart.
  destruct s as [|a [|b s]]; cbn; auto.
Qed.

Lemma valueOf_padStart (s : string) : valueOf (padStart 2 s) = valueOf s.
Proof.
  destruct (padStart_cases s) as [-> | [-> | ->]];
    now rewrite ?valueOf_zero.
Qed.

Lemma digits_padStart (s : string) :
  digits s = true -> digits (padStart 2 s) = true.
Proof.
  intro H. destruct (padStart_cases s) as [-> | [-> | ->]]; cbn; auto.
Qed.

(** Two texts of digits, each followed by a colon and more text, are equal
    only part by part. *)
Lemma colon_split (x y u v : string) :
  digits x = true -> digits y = true ->
  (x ++ String ":" u = y ++ String ":" v)%string -> x = y /\ u = v.
Proof.
  revert y. induction x as [|a x IH]; intros [|b y] Hx Hy H; cbn in *.
  - injection H as ->. auto.
  - injection H as <- _. exfalso. cbn in Hy. discriminate Hy.
  - injection H as -> _. exfalso. cbn in Hx. discriminate Hx.
  - injection H as -> H.
    apply andb_true_iff in Hx as [_ Hx]. apply andb_true_iff in Hy as [_ Hy].
    destruct (IH y Hx Hy H) as [-> ->]. auto.
Qed.

Lemma minutesAndSeconds_inj (a b : Z) :
  (0 <= a)%Z -> (0 <= b)%Z ->
  minutesAndSeconds a = minutesAndSeconds b -> a = b.
Proof.
  intros Ha Hb E. unfold minutesAndSeconds in E.
  apply colon_split in E as [Em Es];
    try (apply digits_padStart, digits_string_of_uint).
  apply (f_equal valueOf) in Em, Es.
  rewrite !valueOf_padStart, !valueOf_decimal in Em, Es.
  injection Em as Em. injection Es as Es.
  apply Z2N.inj in Em; [|apply Z.div_pos; lia..].
  apply Z2N.inj in Es; [|apply Z.mod_pos_bound; lia..].
  rewrite (Z.div_mod a 60), (Z.div_mod b 60) by lia.
  now rewrite Em, Es.
Qed.

(** The mantissa of a binary64 number has at most 53 bits. *)
Lemma digits2_bound (m : positive) :
  (2 ^ (Zpos (digits2_pos m) - 1) <= Zpos m < 2 ^ Zpos (digits2_pos m))%Z.
Proof.
  induction m as [p IH | p IH |]; cbn [digits2_pos];
    rewrite ?Pos2Z.inj_succ.
  - replace (Z.succ (Zpos (digits2_pos p)) - 1)%Z
      with (Z.succ (Zpos (digits2_pos p) - 1)) by lia.
    rewrite !Z.pow_succ_r by lia. lia.
  - replace (Z.succ (Zpos (digits2_pos p)) - 1)%Z
      with (Z.succ (Zpos (digits2_pos p) - 1)) by lia.
    rewrite !Z.pow_succ_r by lia. lia.
  - cbn. lia.
Qed.

Lemma mantissa_bound (x : float) (s : bool) (m : positive) (e : Z) :
  Prim2SF x = S754_finite s m e -> (Zpos m < 2 ^ 53)%Z.
Proof.
  intro E. pose proof (Prim2SF_valid x) as V. rewrite E in V.
  unfold valid_binary, SpecFloat.valid_binary, bounded in V.
  apply andb_true_iff in V as [C _].
  unfold canonical_mantissa in C. apply Z.eqb_eq in C.
  unfold SpecFloat.fexp in C.
  assert (D : (Zpos (digits2_pos m) <= 53)%Z) by (unfold prec in C; lia).
  pose proof (digits2_bound m) as [_ B].
  eapply Z.lt_le_trans; [exact B|]. apply Z.pow_le_mono_r; lia.
Qed.

(** A number from 0 to below 6000: it is a zero, or it is positive with a
    fractional part in its mantissa and a whole part below 6000. *)
Lemma below_6000 (x : float) :
  (0 <=? x) = true -> (x <? 6000) = true ->
  (exists s, Prim2SF x = S754_zero s)
  \/ exists m e, Prim2SF x = S754_finite false m e /\ (e < 0)%Z
                 /\ (0 <= wholePart false m e < 6000)%Z.
Proof.
  rewrite leb_spec, ltb_spec, Double.SFleb_rank, Double.SFltb_rank.
  change (Prim2SF 0) with (S754_zero false).
  replace (Prim2SF 6000) with (S754_finite false 6597069766656000 (-40))
    by (vm_compute; reflexivity).
  intros (a & b & A & B & L) (b' & c & B' & C & U).
  pose proof (mantissa_bound x) as M.
  destruct (Prim2SF x) as [s|s| |[] m e]; try discriminate B.
  - left. now exists s.
  - exfalso. destruct s; cbn in *; injection B' as <-; injection C as <-;
      injection A as <-; injection B as <-;
      [destruct L as [L|L]; [cbn in L; lia | discriminate L] | cbn in U; lia].
  - exfalso. cbn in *. injection A as <-. injection B as <-.
    destruct L as [L|L]; [cbn in L; lia | discriminate L].
  - right. exists m, e. split; [reflexivity|].
    cbn in B', C. injection B' as <-. injection C as <-. cbn in U.
    specialize (M false m e eq_refl).
    assert (E : (e <= -40)%Z) by lia.
    split; [lia|]. unfold wholePart.
    replace (0 <=? e)%Z with false by (symmetry; apply Z.leb_gt; lia).
    assert (P : (0 < 2 ^ (- e))%Z) by (apply Z.pow_pos_nonneg; lia).
    split; [apply Z.div_pos; lia|].
    apply Z.div_lt_upper_bound; [exact P|].
    destruct (Z.eq_dec e (-40)) as [-> | N].
    + change (2 ^ (- -40))%Z with 1099511627776%Z. lia.
    + assert (Q : (2 ^ 41 <= 2 ^ (- e))%Z) by (apply Z.pow_le_mono_r; lia).
      change (2 ^ 41)%Z with 2199023255552%Z in Q.
      change (2 ^ 53)%Z with 9007199254740992%Z in M. lia.
Qed.

Lemma formatTime_below (numeral : float -> string) (x : float) :
  (0 <=? x) = true -> (x <? 6000) = true ->
  (0 <= wholeSeconds x < 6000)%Z
  /\ formatTime numeral x = minutesAndSeconds (wholeSeconds x).
Proof.
  intros L U.
  assert (N : (x <? 0) = false).
  { destruct (x <? 0) eqn:E; [|reflexivity].
    apply Double.ltb_not_leb in E. congruence. }
  destruct (below_6000 x L U) as [[s E] | (m & e & E & Neg & B)].
  - assert (X : x = SF2Prim (S754_zero s))
      by (now rewrite <- E, SF2Prim_Prim2SF).
    subst x. destruct s; vm_compute; split; try split; congruence.
  - unfold formatTime, isNaN, isFinite, floor, wholeSeconds.
    rewrite N, E. cbn [negb orb].
    replace (0 <=? e)%Z with false by (symmetry; apply Z.leb_gt; lia).
    split; [exact B|]. now apply formatWhole_exact.
Qed.

(** X16.  [formatTime] answers "00:00" for a time that is [NaN], infinite
    or negative.  A time from 0 to below 6000 seconds (100 minutes) shows as
    the minutes and the remaining seconds of its whole seconds, each with two
    decimal digits: five characters with the colon in the middle; two such
    times show the same text exactly when they have the same whole second.
    From 100 minutes on the minutes take more digits, and from 2^53 minutes
    on they print as the engine's shortest numeral of a binary64 number, not
    as the decimal numeral of the quotient. *)
Theorem formatTime_whole_seconds (numeral : float -> string) :
  (forall seconds : float,
      isNaN seconds || negb (isFinite seconds) || (seconds <? 0) = true ->
      formatTime numeral seconds = "00:00"%string)
  /\ formatTime numeral PrimFloat.nan = "00:00"%string
  /\ formatTime numeral PrimFloat.infinity = "00:00"%string
  /\ formatTime numeral PrimFloat.neg_infinity = "00:00"%string
  /\ formatTime numeral (-3) = "00:00"%string
  /\ (forall seconds : float,
        (0 <=? seconds) = true -> (seconds <? 6000) = true ->
        let n := wholeSeconds seconds in
        (0 <= n < 6000)%Z
        /\ formatTime numeral seconds
           = (padStart 2 (decimal (n / 60)) ++ ":"
              ++ padStart 2 (decimal (n mod 60)))%string
        /\ String.length (formatTime numeral seconds) = 5%nat
        /\ String.get 2 (formatTime numeral seconds) = Some ":"%char)
  /\ (forall a b : float,
        (0 <=? a) = true -> (a <? 6000) = true ->
        (0 <=? b) = true -> (b <? 6000) = true ->
        (formatTime numeral a = formatTime numeral b
         <-> wholeSeconds a = wholeSeconds b))
  /\ formatTime numeral 95.5 = "01:35"%string
  /\ formatTime numeral 6000 = "100:00"%string
  /\ formatTime numeral 1e21
     = (padStart 2 (numeral 16666666666666665984) ++ ":40")%string.
Proof.
  split; [|repeat split].
  - intros seconds G. unfold formatTime. now rewrite G.
  - destruct (formatTime_below numeral seconds H H0) as [[B _] _]. exact B.
  - destruct (formatTime_below numeral seconds H H0) as [[_ B] _]. exact B.
  - destruct (formatTime_below numeral seconds H H0) as [_ F]. exact F.
  - destruct (formatTime_below numeral seconds H H0) as [B F]. rewrite F.
    now apply minutesAndSeconds_shape.
  - destruct (formatTime_below numeral seconds H H0) as [B F]. rewrite F.
    now apply minutesAndSeconds_shape.
  - destruct (formatTime_below numeral a H H0) as [[A _] ->].
    destruct (formatTime_below numeral b H1 H2) as [[B _] ->].
    now apply minutesAndSeconds_inj.
  - destruct (formatTime_below numeral a H H0) as [_ ->].
    destruct (formatTime_below numeral b H1 H2) as [_ ->].
    now intros ->.
Qed.

(** The theorem at work. *)
Lemma formatTime_whole_seconds_witness :
  formatTime (fun _ => "?"%string) 754.2 = "12:34"%string
  /\ formatTime (fun _ => "?"%string) 95.5
     = formatTime (fun _ => "?"%string) 95.
Proof.
  destruct (formatTime_whole_seconds (fun _ => "?"%string))
    as (_ & _ & _ & _ & _ & T & I & _).
  split.
  - destruct (T 754.2 eq_refl eq_refl) as (_ & E & _). exact E.
  - apply (I 95.5 95 eq_refl eq_refl eq_refl eq_refl). reflexivity.
Defined.

End Formatters.

(** ** The file control ([FileUpload])

    [src/components/file-upload.tsx]: the validation of a chosen file and the
    simulated upload that precedes [onFileSelect].  [formatBytes] and
    [toUpperCase], which only shape the text of two notices, are parameters
    of the model. *)

Module FileUpload.

Import Page.

(** A [File] object as the control reads it: the object itself (what the
    page is handed: identity and name), its size in bytes and its MIME
    type. *)
Record UploadFile : Type := { file : File; size : Z; type_ : string }.

(** The control: its props ([currentFile], [disabled], [maxSize],
    [supportedFormats]), its state variables, and its surroundings: the live
    [setInterval] callbacks (each with the file and the [progress] variable it
    closed over), the pending [setTimeout] callbacks, the files handed to
    [onFileSelect], the calls of [onRemoveFile] and the notices. *)
Record t : Type :=
  { currentFile : option File;
    disabled : bool;
    maxSize : Z;
    supportedFormats : list string;
    dragging : bool;
    uploadingFile : option UploadFile;
    uploadProgress : option Q;
    intervals : list (UploadFile * Q);
    timeouts : list UploadFile;
    filesSelected : list UploadFile;
    removals : nat;
    toasts : list Toast }.

Definition setCurrentFile (v : option File) (c : t) : t :=
  {| currentFile := v; disabled := disabled c; maxSize := maxSize c;
     supportedFormats := supportedFormats c; dragging := dragging c;
     uploadingFile := uploadingFile c; uploadProgress := uploadProgress c;
     intervals := intervals c; timeouts := timeouts c;
     filesSelected := filesSelected c; removals := removals c;
     toasts := toasts c |}.

Definition setDisabled (v : bool) (c : t) : t :=
  {| currentFile := currentFile c; disabled := v; maxSize := maxSize c;
     supportedFormats := supportedFormats c; dragging := dragging c;
     uploadingFile := uploadingFile c; uploadProgress := uploadProgress c;
     intervals := intervals c; timeouts := timeouts c;
     filesSelected := filesSelected c; removals := removals c;
     toasts := toasts c |}.

Definition setDragging (v : bool) (c : t) : t :=
  {| currentFile := currentFile c; disabled := disabled c;
     maxSize := maxSize c; supportedFormats := supportedFormats c;
     dragging := v; uploadingFile := uploadingFile c;
     uploadProgress := uploadProgress c; intervals := intervals c;
     timeouts := timeouts c; filesSelected := filesSelected c;
     removals := removals c; toasts := toasts c |}.

Definition setUploadingFile (v : option UploadFile) (c : t) : t :=
  {| currentFile := currentFile c; disabled := disabled c;
     maxSize := maxSize c; supportedFormats := supportedFormats c;
     dragging := dragging c; uploadingFile := v;
     uploadProgress := uploadProgress c; intervals := intervals c;
     timeouts := timeouts c; filesSelected := filesSelected c;
     removals := removals c; toasts := toasts c |}.

Definition setUploadProgress (v : option Q) (c : t) : t :=
  {| currentFile := currentFile c; disabled := disabled c;
     maxSize := maxSize c; supportedFormats := supportedFormats c;
     dragging := dragging c; uploadingFile := uploadingFile c;
     uploadProgress := v; intervals := intervals c; timeouts := timeouts c;
     filesSelected := filesSelected c; removals := removals c;
     toasts := toasts c |}.

Definition setIntervals (v : list (UploadFile * Q)) (c : t) : t :=
  {| currentFile := currentFile c; disabled := disabled c;
     maxSize := maxSize c; supportedFormats := supportedFormats c;
     dragging := dragging c; uploadingFile := uploadingFile c;
     uploadProgress := uploadProgress c; intervals := v;
     timeouts := timeouts c; filesSelected := filesSelected c;
     removals := removals c; toasts := toasts c |}.

Definition setTimeouts (v : list UploadFile) (c : t) : t :=
  {| currentFile := currentFile c; disabled := disabled c;
     maxSize := maxSize c; supportedFormats := supportedFormats c;
     dragging := dragging c; uploadingFile := uploadingFile c;
     uploadProgress := uploadProgress c; intervals := intervals c;
     timeouts := v; filesSelected := filesSelected c; removals := removals c;
     toasts := toasts c |}.

Definition setFilesSelected (v : list UploadFile) (c : t) : t :=
  {| currentFile := currentFile c; disabled := disabled c;
     maxSize := maxSize c; supportedFormats := supportedFormats c;
     dragging := dragging c; uploadingFile := uploadingFile c;
     uploadProgress := uploadProgress c; intervals := intervals c;
     timeouts := timeouts c; filesSelected := v; removals := removals c;
     toasts := toasts c |}.

Definition setRemovals (v : nat) (c : t) : t :=
  {| currentFile := currentFile c; disabled := disabled c;
     maxSize := maxSize c; supportedFormats := supportedFormats c;
     dragging := dragging c; uploadingFile := uploadingFile c;
     uploadProgress := uploadProgress c; intervals := intervals c;
     timeouts := timeouts c; filesSelected := filesSelected c; removals := v;
     toasts := toasts c |}.

Definition setToasts (v : list Toast) (c : t) : t :=
  {| currentFile := currentFile c; disabled := disabled c;
     maxSize := maxSize c; supportedFormats := supportedFormats c;
     dragging := dragging c; uploadingFile := uploadingFile c;
     uploadProgress := uploadProgress c; intervals := intervals c;
     timeouts := timeouts c; filesSelected := filesSelected c;
     removals := removals c; toasts := v |}.

Definition toast (x : Toast) (c : t) : t := setToasts (toasts c ++ [x]) c.

(** [a === b] on two [File] objects. *)
Definition sameObject (a b : UploadFile) : bool := File_eqb (file a) (file b).

Definition isSome {A : Type} (x : option A) : bool :=
  match x with Some _ => true | None => false end.

(** [l[i] = v] inside the list. *)
Fixpoint replaceNth {A : Type} (i : nat) (v : A) (l : list A) : list A :=
  match l, i with
  | [], _ => []
  | _ :: rest, O => v :: rest
  | x :: rest, S j => x :: replaceNth j v rest
  end.

(** *** Validation *)

(** [`.${file.name.split('.').pop()?.toLowerCase()}`] *)
Definition fileExtension (f : UploadFile) : string :=
  "." ++ JS.toLowerCase (JS.pop (JS.split "." (name (file f)))).

(** The callback of [supportedFormats.some]. *)
Definition supports (f : UploadFile) (format : string) : bool :=
  if JS.startsWith format "." then
    String.eqb (fileExtension f) (JS.toLowerCase format)
  else if JS.endsWith format "/*" then
    JS.startsWith (type_ f) (JS.dropLast format)
  else String.eqb (type_ f) format.

Definition isSupported (formats : list string) (f : UploadFile) : bool :=
  existsb (supports f) formats.

(** [.filter((value, index, self) => self.indexOf(value) === index)] *)
Fixpoint firstOccurrences (seen : list string) (l : list string) : list string :=
  match l with
  | [] => []
  | value :: rest =>
      if existsb (String.eqb value) seen then firstOccurrences seen rest
      else value :: firstOccurrences (value :: seen) rest
  end.

Section Validation.

Variable formatBytes : Z -> string.
Variable toUpperCase : string -> string.

Definition friendlyFormats (formats : list string) : string :=
  JS.join ", "
    (firstOccurrences []
       (map (fun f =>
               if JS.startsWith f "." then toUpperCase f
               else toUpperCase (hd "" (JS.split "/" f)))
            formats)).

Definition tooLargeToast (f : UploadFile) (c : t) : Toast :=
  {| title := "File Too Large";
     description :=
       Some (quote ++ name (file f) ++ quote ++ " (" ++ formatBytes (size f)
             ++ ") exceeds the current client-side limit of "
             ++ formatBytes (maxSize c)
             ++ ". Very large files may still fail during AI processing.");
     variant := Some destructive; duration := Some 7000%Z |}.

Definition unsupportedToast (f : UploadFile) (c : t) : Toast :=
  {| title := "Unsupported File Type";
     description :=
       Some (quote ++ name (file f) ++ quote ++ " ("
             ++ toUpperCase (fileExtension f) ++ " / "
             ++ (if JS.truthy (type_ f) then type_ f else "unknown")
             ++ ") is not supported. Please use: "
             ++ friendlyFormats (supportedFormats c) ++ ".");
     variant := Some destructive; duration := None |}.

(** [validateFile]: the answer, and the control with the notice issued. *)
Definition validateFile (f : UploadFile) (c : t) : bool * t :=
  if (maxSize c <? size f)%Z then (false, toast (tooLargeToast f c) c)
  else if negb (isSupported (supportedFormats c) f)
  then (false, toast (unsupportedToast f c) c)
  else (true, c).

(** *** The simulated upload *)

(** In the handlers [r] is the render the handler closed over and [c] the
    control as updated so far. *)
Definition startUploadSimulation (r : t) (f : UploadFile) (c : t) : t :=
  if disabled r || isSome (uploadProgress r) then c
  else
    c |> setUploadingFile (Some f)
      |> setUploadProgress (Some 0)
      |> (fun c => setIntervals (intervals c ++ [(f, 0)]) c).

(** The callback of the interval: [random] is what [Math.random()]
    returned. *)
Definition intervalCallback (i : nat) (random : Q) (c : t) : t :=
  match nth_error (intervals c) i with
  | None => c
  | Some (f, progress) =>
      let progress := progress + (random * 15 + 5) in
      let progress := Num.min progress 100 in
      let c := setUploadProgress (Some progress) c in
      if Num.ge progress 100 then
        c |> setIntervals (removeNth i (intervals c))
          |> (fun c => setFilesSelected (filesSelected c ++ [f]) c)
          |> (fun c => setTimeouts (timeouts c ++ [f]) c)
      else setIntervals (replaceNth i (f, progress) (intervals c)) c
  end.

(** The callback of the [setTimeout] that follows the completion. *)
Definition timeoutCallback (i : nat) (c : t) : t :=
  match nth_error (timeouts c) i with
  | None => c
  | Some f =>
      let c := setTimeouts (removeNth i (timeouts c)) c in
      match uploadingFile c with
      | Some prevFile =>
          if sameObject prevFile f
          then c |> setUploadProgress None |> setUploadingFile None
          else c
      | None => c
      end
  end.

(** [handleFileChange]: [chosen] is [event.target.files?.[0]]. *)
Definition handleFileChange (r : t) (chosen : option UploadFile) (c : t) : t :=
  if disabled r || isSome (uploadProgress r) then c
  else
    match chosen with
    | Some f =>
        let '(valid, c) := validateFile f c in
        if valid then startUploadSimulation r f c else c
    | None => c
    end.

Definition handleDrop (r : t) (chosen : option UploadFile) (c : t) : t :=
  if disabled r || isSome (uploadProgress r) then c
  else
    let c := setDragging false c in
    match chosen with
    | Some f =>
        let '(valid, c) := validateFile f c in
        if valid then startUploadSimulation r f c else c
    | None => c
    end.

Definition handleDragOver (r : t) (carriesFiles : bool) (c : t) : t :=
  if disabled r || isSome (uploadProgress r) then c
  else if carriesFiles then setDragging true c else c.

Definition handleDragLeave (r : t) (toInside : bool) (c : t) : t :=
  if disabled r || isSome (uploadProgress r) then c
  else if toInside then c else setDragging false c.

Definition handleRemoveFile (r : t) (c : t) : t :=
  if disabled r then c
  else
    c |> setUploadingFile None
      |> setUploadProgress None
      |> (fun c => setRemovals (S (removals c)) c).

(** *** Effects and render *)

(** [useEffect(..., [currentFile, uploadingFile])] *)
Definition useEffect_currentFile (c : t) : t :=
  if sameFile (currentFile c) (option_map file (uploadingFile c)) then c
  else c |> setUploadingFile None |> setUploadProgress None.

(** [useEffect(..., [disabled])] *)
Definition useEffect_disabled (c : t) : t :=
  if disabled c
  then c |> setUploadingFile None |> setUploadProgress None
         |> setDragging false
  else c.

Definition currentFileDeps (r c : t) : bool :=
  sameFile (currentFile r) (currentFile c)
  && sameFile (option_map file (uploadingFile r))
       (option_map file (uploadingFile c)).

(** The commit that follows a handler run from the render [r]: the effects
    whose dependencies changed run, and because they may set
    [uploadingFile], the first effect is considered once more for the render
    they cause. *)
Definition commit (r : t) (c : t) : t :=
  let c1 := if currentFileDeps r c then c else useEffect_currentFile c in
  let c2 := if Bool.eqb (disabled r) (disabled c) then c1
            else useEffect_disabled c1 in
  if currentFileDeps c c2 then c2 else useEffect_currentFile c2.

Definition isUploading (c : t) : bool :=
  isSome (uploadProgress c) && isSome (uploadingFile c).

Definition displayFile (c : t) : bool :=
  negb (isUploading c) && isSome (currentFile c) && negb (disabled c).

(** What can happen to the control. *)
Inductive Event : Type :=
| FileChosen (chosen : option UploadFile)
| FileDropped (chosen : option UploadFile)
| DragOver (carriesFiles : bool)
| DragLeave (toInside : bool)
| RemoveClicked
| IntervalFired (i : nat) (random : Q)
| TimeoutFired (i : nat)
| ParentRendered (currentFile : option File) (disabled : bool).

Definition handler (e : Event) (c : t) : t :=
  match e with
  | FileChosen chosen => handleFileChange c chosen c
  | FileDropped chosen => handleDrop c chosen c
  | DragOver carriesFiles => handleDragOver c carriesFiles c
  | DragLeave toInside => handleDragLeave c toInside c
  | RemoveClicked => handleRemoveFile c c
  | IntervalFired i random => intervalCallback i random c
  | TimeoutFired i => timeoutCallback i c
  | ParentRendered currentFile disabled =>
      c |> setCurrentFile currentFile |> setDisabled disabled
  end.

Definition step (c : t) (e : Event) : t := commit c (handler e c).

(** The interval fires once per number of the list. *)
Definition runTicks (randoms : list Q) (c : t) : t :=
  fold_left (fun c random => step c (IntervalFired 0 random)) randoms c.

End Validation.

(** The control as the page mounts it. *)
Definition pageFormats : list string :=
  [".mp3"; ".wav"; ".m4a"; ".aac"; ".flac"; ".ogg"; ".opus"; ".mp4"; ".mov";
   ".avi"; ".webm"; ".mpeg"].

Definition fileUploadMaxSize : Z := 1024 * 1024 * 1024.

Definition mounted : t :=
  {| currentFile := None; disabled := false; maxSize := fileUploadMaxSize;
     supportedFormats := pageFormats; dragging := false;
     uploadingFile := None; uploadProgress := None; intervals := [];
     timeouts := []; filesSelected := []; removals := 0%nat; toasts := [] |}.

(** *** Properties of the validation *)

Lemma last_app_single {A : Type} (l : list A) (x d : A) :
  List.last (l ++ [x]) d = x.
Proof.
  induction l as [|y l IH]; [reflexivity|].
  cbn. destruct (l ++ [x])%list eqn:E; [now destruct l | exact IH].
Qed.

(** The extension is read off the part of the name behind its last dot, or
    off the whole name when it has no dot. *)
Lemma fileExtension_dotted (f : UploadFile) (stem ext : string) :
  name (file f) = stem ++ String "." ext -> JS.contains "." ext = false ->
  fileExtension f = "." ++ JS.toLowerCase ext.
Proof.
  intros H N. unfold fileExtension, JS.pop. rewrite H, JS.split_app.
  rewrite (JS.split_without _ _ N).
  now rewrite last_app_single.
Qed.

Lemma fileExtension_no_dot (f : UploadFile) :
  JS.contains "." (name (file f)) = false ->
  fileExtension f = "." ++ JS.toLowerCase (name (file f)).
Proof.
  intro N. unfold fileExtension, JS.pop.
  now rewrite (JS.split_without _ _ N).
Qed.

Lemma pageFormats_extensions :
  Forall (fun format =>
            JS.startsWith format "." = true /\ JS.toLowerCase format = format)
    pageFormats.
Proof. repeat constructor. Qed.

Lemma isSupported_pageFormats (f : UploadFile) :
  isSupported pageFormats f = true <-> In (fileExtension f) pageFormats.
Proof.
  pose proof pageFormats_extensions as P. rewrite Forall_forall in P.
  unfold isSupported. rewrite existsb_exists. split.
  - intros (format & Hin & Hs). destruct (P format Hin) as [D L].
    unfold supports in Hs. rewrite D, L in Hs.
    apply String.eqb_eq in Hs. now rewrite Hs.
  - intro Hin. exists (fileExtension f). split; [exact Hin|].
    destruct (P _ Hin) as [D L]. unfold supports. rewrite D, L.
    apply String.eqb_refl.
Qed.

Lemma accepted_iff (b : bool) (x y : t) (P Q : Prop) :
  (b = true <-> Q) -> P ->
  (fst (if negb b then (false, x) else (true, y)) = true <-> P /\ Q).
Proof.
  intros [H1 H2] HP. destruct b; cbn; split; auto; try discriminate.
  intros [_ HQ]. now apply H2.
Qed.

Section ValidationProperties.

Variable formatBytes : Z -> string.
Variable toUpperCase : string -> string.

(** X17.  Which files the control accepts.  As the page mounts it (a list of
    twelve extensions), a file is accepted exactly when its size is at most
    [maxSize] and its extension is in the list; the extension is the lower
    case of what follows the last dot of the name, or of the whole name when
    it has no dot, so the MIME type plays no part and a file named just "MP3"
    is accepted.  With the formats "audio/*" and "video/*" a file is accepted
    exactly when its size is at most [maxSize] and its MIME type starts with
    "audio/" or "video/".  An accepted file issues no notice; a rejected
    one issues exactly one, destructive-styled. *)
Theorem validateFile_accepts (f : UploadFile) (c : t) :
  (supportedFormats c = pageFormats ->
     (fst (validateFile formatBytes toUpperCase f c) = true
      <-> (size f <= maxSize c)%Z /\ In (fileExtension f) pageFormats)
     /\ (forall mimeType,
           fst (validateFile formatBytes toUpperCase
                  {| file := file f; size := size f; type_ := mimeType |} c)
           = fst (validateFile formatBytes toUpperCase f c)))
  /\ (forall stem ext,
        name (file f) = stem ++ String "." ext ->
        JS.contains "." ext = false ->
        fileExtension f = "." ++ JS.toLowerCase ext)
  /\ (JS.contains "." (name (file f)) = false ->
      fileExtension f = "." ++ JS.toLowerCase (name (file f)))
  /\ (supportedFormats c = ["audio/*"; "video/*"] ->
      (fst (validateFile formatBytes toUpperCase f c) = true
       <-> (size f <= maxSize c)%Z
           /\ (JS.startsWith (type_ f) "audio/" = true
               \/ JS.startsWith (type_ f) "video/" = true)))
  /\ (fst (validateFile formatBytes toUpperCase f c) = true ->
      snd (validateFile formatBytes toUpperCase f c) = c)
  /\ (fst (validateFile formatBytes toUpperCase f c) = false ->
      exists notice,
        snd (validateFile formatBytes toUpperCase f c) = toast notice c
        /\ isDestructive notice = true).
Proof.
  split; [|split; [|split; [|split; [|split]]]].
  - intro F. split.
    + unfold validateFile. rewrite F.
      destruct (Z.ltb_spec (maxSize c) (size f)) as [L|L]; cbn [fst].
      * split; [discriminate | intros [H _]; lia].
      * apply accepted_iff; [apply isSupported_pageFormats | exact L].
    + intro mimeType. unfold validateFile. rewrite F. cbn [size].
      destruct (maxSize c <? size f)%Z; [reflexivity|].
      assert (E : isSupported pageFormats
                    {| file := file f; size := size f; type_ := mimeType |}
                  = isSupported pageFormats f) by reflexivity.
      rewrite E. now destruct (isSupported pageFormats f).
  - apply fileExtension_dotted.
  - apply fileExtension_no_dot.
  - intro F. unfold validateFile. rewrite F.
    destruct (Z.ltb_spec (maxSize c) (size f)) as [L|L]; cbn [fst].
    + split; [discriminate | intros [H _]; lia].
    + unfold isSupported. cbn [existsb supports].
      change (JS.startsWith "audio/*" ".") with false.
      change (JS.startsWith "video/*" ".") with false.
      change (JS.endsWith "audio/*" "/*") with true.
      change (JS.endsWith "video/*" "/*") with true.
      change (JS.dropLast "audio/*") with "audio/".
      change (JS.dropLast "video/*") with "video/".
      cbv iota. apply accepted_iff; [|exact L].
      rewrite orb_false_r, orb_true_iff. reflexivity.
  - unfold validateFile.
    destruct (maxSize c <? size f)%Z; [discriminate|].
    destruct (negb (isSupported (supportedFormats c) f)); [discriminate|].
    reflexivity.
  - unfold validateFile.
    destruct (maxSize c <? size f)%Z; [eexists; split; reflexivity|].
    destruct (negb (isSupported (supportedFormats c) f));
      [eexists; split; reflexivity | discriminate].
Qed.

End ValidationProperties.

(** The theorem at work: a recording without a MIME type, and a file named
    by its extension alone. *)
Definition interview : UploadFile :=
  {| file := {| fileId := 7; name := "Interview.Final.MP3" |};
     size := 5000000; type_ := "" |}.

Lemma validateFile_accepts_witness :
  fst (validateFile (fun _ => "") (fun s => s) interview mounted) = true
  /\ fileExtension {| file := {| fileId := 8; name := "MP3" |};
                      size := 1; type_ := "" |} = ".mp3".
Proof.
  destruct (validateFile_accepts (fun _ => "") (fun s => s) interview mounted)
    as (A & B & _).
  split.
  - apply (proj1 (A eq_refl)). split.
    + vm_compute. discriminate.
    + rewrite (B "Interview.Final" "MP3" eq_refl eq_refl). cbn. tauto.
  - exact (proj1 (proj2 (proj2
             (validateFile_accepts (fun _ => "") (fun s => s)
                {| file := {| fileId := 8; name := "MP3" |};
                   size := 1; type_ := "" |} mounted))) eq_refl).
Defined.

(** *** Properties of the simulated upload *)

(** The control at rest: enabled, no simulation running. *)
Definition idle (c : t) : Prop :=
  disabled c = false /\ uploadProgress c = None /\ uploadingFile c = None
  /\ intervals c = [].

(** The simulation of [f] after [k] ticks, seen from the control [c] it
    started on: either the interval is live, its [progress] between [5 k]
    and [20 k] and below 100, and the file has not been handed over; or the
    interval is cleared, at least six ticks have passed, and the file has
    been handed over once. *)
Definition simulating (c : t) (f : UploadFile) (k : nat) (s : t) : Prop :=
  currentFile s = currentFile c /\ disabled s = false
  /\ uploadingFile s = None
  /\ ((exists progress,
         intervals s = [(f, progress)]
         /\ (5 * inject_Z (Z.of_nat k) <= progress)%Q
         /\ (progress <= 20 * inject_Z (Z.of_nat k))%Q
         /\ (progress < 100)%Q
         /\ filesSelected s = filesSelected c
         /\ match uploadProgress s with
            | Some shown => shown = progress
            | None => k = 0%nat
            end)
      \/ (intervals s = []
          /\ (6 <= k)%nat
          /\ filesSelected s = (filesSelected c ++ [f])%list
          /\ exists shown, uploadProgress s = Some shown /\ (shown == 100)%Q)).

Section Simulation.

Variable formatBytes : Z -> string.
Variable toUpperCase : string -> string.

Lemma started_simulating (c : t) (f : UploadFile) :
  idle c -> sameFile (currentFile c) (Some (file f)) = false ->
  fst (validateFile formatBytes toUpperCase f c) = true ->
  simulating c f 0 (step formatBytes toUpperCase c (FileChosen (Some f)))
  /\ uploadProgress (step formatBytes toUpperCase c (FileChosen (Some f)))
     = None
  /\ intervals (step formatBytes toUpperCase c (FileChosen (Some f)))
     = [(f, 0)].
Proof.
  intros (D & P & U & I) F V.
  unfold step, handler, handleFileChange. rewrite D, P. cbn [orb isSome].
  unfold validateFile in *.
  destruct (maxSize c <? size f)%Z; [discriminate V|].
  destruct (negb (isSupported (supportedFormats c) f)); [discriminate V|].
  unfold startUploadSimulation. rewrite D, P. cbn [orb isSome].
  destruct c as [cf di ms sf dr uf up iv ti fs rm ts]. cbn in *. subst.
  unfold commit, currentFileDeps, useEffect_currentFile. cbn.
  rewrite sameFile_refl. cbn. rewrite F. cbn.
  rewrite sameFile_refl. cbn.
  assert (E : sameFile cf None = true \/ sameFile cf None = false)
    by (destruct (sameFile cf None); auto).
  destruct E as [E|E]; rewrite E; cbn; (split; [|split; reflexivity]);
    (split; [reflexivity|]); (split; [reflexivity|]); (split; [reflexivity|]);
    left; exists 0; change (inject_Z (Z.of_nat 0)) with 0%Q;
    (split; [reflexivity|]); (split; [lra|]); (split; [lra|]);
    (split; [lra|]); split; reflexivity.
Qed.

Lemma tick_simulating (c : t) (f : UploadFile) (k : nat) (s : t) (random : Q) :
  (0 <= random)%Q -> (random < 1)%Q ->
  simulating c f k s ->
  simulating c f (S k) (step formatBytes toUpperCase s (IntervalFired 0 random)).
Proof.
  intros R0 R1 (Hc & Hd & Hu & H).
  assert (K : inject_Z (Z.of_nat (S k)) == inject_Z (Z.of_nat k) + 1).
  { rewrite Nat2Z.inj_succ. unfold Z.succ. rewrite inject_Z_plus. reflexivity. }
  unfold step, handler, intervalCallback.
  destruct s as [cf di ms sf dr uf up iv ti fs rm ts]. cbn in *. subst.
  destruct H as [(progress & -> & L1 & L2 & L3 & Hf & Hs)
                | (-> & Hk & Hf & Hs)].
  - cbn [nth_error].
    remember (Num.min (progress + (random * 15 + 5)) 100) as next eqn:En.
    unfold Num.min in En.
    destruct (Q.min_spec (progress + (random * 15 + 5)) 100) as [[A B]|[A B]];
      rewrite <- En in B; clear En.
    + assert (G : Num.ge next 100 = false).
      { unfold Num.ge. destruct (Qle_bool 100 next) eqn:E; [|reflexivity].
        apply Qle_bool_iff in E. lra. }
      rewrite G. unfold commit, currentFileDeps. cbn.
      rewrite !sameFile_refl. cbn.
      repeat split. left. exists next. rewrite K.
      repeat split; try lra. exact Hf.
    + assert (G : Num.ge next 100 = true).
      { unfold Num.ge. apply Qle_bool_iff. lra. }
      rewrite G. unfold commit, currentFileDeps. cbn.
      rewrite !sameFile_refl. cbn.
      repeat split. right. repeat split.
      * destruct (le_lt_dec 5 k) as [|Lt]; [lia|]. exfalso.
        assert (inject_Z (Z.of_nat k) <= 4).
        { change 4%Q with (inject_Z 4). rewrite <- Zle_Qle. lia. }
        lra.
      * now rewrite Hf.
      * exists next. split; [reflexivity | exact B].
  - cbn [nth_error]. unfold commit, currentFileDeps. cbn.
    rewrite !sameFile_refl. cbn.
    repeat split. right. repeat split; [lia | exact Hf | exact Hs].
Qed.

Lemma runTicks_simulating (c : t) (f : UploadFile) (randoms : list Q) :
  Forall (fun random => 0 <= random /\ random < 1)%Q randoms ->
  forall k s,
    simulating c f k s ->
    simulating c f (k + List.length randoms)
      (runTicks formatBytes toUpperCase randoms s).
Proof.
  induction 1 as [|random randoms [R0 R1] _ IH]; intros k s H.
  - cbn. now rewrite Nat.add_0_r.
  - cbn [runTicks fold_left List.length].
    replace (k + S (List.length randoms))%nat
      with (S k + List.length randoms)%nat by lia.
    apply IH. now apply tick_simulating.
Qed.

(** X18.  The simulated upload hands the file over exactly once, after at
    least 6 and at most 20 ticks of its interval.  On a control at rest, a
    chosen file that passes the validation (and is not the object the page
    already holds) starts one interval; whatever numbers [Math.random]
    returns (each at least 0 and below 1), after five ticks or fewer
    [onFileSelect] has not been called and the interval is live, after twenty
    ticks or more it has been called exactly once with that file and the
    interval is cleared; in between, the progress shown never exceeds 100. *)
Theorem upload_hands_over_once (c : t) (f : UploadFile) (randoms : list Q) :
  idle c -> sameFile (currentFile c) (Some (file f)) = false ->
  fst (validateFile formatBytes toUpperCase f c) = true ->
  Forall (fun random => 0 <= random /\ random < 1)%Q randoms ->
  let final :=
    runTicks formatBytes toUpperCase randoms
      (step formatBytes toUpperCase c (FileChosen (Some f))) in
  (filesSelected final = filesSelected c
   \/ filesSelected final = (filesSelected c ++ [f])%list)
  /\ ((List.length randoms <= 5)%nat ->
      filesSelected final = filesSelected c /\ intervals final <> [])
  /\ ((20 <= List.length randoms)%nat ->
      filesSelected final = (filesSelected c ++ [f])%list
      /\ intervals final = [])
  /\ (forall shown, uploadProgress final = Some shown ->
        (0 <= shown <= 100)%Q).
Proof.
  intros Hi Hf Hv Hr final.
  destruct (started_simulating c f Hi Hf Hv) as (S0 & _ & _).
  pose proof (runTicks_simulating c f randoms Hr 0 _ S0) as S.
  fold final in S. cbn [Nat.add] in S.
  destruct S as (_ & _ & _ & [(progress & I & L1 & L2 & L3 & F & P)
                             | (I & K & F & shown & P & E)]).
  - split; [now left|]. split; [|split].
    + intros _. split; [exact F | rewrite I; discriminate].
    + intro K. exfalso.
      assert (20 <= inject_Z (Z.of_nat (List.length randoms)))%Q.
      { change 20%Q with (inject_Z 20). rewrite <- Zle_Qle. lia. }
      lra.
    + intros shown Hs. rewrite Hs in P. subst shown.
      assert (0 <= inject_Z (Z.of_nat (List.length randoms)))%Q.
      { change 0%Q with (inject_Z 0). rewrite <- Zle_Qle. lia. }
      lra.
  - split; [now right|]. split; [|split].
    + intro L. lia.
    + intros _. split; [exact F | exact I].
    + intros shown' Hs. rewrite Hs in P. injection P as ->. lra.
Qed.

Lemma simulating_hidden (c : t) (f : UploadFile) (k : nat) (s : t) :
  simulating c f k s ->
  isUploading s = false
  /\ ((0 < k)%nat -> isSome (uploadProgress s) = true).
Proof.
  intros (_ & _ & U & H). unfold isUploading. rewrite U.
  split; [apply andb_false_r|]. intro K.
  destruct H as [(progress & _ & _ & _ & _ & _ & P)|(_ & _ & _ & shown & -> & _)];
    [|reflexivity].
  destruct (uploadProgress s); [reflexivity | lia].
Qed.

(** X19.  The progress box of the simulated upload is not shown.  The
    effect on [[currentFile, uploadingFile]] resets [uploadingFile] in the
    commit that follows the start of the simulation, because the page does
    not hold the chosen file yet; so [isUploading] is false once the
    simulation has started and after every tick, although the interval runs
    and sets [uploadProgress].  From the first tick on, [uploadProgress] makes
    the control ignore a file chosen or dropped; it is cleared when the page
    renders the control with the chosen file as [currentFile]. *)
Theorem upload_box_not_shown (c : t) (f : UploadFile) (randoms : list Q) :
  idle c -> sameFile (currentFile c) (Some (file f)) = false ->
  fst (validateFile formatBytes toUpperCase f c) = true ->
  Forall (fun random => 0 <= random /\ random < 1)%Q randoms ->
  let started := step formatBytes toUpperCase c (FileChosen (Some f)) in
  let final := runTicks formatBytes toUpperCase randoms started in
  isUploading started = false
  /\ intervals started = [(f, 0)]
  /\ isUploading final = false
  /\ (randoms <> [] ->
      forall chosen,
        handler formatBytes toUpperCase (FileChosen chosen) final = final
        /\ handler formatBytes toUpperCase (FileDropped chosen) final = final)
  /\ forall nowDisabled,
       let rendered :=
         step formatBytes toUpperCase final
           (ParentRendered (Some (file f)) nowDisabled) in
       uploadProgress rendered = None /\ uploadingFile rendered = None
       /\ isUploading rendered = false.
Proof.
  intros Hi Hf Hv Hr started final.
  destruct (started_simulating c f Hi Hf Hv) as (S0 & P0 & I0).
  fold started in S0, P0, I0.
  pose proof (runTicks_simulating c f randoms Hr 0 _ S0) as S.
  fold final in S. cbn [Nat.add] in S.
  split; [apply (simulating_hidden c f 0 started S0)|].
  split; [exact I0|].
  split; [apply (simulating_hidden c f _ final S)|].
  split.
  - intros N chosen.
    assert (K : (0 < List.length randoms)%nat)
      by (destruct randoms; [contradiction | cbn; lia]).
    pose proof (proj2 (simulating_hidden c f _ final S) K) as B.
    unfold handler, handleFileChange, handleDrop. rewrite B.
    now rewrite !orb_true_r.
  - intros nowDisabled. cbv zeta.
    destruct S as (Hc & Hd & Hu & _).
    unfold step, handler.
    destruct final as [cf di ms sf dr uf up iv ti fs rm ts]. cbn in *. subst.
    unfold commit, currentFileDeps, useEffect_currentFile,
      useEffect_disabled, isUploading.
    cbn. rewrite Hf. cbn.
    destruct nowDisabled; cbn;
      destruct (File_eqb (file f) (file f) && true); cbn; repeat split.
Qed.

End Simulation.

(** The theorems at work: twenty ticks of five percent each. *)
Lemma upload_hands_over_once_witness :
  filesSelected
    (runTicks (fun _ => "") (fun s => s) (repeat 0%Q 20)
       (step (fun _ => "") (fun s => s) mounted (FileChosen (Some interview))))
  = [interview].
Proof.
  refine (proj1 (proj1 (proj2 (proj2
            (upload_hands_over_once (fun _ => "") (fun s => s) mounted
               interview (repeat 0%Q 20) _ _ _ _))) _)).
  - repeat split.
  - reflexivity.
  - vm_compute. reflexivity.
  - repeat (constructor; [split; lra|]). constructor.
  - cbn. lia.
Defined.

Lemma upload_box_not_shown_witness :
  isUploading
    (runTicks (fun _ => "") (fun s => s) [0.5; 0.25]%Q
       (step (fun _ => "") (fun s => s) mounted (FileChosen (Some interview))))
  = false.
Proof.
  refine (proj1 (proj2 (proj2
            (upload_box_not_shown (fun _ => "") (fun s => s) mounted
               interview [0.5; 0.25]%Q _ _ _ _)))).
  - repeat split.
  - reflexivity.
  - vm_compute. reflexivity.
  - repeat (constructor; [split; lra|]). constructor.
Defined.

End FileUpload.

(** ** Export and integration ([ExportIntegration])

    The component [ExportIntegration], whose source follows the formatters in
    [src/lib/formatters.ts]: the text export, the copy to the clipboard and
    the requests to the integrations; and the [fileNameBase] the page derives
    from the selected file.  The date of the day enters as a parameter. *)

Module ExportIntegration.

Import Page.

Inductive IntegrationService : Type := notion | confluence.

(** [{ title, content }] *)
Record PageCreateRequest : Type :=
  { requestTitle : string; requestContent : string }.

(** A callback waiting in the timer queue. *)
Inductive Timer : Type :=
| ClearIsDownloading   (* [setTimeout(() => setIsDownloading(false), 500)] *)
| ClearIsCopying.      (* [setTimeout(() => setIsCopying(false), 1000)] *)

(** The component: its props, its state variables, and its surroundings (the
    notices, the timer queue, the files handed to [saveAs] as name and
    content, the texts handed to [navigator.clipboard.writeText], the
    requests handed to the integration services). *)
Record t : Type :=
  { transcript : string;
    summary : string;
    fileNameBase : string;
    disabled : bool;
    isDownloading : bool;
    isCopying : bool;
    integrationLoading : option IntegrationService;
    pageTitle : string;
    customizeTxtFilename : bool;
    txtCustomName : string;
    toasts : list Toast;
    timers : list Timer;
    filesSaved : list (string * string);
    clipboardWrites : list string;
    requests : list (IntegrationService * PageCreateRequest) }.

Definition setFileNameBase (v : string) (c : t) : t :=
  {| transcript := transcript c; summary := summary c; fileNameBase := v;
     disabled := disabled c; isDownloading := isDownloading c;
     isCopying := isCopying c; integrationLoading := integrationLoading c;
     pageTitle := pageTitle c;
     customizeTxtFilename := customizeTxtFilename c;
     txtCustomName := txtCustomName c; toasts := toasts c;
     timers := timers c; filesSaved := filesSaved c;
     clipboardWrites := clipboardWrites c; requests := requests c |}.

Definition setIsDownloading (v : bool) (c : t) : t :=
  {| transcript := transcript c; summary := summary c;
     fileNameBase := fileNameBase c; disabled := disabled c;
     isDownloading := v; isCopying := isCopying c;
     integrationLoading := integrationLoading c; pageTitle := pageTitle c;
     customizeTxtFilename := customizeTxtFilename c;
     txtCustomName := txtCustomName c; toasts := toasts c;
     timers := timers c; filesSaved := filesSaved c;
     clipboardWrites := clipboardWrites c; requests := requests c |}.

Definition setIsCopying (v : bool) (c : t) : t :=
  {| transcript := transcript c; summary := summary c;
     fileNameBase := fileNameBase c; disabled := disabled c;
     isDownloading := isDownloading c; isCopying := v;
     integrationLoading := integrationLoading c; pageTitle := pageTitle c;
     customizeTxtFilename := customizeTxtFilename c;
     txtCustomName := txtCustomName c; toasts := toasts c;
     timers := timers c; filesSaved := filesSaved c;
     clipboardWrites := clipboardWrites c; requests := requests c |}.

Definition setIntegrationLoading (v : option IntegrationService) (c : t) : t :=
  {| transcript := transcript c; summary := summary c;
     fileNameBase := fileNameBase c; disabled := disabled c;
     isDownloading := isDownloading c; isCopying := isCopying c;
     integrationLoading := v; pageTitle := pageTitle c;
     customizeTxtFilename := customizeTxtFilename c;
     txtCustomName := txtCustomName c; toasts := toasts c;
     timers := timers c; filesSaved := filesSaved c;
     clipboardWrites := clipboardWrites c; requests := requests c |}.

Definition setPageTitle (v : string) (c : t) : t :=
  {| transcript := transcript c; summary := summary c;
     fileNameBase := fileNameBase c; disabled := disabled c;
     isDownloading := isDownloading c; isCopying := isCopying c;
     integrationLoading := integrationLoading c; pageTitle := v;
     customizeTxtFilename := customizeTxtFilename c;
     txtCustomName := txtCustomName c; toasts := toasts c;
     timers := timers c; filesSaved := filesSaved c;
     clipboardWrites := clipboardWrites c; requests := requests c |}.

Definition setCustomizeTxtFilename (v : bool) (c : t) : t :=
  {| transcript := transcript c; summary := summary c;
     fileNameBase := fileNameBase c; disabled := disabled c;
     isDownloading := isDownloading c; isCopying := isCopying c;
     integrationLoading := integrationLoading c; pageTitle := pageTitle c;
     customizeTxtFilename := v; txtCustomName := txtCustomName c;
     toasts := toasts c; timers := timers c; filesSaved := filesSaved c;
     clipboardWrites := clipboardWrites c; requests := requests c |}.

Definition setTxtCustomName (v : string) (c : t) : t :=
  {| transcript := transcript c; summary := summary c;
     fileNameBase := fileNameBase c; disabled := disabled c;
     isDownloading := isDownloading c; isCopying := isCopying c;
     integrationLoading := integrationLoading c; pageTitle := pageTitle c;
     customizeTxtFilename := customizeTxtFilename c; txtCustomName := v;
     toasts := toasts c; timers := timers c; filesSaved := filesSaved c;
     clipboardWrites := clipboardWrites c; requests := requests c |}.

Definition setToasts (v : list Toast) (c : t) : t :=
  {| transcript := transcript c; summary := summary c;
     fileNameBase := fileNameBase c; disabled := disabled c;
     isDownloading := isDownloading c; isCopying := isCopying c;
     integrationLoading := integrationLoading c; pageTitle := pageTitle c;
     customizeTxtFilename := customizeTxtFilename c;
     txtCustomName := txtCustomName c; toasts := v; timers := timers c;
     filesSaved := filesSaved c; clipboardWrites := clipboardWrites c;
     requests := requests c |}.

Definition setTimers (v : list Timer) (c : t) : t :=
  {| transcript := transcript c; summary := summary c;
     fileNameBase := fileNameBase c; disabled := disabled c;
     isDownloading := isDownloading c; isCopying := isCopying c;
     integrationLoading := integrationLoading c; pageTitle := pageTitle c;
     customizeTxtFilename := customizeTxtFilename c;
     txtCustomName := txtCustomName c; toasts := toasts c; timers := v;
     filesSaved := filesSaved c; clipboardWrites := clipboardWrites c;
     requests := requests c |}.

Definition setFilesSaved (v : list (string * string)) (c : t) : t :=
  {| transcript := transcript c; summary := summary c;
     fileNameBase := fileNameBase c; disabled := disabled c;
     isDownloading := isDownloading c; isCopying := isCopying c;
     integrationLoading := integrationLoading c; pageTitle := pageTitle c;
     customizeTxtFilename := customizeTxtFilename c;
     txtCustomName := txtCustomName c; toasts := toasts c;
     timers := timers c; filesSaved := v;
     clipboardWrites := clipboardWrites c; requests := requests c |}.

Definition setClipboardWrites (v : list string) (c : t) : t :=
  {| transcript := transcript c; summary := summary c;
     fileNameBase := fileNameBase c; disabled := disabled c;
     isDownloading := isDownloading c; isCopying := isCopying c;
     integrationLoading := integrationLoading c; pageTitle := pageTitle c;
     customizeTxtFilename := customizeTxtFilename c;
     txtCustomName := txtCustomName c; toasts := toasts c;
     timers := timers c; filesSaved := filesSaved c; clipboardWrites := v;
     requests := requests c |}.

Definition setRequests (v : list (IntegrationService * PageCreateRequest)) (c : t) : t :=
  {| transcript := transcript c; summary := summary c;
     fileNameBase := fileNameBase c; disabled := disabled c;
     isDownloading := isDownloading c; isCopying := isCopying c;
     integrationLoading := integrationLoading c; pageTitle := pageTitle c;
     customizeTxtFilename := customizeTxtFilename c;
     txtCustomName := txtCustomName c; toasts := toasts c;
     timers := timers c; filesSaved := filesSaved c;
     clipboardWrites := clipboardWrites c; requests := v |}.

Definition toast (x : Toast) (c : t) : t := setToasts (toasts c ++ [x]) c.

Definition setTimeout (x : Timer) (c : t) : t := setTimers (timers c ++ [x]) c.

(** [useEffect(..., [fileNameBase])]; [localeDate] is
    [new Date().toLocaleDateString()]. *)
Definition useEffect_fileNameBase (localeDate : string) (c : t) : t :=
  let c := setPageTitle (fileNameBase c ++ " " ++ localeDate) c in
  if customizeTxtFilename c
  then setTxtCustomName (fileNameBase c ++ " " ++ localeDate) c
  else setTxtCustomName "" c.

(** *** The text export *)

(** The code units that [/[^a-z0-9_\-\s]/gi] leaves alone. *)
Definition safeUnit (ch : ascii) : bool :=
  let n := nat_of_ascii ch in
  ((97 <=? n)%nat && (n <=? 122)%nat) || ((65 <=? n)%nat && (n <=? 90)%nat)
  || ((48 <=? n)%nat && (n <=? 57)%nat) || (n =? 95)%nat || (n =? 45)%nat
  || JS.isWhiteSpace ch.

(** [s.replace(/[^a-z0-9_\-\s]/gi, '_')] *)
Fixpoint replaceUnsafe (s : string) : string :=
  match s with
  | EmptyString => EmptyString
  | String ch s' =>
      String (if safeUnit ch then ch else "_"%char) (replaceUnsafe s')
  end.

Definition contentToExport (r : t) : string :=
  if JS.truthy (summary r)
  then "SUMMARY:" ++ newline ++ summary r ++ newline ++ newline ++ "---"
       ++ newline ++ newline ++ "TRANSCRIPT:" ++ newline ++ transcript r
  else "TRANSCRIPT:" ++ newline ++ transcript r.

Definition chosenFileNameBase (r : t) : string :=
  let chosen := JS.trim (pageTitle r) in
  let chosen :=
    if customizeTxtFilename r && JS.truthy (JS.trim (txtCustomName r))
    then JS.trim (txtCustomName r) else chosen in
  if negb (JS.truthy chosen) then fileNameBase r else chosen.

Definition safeFileName (r : t) : string :=
  JS.substring0 50 (replaceUnsafe (chosenFileNameBase r)).

(** [isoDate] is [new Date().toISOString().split('T')[0]]. *)
Definition filename (isoDate : string) (r : t) : string :=
  safeFileName r ++ "_" ++ isoDate ++ ".txt".

Definition nothingToExportToast : Toast :=
  {| title := "Nothing to Export";
     description := Some "Generate a transcript or summary first.";
     variant := Some default; duration := None |}.

Definition emptyExportToast : Toast :=
  {| title := "Nothing to Export"; description := Some "Content is empty.";
     variant := Some default; duration := None |}.

(** [handleExportTxt]; [saveAsThrows] is what [saveAs] throws, if it
    throws. *)
Definition handleExportTxt (isoDate : string) (saveAsThrows : option Thrown)
  (r : t) (c : t) : t :=
  if disabled r then toast nothingToExportToast c
  else
    let c := setIsDownloading true c in
    let c :=
      if negb (JS.truthy (JS.trim (contentToExport r))) then
        c |> toast emptyExportToast |> setIsDownloading false
      else
        match saveAsThrows with
        | None =>
            c |> (fun c => setFilesSaved
                             (filesSaved c
                              ++ [(filename isoDate r, contentToExport r)]) c)
              |> toast {| title := "Export Successful";
                          description :=
                            Some ("File saved as " ++ filename isoDate r ++ ".");
                          variant := None; duration := None |}
        | Some error =>
            toast {| title := "Export Failed";
                     description :=
                       Some (messageOr error "Could not save the text file.");
                     variant := Some destructive; duration := None |} c
        end in
    setTimeout ClearIsDownloading c.

(** *** The copy to the clipboard *)

(** [summary.trim() || transcript.trim()] *)
Definition contentToCopy (r : t) : string :=
  if JS.truthy (JS.trim (summary r)) then JS.trim (summary r)
  else JS.trim (transcript r).

(** [handleCopyToClipboard] up to its [await]. *)
Definition handleCopyToClipboard_start (r : t) (c : t) : t :=
  if disabled r then
    toast {| title := "Nothing to Copy";
             description := Some "Generate a transcript or summary first.";
             variant := Some default; duration := None |} c
  else if negb (JS.truthy (contentToCopy r)) then
    toast {| title := "Nothing to Copy"; description := Some "Content is empty.";
             variant := Some default; duration := None |} c
  else
    c |> setIsCopying true
      |> (fun c => setClipboardWrites (clipboardWrites c ++ [contentToCopy r]) c).

(** [handleCopyToClipboard] from the moment [writeText] settles. *)
Definition handleCopyToClipboard_settled (written : bool) (r : t) (c : t) : t :=
  let c :=
    if written then
      toast {| title := "Copied to Clipboard!";
               description :=
                 Some (if JS.truthy (JS.trim (summary r))
                       then "Summary copied." else "Transcript copied.");
               variant := None; duration := None |} c
    else
      toast {| title := "Copy Failed";
               description :=
                 Some "Could not copy content to clipboard. Check browser permissions.";
               variant := Some destructive; duration := None |} c in
  setTimeout ClearIsCopying c.

(** *** The integrations *)

Definition serviceName (service : IntegrationService) : string :=
  match service with notion => "notion" | confluence => "confluence" end.

(** [pageTitle.trim() || fileNameBase] *)
Definition effectivePageTitle (r : t) : string :=
  if JS.truthy (JS.trim (pageTitle r)) then JS.trim (pageTitle r)
  else fileNameBase r.

Definition integrationContent (r : t) : string :=
  if JS.truthy (summary r)
  then "## Summary" ++ newline ++ newline ++ summary r ++ newline ++ newline
       ++ "---" ++ newline ++ newline ++ "## Transcript" ++ newline ++ newline
       ++ transcript r
  else "## Transcript" ++ newline ++ newline ++ transcript r.

(** [handleIntegration] up to its [await]. *)
Definition handleIntegration_start (service : IntegrationService) (r : t)
  (c : t) : t :=
  if disabled r then
    toast {| title := "Nothing to Integrate";
             description := Some "Generate a summary or transcript first.";
             variant := Some default; duration := None |} c
  else if negb (JS.truthy (JS.trim (effectivePageTitle r))) then
    toast {| title := "Title Required";
             description :=
               Some ("Please enter a title for the " ++ serviceName service
                     ++ " page.");
             variant := Some destructive; duration := None |} c
  else
    let c := setIntegrationLoading (Some service) c in
    if negb (JS.truthy (JS.trim (integrationContent r))) then
      c |> toast {| title := "Nothing to Integrate";
                    description := Some "Content is empty.";
                    variant := Some default; duration := None |}
        |> setIntegrationLoading None
    else
      setRequests
        (requests c
         ++ [(service, {| requestTitle := effectivePageTitle r;
                          requestContent := integrationContent r |})]) c.

Definition handleCheckboxChange (r : t) (isChecked : bool) (c : t) : t :=
  let c := setCustomizeTxtFilename isChecked c in
  if isChecked then setTxtCustomName (pageTitle r) c else c.

(** *** What the render derives *)

Definition isAnythingLoading (c : t) : bool :=
  isDownloading c || isCopying c
  || match integrationLoading c with Some _ => true | None => false end.

Definition shouldDisableActions (c : t) : bool :=
  disabled c || isAnythingLoading c
  || (negb (JS.truthy (JS.trim (transcript c)))
      && negb (JS.truthy (JS.trim (summary c)))).

Definition integrationTitleIsMissing (c : t) : bool :=
  negb (JS.truthy (JS.trim (pageTitle c))
        || JS.truthy (JS.trim (fileNameBase c))).

Definition shouldDisableIntegration (c : t) : bool :=
  shouldDisableActions c || integrationTitleIsMissing c.

(** *** The [fileNameBase] prop

    [selectedFile?.name.split('.').slice(0, -1).join('.')
     || (youtubeUrl ? 'youtube-transcribe-export' : 'xtranscribe-export')] *)
Definition fileNameBaseOf (s : Home) : string :=
  let fallback :=
    if JS.truthy (youtubeUrl s) then "youtube-transcribe-export"
    else "xtranscribe-export" in
  match selectedFile s with
  | Some f =>
      let stem := JS.join "." (JS.withoutLast (JS.split "." (name f))) in
      if JS.truthy stem then stem else fallback
  | None => fallback
  end.

(** The component as the page mounts it. *)
Definition mount (localeDate : string) (s : Home) : t :=
  {| transcript := fullTranscript s; summary := Page.summary s;
     fileNameBase := fileNameBaseOf s;
     disabled := featuresRequiringTranscriptDisabled s;
     isDownloading := false; isCopying := false; integrationLoading := None;
     pageTitle := fileNameBaseOf s ++ " " ++ localeDate;
     customizeTxtFilename := false; txtCustomName := ""; toasts := [];
     timers := []; filesSaved := []; clipboardWrites := []; requests := [] |}.

(** *** Properties of the export *)

(** Every code unit of [s] satisfies [p]. *)
Fixpoint everyUnit (p : ascii -> bool) (s : string) : bool :=
  match s with
  | EmptyString => true
  | String ch s' => p ch && everyUnit p s'
  end.

Lemma safeUnit_underscore : safeUnit "_"%char = true.
Proof. reflexivity. Qed.

Lemma replaceUnsafe_safe (s : string) : everyUnit safeUnit (replaceUnsafe s) = true.
Proof.
  induction s as [|ch s IH]; [reflexivity|].
  cbn [replaceUnsafe everyUnit]. rewrite IH, andb_true_r.
  destruct (safeUnit ch) eqn:E; [exact E | apply safeUnit_underscore].
Qed.

Lemma replaceUnsafe_idem (s : string) :
  everyUnit safeUnit s = true -> replaceUnsafe s = s.
Proof.
  induction s as [|ch s IH]; [reflexivity|]. cbn [everyUnit replaceUnsafe].
  intro H. apply andb_true_iff in H as [H1 H2]. now rewrite H1, IH.
Qed.

Lemma substring0_every (p : ascii -> bool) (n : nat) (s : string) :
  everyUnit p s = true -> everyUnit p (JS.substring0 n s) = true.
Proof.
  unfold JS.substring0. revert n.
  induction s as [|ch s IH]; intros [|n] H; try reflexivity.
  cbn in *. apply andb_true_iff in H as [H1 H2]. now rewrite H1, IH.
Qed.

Lemma substring0_length (n : nat) (s : string) :
  (String.length (JS.substring0 n s) <= n)%nat.
Proof.
  unfold JS.substring0. revert n.
  induction s as [|ch s IH]; intros [|n]; cbn; try lia.
  specialize (IH n). lia.
Qed.

Lemma substring0_short (n : nat) (s : string) :
  (String.length s <= n)%nat -> JS.substring0 n s = s.
Proof.
  unfold JS.substring0. revert n.
  induction s as [|ch s IH]; intros [|n] H; cbn in *; try reflexivity; try lia.
  rewrite IH by lia. reflexivity.
Qed.

(** The exported text starts with a heading, so it is never blank. *)
Lemma contentToExport_not_blank (r : t) :
  JS.onlyWhiteSpace (contentToExport r) = false.
Proof. unfold contentToExport. now destruct (JS.truthy (summary r)). Qed.

Lemma integrationContent_not_blank (r : t) :
  JS.onlyWhiteSpace (integrationContent r) = false.
Proof. unfold integrationContent. now destruct (JS.truthy (summary r)). Qed.

(** Trimming keeps a text blank or not blank. *)
Lemma trim_blank (s : string) :
  JS.onlyWhiteSpace (JS.trim s) = JS.onlyWhiteSpace s.
Proof.
  pose proof (JS.truthy_trim (JS.trim s)) as T.
  rewrite JS.trim_idem, JS.truthy_trim in T.
  destruct (JS.onlyWhiteSpace s), (JS.onlyWhiteSpace (JS.trim s));
    try reflexivity; discriminate T.
Qed.

(** The notice of a file that was saved. *)
Definition exportSuccessfulToast (isoDate : string) (r : t) : Toast :=
  {| title := "Export Successful";
     description := Some ("File saved as " ++ filename isoDate r ++ ".");
     variant := None; duration := None |}.

(** X20.  The text export.  Unless the component is disabled, and unless
    [saveAs] throws, [handleExportTxt] saves exactly one file and reports it
    with the "Export Successful" notice; the "Content is empty" notice cannot
    occur, because the exported text starts with a heading.  The text is the
    summary section followed by the transcript section when the summary is
    not the empty string, the transcript section alone otherwise.  The name
    of the file is a base of at most 50 code units, every one a letter, a
    digit, an underscore, a hyphen or white space, followed by an underscore,
    the date and ".txt"; the base comes from the custom name (when the box is
    ticked and the name is not blank), else from the page title, else from
    [fileNameBase], each trimmed but the last, with every other code unit
    replaced by an underscore.  The download flag is set and the callback that
    clears it is queued. *)
Theorem export_saves_one_file (isoDate : string) (r c : t) :
  disabled r = false ->
  let c' := handleExportTxt isoDate None r c in
  filesSaved c'
  = (filesSaved c ++ [(filename isoDate r, contentToExport r)])%list
  /\ toasts c'
     = (toasts c ++ [exportSuccessfulToast isoDate r])%list
  /\ isDownloading c' = true
  /\ timers c' = (timers c ++ [ClearIsDownloading])%list
  /\ filename isoDate r = safeFileName r ++ "_" ++ isoDate ++ ".txt"
  /\ (String.length (safeFileName r) <= 50)%nat
  /\ everyUnit safeUnit (safeFileName r) = true
  /\ safeFileName r = JS.substring0 50 (replaceUnsafe (chosenFileNameBase r))
  /\ chosenFileNameBase r
     = (if customizeTxtFilename r && negb (JS.onlyWhiteSpace (txtCustomName r))
        then JS.trim (txtCustomName r)
        else if negb (JS.onlyWhiteSpace (pageTitle r))
             then JS.trim (pageTitle r)
             else fileNameBase r).
Proof.
  intros D c'. subst c'. unfold handleExportTxt. rewrite D.
  rewrite JS.truthy_trim, contentToExport_not_blank. cbn.
  repeat split.
  - apply substring0_length.
  - apply substring0_every, replaceUnsafe_safe.
  - unfold chosenFileNameBase. rewrite <- !JS.truthy_trim.
    destruct (customizeTxtFilename r && JS.truthy (JS.trim (txtCustomName r)))
      eqn:E.
    + apply andb_true_iff in E as [_ E]. now rewrite E.
    + destruct (JS.truthy (JS.trim (pageTitle r))); reflexivity.
Qed.

(** The theorem at work: a title with a slash in its date. *)
Definition exporting : t :=
  {| transcript := "Hello world"; summary := ""; fileNameBase := "meeting";
     disabled := false; isDownloading := false; isCopying := false;
     integrationLoading := None; pageTitle := "meeting 11/3/2026";
     customizeTxtFilename := false; txtCustomName := ""; toasts := [];
     timers := []; filesSaved := []; clipboardWrites := []; requests := [] |}.

Lemma export_saves_one_file_witness :
  filesSaved (handleExportTxt "2026-11-03" None exporting exporting)
  = [("meeting 11_3_2026_2026-11-03.txt",
      "TRANSCRIPT:" ++ newline ++ "Hello world")].
Proof.
  exact (proj1 (export_saves_one_file "2026-11-03" exporting exporting eq_refl)).
Defined.

(** X21.  A button that reacts always acts.  When the export and copy
    buttons are enabled, [handleCopyToClipboard] hands a text to the
    clipboard that has a character other than white space: the trimmed
    summary when the summary is not blank, the trimmed transcript otherwise;
    it sets the copying flag, which disables the buttons.  When the
    integration buttons are enabled, [handleIntegration] sends one request to
    the chosen service: its title is the trimmed page title, or
    [fileNameBase] as it is when the page title is blank, and is not blank;
    its content starts with a heading.  None of the "Nothing to ..." and
    "Title Required" notices is issued in either case. *)
Theorem enabled_actions_proceed (c : t) :
  (shouldDisableActions c = false ->
     let c' := handleCopyToClipboard_start c c in
     clipboardWrites c' = (clipboardWrites c ++ [contentToCopy c])%list
     /\ JS.onlyWhiteSpace (contentToCopy c) = false
     /\ contentToCopy c
        = (if JS.onlyWhiteSpace (summary c) then JS.trim (transcript c)
           else JS.trim (summary c))
     /\ toasts c' = toasts c
     /\ isCopying c' = true
     /\ shouldDisableActions c' = true)
  /\ (shouldDisableIntegration c = false ->
      forall service,
        let c' := handleIntegration_start service c c in
        requests c'
        = (requests c
           ++ [(service, {| requestTitle := effectivePageTitle c;
                            requestContent := integrationContent c |})])%list
        /\ effectivePageTitle c
           = (if JS.onlyWhiteSpace (pageTitle c) then fileNameBase c
              else JS.trim (pageTitle c))
        /\ JS.onlyWhiteSpace (effectivePageTitle c) = false
        /\ JS.onlyWhiteSpace (integrationContent c) = false
        /\ toasts c' = toasts c
        /\ integrationLoading c' = Some service).
Proof.
  split.
  - intro H. unfold shouldDisableActions in H.
    apply orb_false_iff in H as [H B]. apply orb_false_iff in H as [D L].
    rewrite !JS.truthy_trim, !negb_involutive in B.
    assert (C : contentToCopy c
                = (if JS.onlyWhiteSpace (summary c) then JS.trim (transcript c)
                   else JS.trim (summary c))).
    { unfold contentToCopy. rewrite JS.truthy_trim.
      now destruct (JS.onlyWhiteSpace (summary c)). }
    assert (N : JS.onlyWhiteSpace (contentToCopy c) = false).
    { rewrite C. destruct (JS.onlyWhiteSpace (summary c)) eqn:S.
      - rewrite andb_true_r in B. now rewrite trim_blank.
      - now rewrite trim_blank. }
    assert (Tr : JS.truthy (contentToCopy c) = true).
    { destruct (contentToCopy c); [discriminate N | reflexivity]. }
    cbv zeta. unfold handleCopyToClipboard_start. rewrite D, Tr. cbn.
    repeat split; try assumption.
    unfold shouldDisableActions, isAnythingLoading. cbn.
    rewrite (orb_true_r (isDownloading c)). cbn.
    now rewrite (orb_true_r (disabled c)).
  - intro H. unfold shouldDisableIntegration in H.
    apply orb_false_iff in H as [H M]. unfold shouldDisableActions in H.
    apply orb_false_iff in H as [H _]. apply orb_false_iff in H as [D _].
    unfold integrationTitleIsMissing in M. apply negb_false_iff in M.
    rewrite !JS.truthy_trim in M.
    assert (E : effectivePageTitle c
                = (if JS.onlyWhiteSpace (pageTitle c) then fileNameBase c
                   else JS.trim (pageTitle c))).
    { unfold effectivePageTitle. rewrite JS.truthy_trim.
      now destruct (JS.onlyWhiteSpace (pageTitle c)). }
    assert (N : JS.onlyWhiteSpace (effectivePageTitle c) = false).
    { rewrite E. destruct (JS.onlyWhiteSpace (pageTitle c)) eqn:S.
      - cbn in M. now apply negb_true_iff in M.
      - now rewrite trim_blank. }
    intros service. cbv zeta. unfold handleIntegration_start.
    rewrite D, !JS.truthy_trim, N, integrationContent_not_blank. cbn.
    repeat split; try assumption.
Qed.

(** The theorem at work. *)
Lemma enabled_actions_proceed_witness :
  clipboardWrites (handleCopyToClipboard_start exporting exporting)
  = ["Hello world"]
  /\ requests (handleIntegration_start confluence exporting exporting)
     = [(confluence,
         {| requestTitle := "meeting 11/3/2026";
            requestContent :=
              "## Transcript" ++ newline ++ newline ++ "Hello world" |})].
Proof.
  destruct (enabled_actions_proceed exporting) as [A B].
  split.
  - exact (proj1 (A eq_refl)).
  - exact (proj1 (B eq_refl confluence)).
Defined.

(** *** The base name the page hands over *)

(** X22.  The base name of a selected file is its name without the last
    extension: for a name [stem ++ "." ++ ext] whose [ext] has no dot the
    base is [stem], dots inside [stem] included.  A name without any dot has
    no stem, and so has a name that is only an extension (an empty [stem]):
    both get the fallback name, 'youtube-transcribe-export' when the URL
    field is not empty and 'xtranscribe-export' otherwise, as does a page
    with no file selected. *)
Theorem fileNameBase_drops_extension (s : Home) (f : File) :
  selectedFile s = Some f ->
  let fallback :=
    if JS.truthy (youtubeUrl s) then "youtube-transcribe-export"
    else "xtranscribe-export" in
  (forall stem ext,
      name f = stem ++ String "." ext -> JS.contains "." ext = false ->
      fileNameBaseOf s = if JS.truthy stem then stem else fallback)
  /\ (JS.contains "." (name f) = false -> fileNameBaseOf s = fallback).
Proof.
  intros F fallback. unfold fileNameBaseOf. rewrite F. fold fallback. split.
  - intros stem ext N E.
    rewrite N, JS.split_app, (JS.split_without _ _ E).
    unfold JS.withoutLast. rewrite removelast_last, JS.join_split.
    reflexivity.
  - intro E. rewrite (JS.split_without _ _ E). reflexivity.
Qed.

(** The theorem at work: a recording with a dot in its stem. *)
Definition recordingSelected : Home :=
  Page.setSelectedFile
    (Some {| fileId := 0; name := "team.sync.mp3" |}) Page.initial.

Lemma fileNameBase_drops_extension_witness :
  fileNameBaseOf recordingSelected = "team.sync".
Proof.
  exact (proj1 (fileNameBase_drops_extension recordingSelected
                  {| fileId := 0; name := "team.sync.mp3" |} eq_refl)
           "team.sync" "mp3" eq_refl eq_refl).
Defined.

(** The base of the export's name when it comes from the page title. *)
Definition titleFileNameBase (c : t) : string :=
  if JS.onlyWhiteSpace (pageTitle c) then fileNameBase c
  else JS.trim (pageTitle c).

Lemma chosenFileNameBase_title (r : t) :
  customizeTxtFilename r = false \/ txtCustomName r = pageTitle r ->
  chosenFileNameBase r = titleFileNameBase r.
Proof.
  unfold chosenFileNameBase, titleFileNameBase. intros [H|H]; rewrite H.
  - cbn. rewrite JS.truthy_trim.
    now destruct (JS.onlyWhiteSpace (pageTitle r)).
  - rewrite !JS.truthy_trim.
    destruct (JS.onlyWhiteSpace (pageTitle r)) eqn:E;
      destruct (customizeTxtFilename r); cbn; now rewrite JS.truthy_trim, E.
Qed.

(** X23.  The custom file name starts from the page title.  Right after
    the box "customize file name" is ticked or unticked, and right after the
    effect on [fileNameBase] has run, the text export is named after the page
    title (trimmed; [fileNameBase] when the title is blank), whatever custom
    name was typed before: ticking copies the title into the custom name,
    unticking ignores the custom name, and the effect overwrites both the
    title and the custom name. *)
Theorem export_name_follows_title (c : t) (isChecked : bool)
  (localeDate : string) :
  chosenFileNameBase (handleCheckboxChange c isChecked c) = titleFileNameBase c
  /\ pageTitle (handleCheckboxChange c isChecked c) = pageTitle c
  /\ chosenFileNameBase (useEffect_fileNameBase localeDate c)
     = titleFileNameBase (useEffect_fileNameBase localeDate c)
  /\ pageTitle (useEffect_fileNameBase localeDate c)
     = fileNameBase c ++ " " ++ localeDate.
Proof.
  repeat split.
  - rewrite chosenFileNameBase_title.
    + unfold titleFileNameBase, handleCheckboxChange.
      destruct isChecked; reflexivity.
    + unfold handleCheckboxChange. destruct isChecked; [right | left];
        reflexivity.
  - unfold handleCheckboxChange. destruct isChecked; reflexivity.
  - apply chosenFileNameBase_title. unfold useEffect_fileNameBase.
    cbn. destruct (customizeTxtFilename c) eqn:E; cbn;
      [right; reflexivity | left; exact E].
  - unfold useEffect_fileNameBase. cbn.
    destruct (customizeTxtFilename c); reflexivity.
Qed.

End ExportIntegration.
